(** * FC_Tools: the Supervisor Agent client, its setup scripts and its tool loop

    A shallow embedding of the parts of the repository that the specification
    talks about:

    - [frontend/src/lib/types.ts]: the request, envelope and report types;
    - [frontend/src/lib/api.ts]: the fetch wrappers, [runAgent],
      [getReportsList] and [buildReportDownloadUrl];
    - [frontend/src/lib/hooks/useAgentChat.ts] and [useReports.ts]: the two
      hooks, as transformers of their React state;
    - the report list component: [getRenderModeDisplay];
    - [scripts/fix_agent.sh] and [scripts/fix_supervisor.sh]: the repair of
      the [.env] file;
    - the bounded tool loop of the backend, which is not among the sources
      and is modelled from the specification.

    JavaScript strings are represented by their UTF-8 bytes ([string]).  A
    surrogate that has no partner, for which UTF-8 proper has no bytes, is
    held as the three bytes ED A0..BF 80..BF of its code point (D800 to
    DFFF), which UTF-8 never uses, so that the strings that are not
    well-formed are strings of the model too. *)

From Stdlib Require Import String Ascii List Bool Arith Lia ZArith.
From Stdlib Require Import Numbers.DecimalString.
Import ListNotations.
Open Scope string_scope.
Open Scope nat_scope.

Set Implicit Arguments.
Set Warnings "-register-all".

(* ================================================================== *)
(** * JavaScript string built-ins used by the client *)
(* ================================================================== *)

Module Js.

(** One-byte white space and line terminators: TAB, LF, VT, FF, CR, SP. *)
Definition is_ascii_space (c : ascii) : bool :=
  let n := nat_of_ascii c in
  ((9 <=? n) && (n <=? 13)) || (n =? 32).

(** U+00A0 is the only two-byte white space (C2 A0). *)
Definition is_space2 (c1 c2 : ascii) : bool :=
  (nat_of_ascii c1 =? 194) && (nat_of_ascii c2 =? 160).

(** Three-byte white space: U+1680, U+2000..U+200A, U+2028, U+2029,
    U+202F, U+205F, U+3000 and U+FEFF. *)
Definition is_space3 (c1 c2 c3 : ascii) : bool :=
  let a := nat_of_ascii c1 in
  let b := nat_of_ascii c2 in
  let c := nat_of_ascii c3 in
  ((a =? 225) && (b =? 154) && (c =? 128))
  || ((a =? 226) && (b =? 128)
      && (((128 <=? c) && (c <=? 138)) || (c =? 168) || (c =? 169) || (c =? 175)))
  || ((a =? 226) && (b =? 129) && (c =? 159))
  || ((a =? 227) && (b =? 128) && (c =? 128))
  || ((a =? 239) && (b =? 187) && (c =? 191)).

(** [String.prototype.trimStart]. *)
Fixpoint trimStart (s : string) : string :=
  match s with
  | EmptyString => EmptyString
  | String c1 r1 =>
      if is_ascii_space c1 then trimStart r1
      else match r1 with
           | String c2 r2 =>
               if is_space2 c1 c2 then trimStart r2
               else match r2 with
                    | String c3 r3 =>
                        if is_space3 c1 c2 c3 then trimStart r3 else s
                    | EmptyString => s
                    end
           | EmptyString => s
           end
  end.

(** The string consists of white space only. *)
Fixpoint all_space (s : string) : bool :=
  match s with
  | EmptyString => true
  | String c1 r1 =>
      if is_ascii_space c1 then all_space r1
      else match r1 with
           | String c2 r2 =>
               if is_space2 c1 c2 then all_space r2
               else match r2 with
                    | String c3 r3 =>
                        if is_space3 c1 c2 c3 then all_space r3 else false
                    | EmptyString => false
                    end
           | EmptyString => false
           end
  end.

(** [String.prototype.trimEnd]: the longest white-space suffix goes. *)
Fixpoint trimEnd (s : string) : string :=
  match s with
  | EmptyString => EmptyString
  | String c r => if all_space s then EmptyString else String c (trimEnd r)
  end.

(** [String.prototype.trim]. *)
Definition trim (s : string) : string := trimEnd (trimStart s).

(** [String.prototype.startsWith]. *)
Definition startsWith (s p : string) : bool := String.prefix p s.

(** [String.prototype.includes]. *)
Fixpoint includes (s needle : string) : bool :=
  if String.prefix needle s then true
  else match s with
       | EmptyString => false
       | String _ r => includes r needle
       end.

(** [Array.prototype.join] on an array of strings. *)
Definition join (sep : string) (l : list string) : string :=
  String.concat sep l.

(** Truthiness of a string: every string but the empty one. *)
Definition truthy (s : string) : bool :=
  match s with EmptyString => false | String _ _ => true end.

(** Truthiness of a possibly undefined string. *)
Definition truthy_opt (o : option string) : bool :=
  match o with Some s => truthy s | None => false end.

(** [a || d] for a possibly undefined (or null) string [a]. *)
Definition or_default (o : option string) (d : string) : string :=
  match o with
  | Some s => if truthy s then s else d
  | None => d
  end.

(** Decimal rendering of a natural number in a template literal. *)
Definition nat_to_string (n : nat) : string :=
  NilZero.string_of_uint (Nat.to_uint n).

(** Decimal rendering of an integer. *)
Definition Z_to_string (z : Z) : string :=
  NilZero.string_of_int (Z.to_int z).

(** Characters [encodeURIComponent] leaves as they are:
    [A-Z a-z 0-9 - _ . ! ~ * ' ( )]. *)
Definition uri_unreserved (c : ascii) : bool :=
  let n := nat_of_ascii c in
  ((65 <=? n) && (n <=? 90)) || ((97 <=? n) && (n <=? 122))
  || ((48 <=? n) && (n <=? 57))
  || (n =? 45) || (n =? 95) || (n =? 46) || (n =? 33) || (n =? 126)
  || (n =? 42) || (n =? 39) || (n =? 40) || (n =? 41).

Definition hex_digit (n : nat) : ascii :=
  if n <? 10 then ascii_of_nat (48 + n) else ascii_of_nat (55 + n).

(** [%XX] with upper-case hexadecimal digits. *)
Definition percent_encode (c : ascii) : string :=
  let n := nat_of_ascii c in
  String "%" (String (hex_digit (n / 16)) (String (hex_digit (n mod 16)) EmptyString)).

(** Every byte of the UTF-8 form that is not unreserved becomes its
    escape. *)
Fixpoint percent_encode_bytes (s : string) : string :=
  match s with
  | EmptyString => EmptyString
  | String c r =>
      (if uri_unreserved c then String c EmptyString else percent_encode c)
      ++ percent_encode_bytes r
  end.

(** Is there a surrogate without its partner in the string?  In the byte
    form that is the lead byte ED followed by a byte from A0 on. *)
Fixpoint has_lone_surrogate (s : string) : bool :=
  match s with
  | EmptyString => false
  | String c1 r1 =>
      match r1 with
      | String c2 _ =>
          ((nat_of_ascii c1 =? 237) && (160 <=? nat_of_ascii c2))
          || has_lone_surrogate r1
      | EmptyString => false
      end
  end.

(** [encodeURIComponent]: the escapes of the UTF-8 form of a well-formed
    string; on a string with a surrogate that has no partner it throws a
    [URIError] ([None]). *)
Definition encodeURIComponent (s : string) : option string :=
  if has_lone_surrogate s then None else Some (percent_encode_bytes s).

End Js.

(* ================================================================== *)
(** * JSON values and [JSON.stringify] *)
(* ================================================================== *)

Module Json.

(** The largest and smallest integer for which a JavaScript number is
    exact: [Number.MAX_SAFE_INTEGER] and its negative. *)
Definition MAX_SAFE_INTEGER : Z := 9007199254740991%Z.

Definition safe_integer (z : Z) : bool :=
  (Z.abs z <=? MAX_SAFE_INTEGER)%Z.

(** The numbers of the model are the safe integers, which [JSON.stringify]
    writes with all their digits; fractions, numbers in exponent form and
    the values written as [null] (NaN and the infinities) are outside
    it. *)
Inductive json : Type :=
| JNull
| JBool (b : bool)
| JNum (z : Z)
| JStr (s : string)
| JArr (l : list json)
| JObj (members : list (string * json)).

(** Property lookup on an object. *)
Fixpoint assoc (k : string) (l : list (string * json)) : option json :=
  match l with
  | [] => None
  | (k', v) :: r => if String.eqb k k' then Some v else assoc k r
  end.

Definition get (k : string) (j : json) : option json :=
  match j with
  | JObj members => assoc k members
  | _ => None
  end.

Definition dquote : ascii := ascii_of_nat 34.
Definition backslash : ascii := ascii_of_nat 92.

(** The escape of one byte inside a JSON string. *)
Definition escape_char (c : ascii) : string :=
  let n := nat_of_ascii c in
  if n =? 34 then String backslash (String dquote EmptyString)
  else if n =? 92 then String backslash (String backslash EmptyString)
  else if n =? 8 then String backslash "b"
  else if n =? 9 then String backslash "t"
  else if n =? 10 then String backslash "n"
  else if n =? 12 then String backslash "f"
  else if n =? 13 then String backslash "r"
  else if n <? 32 then
    String backslash
      (String "u" (String "0" (String "0"
        (String (ascii_of_nat (48 + n / 16))
          (String (if n mod 16 <? 10 then ascii_of_nat (48 + n mod 16)
                   else ascii_of_nat (87 + n mod 16)) EmptyString)))))
  else String c EmptyString.

Definition lower_hex_digit (n : nat) : ascii :=
  if n <? 10 then ascii_of_nat (48 + n) else ascii_of_nat (87 + n).

(** The escape [\udXXX] of a surrogate without partner, from the second
    and third byte of its byte form. *)
Definition escape_surrogate (c2 c3 : ascii) : string :=
  let code := (nat_of_ascii c2 - 128) * 64 + (nat_of_ascii c3 - 128) in
  String backslash
    (String "u" (String "d"
      (String (lower_hex_digit (code / 256))
        (String (lower_hex_digit ((code / 16) mod 16))
          (String (lower_hex_digit (code mod 16)) EmptyString))))).

(** The inside of a JSON string: the escapes of quote, backslash and the
    control characters, and of a surrogate without partner (well-formed
    [JSON.stringify]); every other character is written as it is. *)
Fixpoint escape (s : string) : string :=
  match s with
  | EmptyString => EmptyString
  | String c r =>
      match r with
      | String c2 (String c3 r') =>
          if (nat_of_ascii c =? 237) && (160 <=? nat_of_ascii c2)
          then escape_surrogate c2 c3 ++ escape r'
          else escape_char c ++ escape r
      | _ => escape_char c ++ escape r
      end
  end.

Definition quote (s : string) : string :=
  String dquote (escape s ++ String dquote EmptyString).

(** [JSON.stringify] without indentation. *)
Fixpoint stringify (j : json) : string :=
  match j with
  | JNull => "null"
  | JBool true => "true"
  | JBool false => "false"
  | JNum z => Js.Z_to_string z
  | JStr s => quote s
  | JArr l => "[" ++ String.concat "," (map stringify l) ++ "]"
  | JObj members =>
      "{" ++ String.concat ","
               (map (fun kv => quote (fst kv) ++ ":" ++ stringify (snd kv)) members)
          ++ "}"
  end.

End Json.

(* ================================================================== *)
(** * [types.ts]: the shared types *)
(* ================================================================== *)

Module Types.
Import Json.

(** ** The declarations themselves, as data

    A TypeScript type declaration is kept as a value, so that what a type
    declares (which members, which of them optional) can be stated. *)

Inductive TsType : Type :=
| TBoolean
| TString
| TNumber
| TAny
| TNull
| TLit (s : string)                       (* a string literal type *)
| TUnion (alternatives : list TsType)
| TArray (elem : TsType)
| TRecord (key value : TsType)            (* Record<K, V> *)
| TObject (members : list (string * (bool * TsType))).
                                          (* name, optional?, type *)

Definition required (name : string) (t : TsType) := (name, (false, t)).
Definition optional (name : string) (t : TsType) := (name, (true, t)).

Definition members_of (t : TsType) : list (string * (bool * TsType)) :=
  match t with
  | TObject ms => ms
  | _ => []
  end.

(** The member names a type declares, in declaration order. *)
Definition field_names (t : TsType) : list string :=
  map fst (members_of t).

(** Does the type declare a member of that name? *)
Definition declares (t : TsType) (name : string) : bool :=
  existsb (String.eqb name) (field_names t).

(** The declaration of one member: optional?, type. *)
Fixpoint lookup_member (name : string) (ms : list (string * (bool * TsType)))
  : option (bool * TsType) :=
  match ms with
  | [] => None
  | (n, d) :: r => if String.eqb name n then Some d else lookup_member name r
  end.

Definition member (t : TsType) (name : string) : option (bool * TsType) :=
  lookup_member name (members_of t).

Definition AgentRunRequest_type : TsType :=
  TObject
    [ required "input_type" (TLit "text");
      required "query" TString;
      optional "session_id" TString;
      optional "options"
        (TObject
           [ optional "lang" (TUnion [TLit "tw"; TLit "en"]);
             optional "top_k" TNumber;
             optional "include_sources" TBoolean;
             optional "format" (TUnion [TLit "json"; TLit "markdown"; TLit "plain"]) ]) ].

Definition SourceInfo_type : TsType :=
  TObject
    [ required "source" TString;
      optional "timestamp" TString;
      optional "tool" TString ].

Definition NLGInfo_type : TsType :=
  TObject
    [ optional "raw" TString;
      optional "colloquial" TString;
      optional "system_prompt" TString ].

Definition AgentRunResponse_type : TsType :=
  TObject
    [ required "ok" TBoolean;
      optional "response" TString;
      required "input_type" TString;
      optional "tool_results" (TArray (TRecord TString TAny));
      optional "sources" (TArray SourceInfo_type);
      optional "warnings" (TArray TString);
      optional "error" TString;
      required "timestamp" TString;
      optional "trace_id" TString;
      optional "nlg" NLGInfo_type ].

Definition render_mode_type : TsType :=
  TUnion [TLit "auto"; TLit "overlay"; TLit "acroform"; TLit "unknown"].

Definition ReportInfo_type : TsType :=
  TObject
    [ required "name" TString;
      required "path" TString;
      required "size" TNumber;
      required "generated_at" TString;
      required "render_mode" render_mode_type;
      required "watermark" TString ].

Definition ReportListResponse_type : TsType :=
  TObject
    [ required "ok" TBoolean;
      required "data" (TArray ReportInfo_type);
      required "count" TNumber;
      optional "reason" (TUnion [TString; TNull]);
      required "timestamp" TString ].

(** ** The values of these types *)

(** [input_type: "text"]: a type with one value. *)
Inductive InputType : Type := text.

Definition InputType_to_string (t : InputType) : string :=
  match t with text => "text" end.

Inductive Lang : Type := tw | en.
Inductive Format : Type := fmt_json | fmt_markdown | fmt_plain.

Definition Lang_to_string (l : Lang) : string :=
  match l with tw => "tw" | en => "en" end.

Definition Format_to_string (f : Format) : string :=
  match f with
  | fmt_json => "json"
  | fmt_markdown => "markdown"
  | fmt_plain => "plain"
  end.

Record Options : Type := mkOptions {
  lang : option Lang;
  top_k : option Z;
  include_sources : option bool;
  format : option Format
}.

Record AgentRunRequest : Type := mkAgentRunRequest {
  req_input_type : InputType;
  query : string;
  session_id : option string;
  options : option Options
}.

Record SourceInfo : Type := mkSourceInfo {
  source : string;
  source_timestamp : option string;
  tool : option string
}.

Record NLGInfo : Type := mkNLGInfo {
  raw : option string;
  colloquial : option string;
  system_prompt : option string
}.

Record AgentRunResponse : Type := mkAgentRunResponse {
  ok : bool;
  response : option string;
  input_type : string;
  tool_results : option (list json);
  sources : option (list SourceInfo);
  warnings : option (list string);
  error : option string;
  timestamp : string;
  trace_id : option string;
  nlg : option NLGInfo
}.

Inductive RenderMode : Type := auto | overlay | acroform | unknown.

Definition RenderMode_to_string (m : RenderMode) : string :=
  match m with
  | auto => "auto"
  | overlay => "overlay"
  | acroform => "acroform"
  | unknown => "unknown"
  end.

Record ReportInfo : Type := mkReportInfo {
  name : string;
  path : string;
  size : nat;
  generated_at : string;
  render_mode : RenderMode;
  watermark : string
}.

(** [data] is read as [response.data || []] and [reason] may be null, so
    both are possibly absent. *)
Record ReportListResponse : Type := mkReportListResponse {
  list_ok : bool;
  data : option (list ReportInfo);
  count : nat;
  reason : option string;
  list_timestamp : string
}.

Inductive MessageType : Type :=
| user | assistant | system | error_msg | warning.

Record ChatMessage : Type := mkChatMessage {
  id : string;
  type : MessageType;
  content : string;
  msg_timestamp : string;
  msg_sources : option (list SourceInfo);
  msg_tool_results : option (list json)
}.

Record ApiError : Type := mkApiError {
  message : string;
  status : option nat;
  code : option string;
  err_timestamp : string
}.

(** ** Requests as the JSON objects that are sent

    A member that is undefined does not appear in the object. *)

Definition opt_member {A} (k : string) (f : A -> json) (o : option A)
  : list (string * json) :=
  match o with
  | Some a => [(k, f a)]
  | None => []
  end.

Definition Options_to_json (o : Options) : json :=
  JObj (opt_member "lang" (fun l => JStr (Lang_to_string l)) (lang o)
        ++ opt_member "top_k" JNum (top_k o)
        ++ opt_member "include_sources" JBool (include_sources o)
        ++ opt_member "format" (fun f => JStr (Format_to_string f)) (format o))%list.

Definition AgentRunRequest_to_json (r : AgentRunRequest) : json :=
  JObj ([ ("input_type", JStr (InputType_to_string (req_input_type r)));
          ("query", JStr (query r)) ]
        ++ opt_member "session_id" JStr (session_id r)
        ++ opt_member "options" Options_to_json (options r))%list.

End Types.

(* ================================================================== *)
(** * [api.ts]: the fetch wrappers *)
(* ================================================================== *)

Module Api.
Import Json Types.

Inductive HttpMethod : Type := GET | POST.

(** What is handed to [fetch]. *)
Record FetchRequest : Type := mkFetchRequest {
  url : string;
  method : HttpMethod;
  headers : list (string * string);
  body : option string
}.

(** A response: [ok], [status], [statusText] and what [json()] settles to
    (a value, or the error it rejects with: a [TypeError] or not, and its
    message). *)
Record Response (T : Type) : Type := mkResponse {
  resp_ok : bool;
  resp_status : nat;
  resp_statusText : string;
  resp_json : (bool * string) + T
}.

(** [fetch] either rejects with an error (a [TypeError] or not, with its
    message) or resolves to a response. *)
Inductive FetchOutcome (T : Type) : Type :=
| FetchRejected (is_type_error : bool) (msg : string)
| FetchResolved (r : Response T).

(** What can be thrown inside the [try] of [apiGet] and [apiPost]: an
    [Error] object, or the literal [{status, message}]. *)
Inductive Thrown : Type :=
| JsError (is_type_error : bool) (msg : string)
| HttpFailure (status : nat) (msg : string).

(** The promise an async function returns, once settled. *)
Inductive Promise (T : Type) : Type :=
| Fulfilled (v : T)
| Rejected (e : ApiError).

Arguments FetchRejected {T}.
Arguments Rejected {T}.

Definition default_base_url : string := "http://localhost:8000".

Section WithEnvironment.

(** [process.env.NEXT_PUBLIC_API_BASE_URL], possibly unset. *)
Variable NEXT_PUBLIC_API_BASE_URL : option string.

(** [new Date().toISOString()] at the time an error is handled. *)
Variable now : string.

Definition API_BASE_URL : string :=
  Js.or_default NEXT_PUBLIC_API_BASE_URL default_base_url.

Definition buildApiUrl (path : string) : string :=
  let normalizedPath := if Js.startsWith path "/" then path else "/" ++ path in
  API_BASE_URL ++ normalizedPath.

Definition handleApiError (error : Thrown) (context : string) : ApiError :=
  let timestamp := now in
  match error with
  | JsError is_type_error msg =>
      if is_type_error && Js.includes msg "fetch" then
        mkApiError "無法連接到後端服務，請檢查服務是否正常運行"
                   None (Some "NETWORK_ERROR") timestamp
      else
        mkApiError (Js.or_default (Some msg) (context ++ " 時發生未知錯誤"))
                   None (Some "UNKNOWN_ERROR") timestamp
  | HttpFailure status msg =>
      if negb (status =? 0) then
        mkApiError (Js.or_default (Some msg)
                      ("API 請求失敗 (" ++ Js.nat_to_string status ++ ")"))
                   (Some status) (Some "HTTP_ERROR") timestamp
      else
        mkApiError (Js.or_default (Some msg) (context ++ " 時發生未知錯誤"))
                   None (Some "UNKNOWN_ERROR") timestamp
  end.

Definition json_headers : list (string * string) :=
  [("Content-Type", "application/json")].

Definition get_request (path : string) : FetchRequest :=
  mkFetchRequest (buildApiUrl path) GET json_headers None.

Definition post_request (path : string) (body : json) : FetchRequest :=
  mkFetchRequest (buildApiUrl path) POST json_headers (Some (stringify body)).

Section WithFetch.

Variable T : Type.

(** The network: what [fetch] settles to for a given request. *)
Variable fetch : FetchRequest -> FetchOutcome T.

(** The body of the [try] once [fetch] has settled. *)
Definition settle (o : FetchOutcome T) : Thrown + T :=
  match o with
  | FetchRejected is_type_error msg => inl (JsError is_type_error msg)
  | FetchResolved r =>
      if negb (resp_ok r) then
        inl (HttpFailure (resp_status r)
               ("HTTP " ++ Js.nat_to_string (resp_status r) ++ ": "
                ++ resp_statusText r))
      else
        match resp_json r with
        | inr data => inr data
        | inl (is_type_error, msg) => inl (JsError is_type_error msg)
        end
  end.

Definition finish (context : string) (r : Thrown + T) : Promise T :=
  match r with
  | inr data => Fulfilled data
  | inl error => Rejected (handleApiError error context)
  end.

(** [apiGet]: the requests issued and the settled promise. *)
Definition apiGet (path : string) : list FetchRequest * Promise T :=
  let rq := get_request path in
  ([rq], finish ("GET " ++ path) (settle (fetch rq))).

(** [apiPost]: the requests issued and the settled promise. *)
Definition apiPost (path : string) (body : json)
  : list FetchRequest * Promise T :=
  let rq := post_request path body in
  ([rq], finish ("POST " ++ path) (settle (fetch rq))).

End WithFetch.

Definition agent_endpoint : string := "/api/agent/run".

Definition runAgent (fetch : FetchRequest -> FetchOutcome AgentRunResponse)
           (request : AgentRunRequest)
  : list FetchRequest * Promise AgentRunResponse :=
  apiPost fetch agent_endpoint (AgentRunRequest_to_json request).

Definition getReportsList (fetch : FetchRequest -> FetchOutcome ReportListResponse)
           (limit : option nat)
  : list FetchRequest * Promise ReportListResponse :=
  let limit := match limit with Some n => n | None => 20 end in
  apiGet fetch ("/api/reports/list?limit=" ++ Js.nat_to_string limit).

Definition download_endpoint : string := "/api/reports/download".

(** [buildReportDownloadUrl]: the URL, or nothing when
    [encodeURIComponent] throws. *)
Definition buildReportDownloadUrl (path : string) : option string :=
  match Js.encodeURIComponent path with
  | Some encodedPath =>
      Some (buildApiUrl (download_endpoint ++ "?path=" ++ encodedPath))
  | None => None
  end.

End WithEnvironment.

End Api.

(* ================================================================== *)
(** * [useAgentChat.ts]: the chat hook *)
(* ================================================================== *)

Module useAgentChat.
Import Json Types Api.

(** The React state of the hook.  [drawn] counts the identifiers and
    dates drawn so far from [uuidv4] and the clock. *)
Record ChatState : Type := mkChatState {
  messages : list ChatMessage;
  loading : bool;
  error : option string;
  sessionId : string;
  drawn : nat
}.

Section WithRuntime.

Variable NEXT_PUBLIC_API_BASE_URL : option string.
Variable now : string.

(** The n-th value of [uuidv4()] and of [new Date().toISOString()]. *)
Variable uuidv4 : nat -> string.
Variable toISOString : nat -> string.

Variable fetch : FetchRequest -> FetchOutcome AgentRunResponse.

(** The state a component starts with. *)
Definition initial : ChatState :=
  mkChatState [] false None (uuidv4 0) 1.

Definition setLoading (b : bool) (st : ChatState) : ChatState :=
  mkChatState (messages st) b (error st) (sessionId st) (drawn st).

Definition setError (e : option string) (st : ChatState) : ChatState :=
  mkChatState (messages st) (loading st) e (sessionId st) (drawn st).

(** [addMessage]: the message gets a fresh id and the current time and
    goes to the end of the list. *)
Definition addMessage (type : MessageType) (content : string)
           (sources : option (list SourceInfo))
           (tool_results : option (list json)) (st : ChatState) : ChatState :=
  let newMessage :=
    mkChatMessage (uuidv4 (drawn st)) type content (toISOString (drawn st))
                  sources tool_results in
  mkChatState (messages st ++ [newMessage]) (loading st) (error st)
              (sessionId st) (S (drawn st)).

(** [response.warnings.forEach(warning => addMessage(...))]. *)
Fixpoint add_warnings (ws : list string) (st : ChatState) : ChatState :=
  match ws with
  | [] => st
  | w :: r => add_warnings r (addMessage warning ("警告: " ++ w) None None st)
  end.

(** The request [send] prepares for a trimmed text. *)
Definition prepare (text : string) (st : ChatState) : AgentRunRequest :=
  mkAgentRunRequest Types.text (Js.trim text) (Some (sessionId st))
    (Some (mkOptions (Some tw) None (Some true) (Some fmt_json))).

(** The branch of [send] that handles a fulfilled request. *)
Definition on_response (response : AgentRunResponse) (st : ChatState)
  : ChatState :=
  if ok response then
    let st1 :=
      match Types.response response with
      | Some r =>
          if Js.truthy r && Js.truthy (Js.trim r)
          then addMessage assistant r (sources response)
                          (tool_results response) st
          else st
      | None => st
      end in
    let st2 :=
      match warnings response with
      | Some ws => if 0 <? List.length ws then add_warnings ws st1 else st1
      | None => st1
      end in
    let no_content :=
      match Types.response response with
      | Some r => negb (Js.truthy (Js.trim r))
      | None => true
      end in
    match warnings response with
    | Some ws =>
        if no_content && (0 <? List.length ws)
        then addMessage warning (Js.join ", " ws) None None st2
        else st2
    | None => st2
    end
  else
    let errorMessage := Js.or_default (Types.error response) "查詢處理失敗" in
    setError (Some errorMessage) (addMessage error_msg errorMessage None None st).

(** The [catch] branch of [send]. *)
Definition on_rejection (apiError : ApiError) (st : ChatState) : ChatState :=
  let errorMessage := Js.or_default (Some (message apiError)) "發送訊息時發生錯誤" in
  setError (Some errorMessage) (addMessage error_msg errorMessage None None st).

(** [send]: the requests issued and the state once the promise has
    settled. *)
Definition send (text : string) (st : ChatState)
  : list FetchRequest * ChatState :=
  if negb (Js.truthy (Js.trim text)) || loading st then ([], st)
  else
    let st1 := setError None (setLoading true st) in
    let st2 := addMessage user (Js.trim text) None None st1 in
    let request := prepare text st2 in
    let (sent, settled) := runAgent NEXT_PUBLIC_API_BASE_URL now fetch request in
    let st3 :=
      match settled with
      | Fulfilled response => on_response response st2
      | Rejected apiError => on_rejection apiError st2
      end in
    (sent, setLoading false st3).

Definition reset (st : ChatState) : ChatState :=
  mkChatState [] false None (uuidv4 (drawn st)) (S (drawn st)).

Definition clearError (st : ChatState) : ChatState := setError None st.

End WithRuntime.

End useAgentChat.

(* ================================================================== *)
(** * [useReports.ts]: the report list hook *)
(* ================================================================== *)

Module useReports.
Import Types Api.

Record ReportsState : Type := mkReportsState {
  reports : list ReportInfo;
  loading : bool;
  error : option string;
  lastLimit : nat
}.

(** The state a component starts with. *)
Definition initial : ReportsState := mkReportsState [] false None 20.

Definition setReports (r : list ReportInfo) (st : ReportsState) : ReportsState :=
  mkReportsState r (loading st) (error st) (lastLimit st).

Definition setLoading (b : bool) (st : ReportsState) : ReportsState :=
  mkReportsState (reports st) b (error st) (lastLimit st).

Definition setError (e : option string) (st : ReportsState) : ReportsState :=
  mkReportsState (reports st) (loading st) e (lastLimit st).

Definition setLastLimit (n : nat) (st : ReportsState) : ReportsState :=
  mkReportsState (reports st) (loading st) (error st) n.

Section WithRuntime.

Variable NEXT_PUBLIC_API_BASE_URL : option string.
Variable now : string.
Variable fetch : FetchRequest -> FetchOutcome ReportListResponse.

(** The branch of [list] that handles a fulfilled request. *)
Definition on_response (response : ReportListResponse) (st : ReportsState)
  : ReportsState :=
  if list_ok response then
    setReports (match data response with Some d => d | None => [] end) st
  else
    let errorMessage := Js.or_default (reason response) "取得報告列表失敗" in
    setReports [] (setError (Some errorMessage) st).

(** The [catch] branch of [list]. *)
Definition on_rejection (apiError : ApiError) (st : ReportsState)
  : ReportsState :=
  let errorMessage :=
    Js.or_default (Some (message apiError)) "取得報告列表時發生錯誤" in
  setReports [] (setError (Some errorMessage) st).

(** [list]: the requests issued, the settled promise of the request and
    the state once it has settled. *)
Definition list_reports (limit : option nat) (st : ReportsState)
  : list FetchRequest * Promise ReportListResponse * ReportsState :=
  let limit := match limit with Some n => n | None => 20 end in
  let st1 := setLastLimit limit (setError None (setLoading true st)) in
  let (sent, settled) :=
    getReportsList NEXT_PUBLIC_API_BASE_URL now fetch (Some limit) in
  let st2 :=
    match settled with
    | Fulfilled response => on_response response st1
    | Rejected apiError => on_rejection apiError st1
    end in
  (sent, settled, setLoading false st2).

Definition buildDownloadUrl (path : string) : option string :=
  buildReportDownloadUrl NEXT_PUBLIC_API_BASE_URL path.

Definition refresh (st : ReportsState)
  : list FetchRequest * Promise ReportListResponse * ReportsState :=
  list_reports (Some (lastLimit st)) st.

Definition clearError (st : ReportsState) : ReportsState := setError None st.

End WithRuntime.

End useReports.

(* ================================================================== *)
(** * The report list component *)
(* ================================================================== *)

Module ReportList.

Inductive BadgeVariant : Type :=
| variant_default | variant_secondary | variant_outline | variant_destructive.

Record RenderModeDisplay : Type := mkDisplay {
  display_text : string;
  variant : BadgeVariant
}.

(** The display of the unknown mode. *)
Definition unknown_display : RenderModeDisplay :=
  mkDisplay "未知" variant_destructive.

(** [getRenderModeDisplay(mode: string)]: a [switch] on the string. *)
Definition getRenderModeDisplay (mode : string) : RenderModeDisplay :=
  if String.eqb mode "overlay" then mkDisplay "覆蓋" variant_default
  else if String.eqb mode "acroform" then mkDisplay "表單" variant_secondary
  else if String.eqb mode "auto" then mkDisplay "自動" variant_outline
  else mkDisplay "未知" variant_destructive.

(** The badge of a listed report. *)
Definition badge_of (r : Types.ReportInfo) : RenderModeDisplay :=
  getRenderModeDisplay (Types.RenderMode_to_string (Types.render_mode r)).

End ReportList.

(* ================================================================== *)
(** * [scripts/fix_agent.sh] and [scripts/fix_supervisor.sh] *)
(* ================================================================== *)

(** The scripts read and extend the text file [.env] with [grep], [cut],
    [sed] and [echo ... >> .env].  The file is its content, byte by byte:
    [echo >>] writes at the end of the content, wherever the last line
    ends, and the readers take the content line by line.  The file is a
    text file (no NUL byte) that the scripts may read and write, and the
    locale is one in which every byte is a character. *)

Module EnvScripts.

Definition EnvFile : Type := string.

Definition newline_char : ascii := ascii_of_nat 10.

Definition newline : string := String newline_char EmptyString.

(** The lines of a text as [grep], [cut] and [sed] read them: what stands
    between the newlines, and what follows the last newline when it is not
    empty. *)
Fixpoint lines (s : string) : list string :=
  match s with
  | EmptyString => []
  | String c r =>
      if Ascii.eqb c newline_char then EmptyString :: lines r
      else match lines r with
           | h :: t => String c h :: t
           | [] => [String c EmptyString]
           end
  end.

(** [grep "^PREFIX" .env]: the lines that start with the prefix. *)
Definition grep (prefix : string) (env : EnvFile) : list string :=
  filter (String.prefix prefix) (lines env).

(** [grep -q "^PREFIX" .env]: is there such a line? *)
Definition grep_q (prefix : string) (env : EnvFile) : bool :=
  existsb (String.prefix prefix) (lines env).

(** The fields of a line for the delimiter [d]. *)
Fixpoint split_on (d : ascii) (s : string) : list string :=
  match s with
  | EmptyString => [EmptyString]
  | String c r =>
      if Ascii.eqb c d then EmptyString :: split_on d r
      else match split_on d r with
           | h :: t => String c h :: t
           | [] => [String c EmptyString]
           end
  end.

(** [cut -d'=' -f2]: the second field; a line without the delimiter is
    printed whole. *)
Definition cut_f2 (line : string) : string :=
  match split_on "=" line with
  | [] => EmptyString
  | [whole] => whole
  | _ :: f2 :: _ => f2
  end.

(** [grep "^KEY=" .env | cut -d'=' -f2]: the values the file gives a key,
    one per matching line. *)
Definition read_value (key : string) (env : EnvFile) : list string :=
  map cut_f2 (grep (key ++ "=") env).

(** What a command prints for the lines it gives: every line with a
    newline after it. *)
Fixpoint printed (l : list string) : string :=
  match l with
  | [] => EmptyString
  | line :: r => line ++ newline ++ printed r
  end.

Fixpoint only_newlines (s : string) : bool :=
  match s with
  | EmptyString => true
  | String c r => Ascii.eqb c newline_char && only_newlines r
  end.

(** A text without the newlines at its end. *)
Fixpoint chomp (s : string) : string :=
  match s with
  | EmptyString => EmptyString
  | String c r => if only_newlines s then EmptyString else String c (chomp r)
  end.

(** [$(command)]: what the command prints, without the newlines at its
    end. *)
Definition substituted (l : list string) : string := chomp (printed l).

(** [echo "LINE" >> .env]: the line and a newline are written at the end
    of the content. *)
Definition append_line (line : string) (env : EnvFile) : EnvFile :=
  env ++ line ++ newline.

(** [grep -q "^KEY=" .env || echo "KEY=DEFAULT" >> .env]. *)
Definition ensure (key default : string) (env : EnvFile) : EnvFile :=
  if grep_q (key ++ "=") env then env
  else append_line (key ++ "=" ++ default) env.

Definition ensure_all (defaults : list (string * string)) (env : EnvFile)
  : EnvFile :=
  fold_left (fun e kd => ensure (fst kd) (snd kd) e) defaults env.

(** The keys [fix_agent.sh] checks before it looks at the output
    directory, in the order of the script, with the value it writes for a
    missing one (the API keys are written empty). *)
Definition fix_agent_first : list (string * string) :=
  [ ("EXECUTE_TOOLS", "1");
    ("COLLOQUIAL_ENABLED", "1");
    ("MAX_TOOL_LOOPS", "3");
    ("LLM_REPORT_ENHANCEMENT", "1");
    ("OPENAI_API_KEY", "");
    ("FMP_API_KEY", "");
    ("OUTPUT_DIR", "./outputs") ].

(** The keys it checks after that. *)
Definition fix_agent_last : list (string * string) :=
  [ ("PDF_ENGINE", "weasyprint");
    ("VECTORSTORE_DIR", "./vector_store") ].

Definition fix_agent_defaults : list (string * string) :=
  (fix_agent_first ++ fix_agent_last)%list.

(** [if [ ! -f .env ]; then touch .env; fi]: a missing [.env] is created
    empty. *)
Definition agent_start (env : option EnvFile) : EnvFile :=
  match env with Some e => e | None => EmptyString end.

(** The directories of the machine: [[ -d DIR ]] and whether
    [mkdir -p DIR] succeeds. *)
Record World : Type := mkWorld {
  is_dir : string -> bool;
  mkdir_p : string -> bool
}.

Definition dquote : ascii := ascii_of_nat 34.

(** The first [sed] of the script: a double quote at the start of the
    line goes. *)
Definition sed_leading_quote (line : string) : string :=
  match line with
  | String c r => if Ascii.eqb c dquote then r else line
  | EmptyString => EmptyString
  end.

(** The second [sed]: a double quote at the end of the line goes. *)
Fixpoint sed_trailing_quote (line : string) : string :=
  match line with
  | EmptyString => EmptyString
  | String c r =>
      match r with
      | EmptyString => if Ascii.eqb c dquote then EmptyString else line
      | _ => String c (sed_trailing_quote r)
      end
  end.

(** [output_dir=$(grep ... | cut -d'=' -f2 | sed ... | sed ...)]: the
    values of OUTPUT_DIR without a double quote around them, and
    [./outputs] when that is empty. *)
Definition output_dir (env : EnvFile) : string :=
  let value :=
    substituted
      (map sed_trailing_quote
           (map sed_leading_quote (read_value "OUTPUT_DIR" env))) in
  if Js.truthy value then value else "./outputs".

(** The directory of the reports is made when it is missing; under
    [set -e] a [mkdir] that fails ends the script. *)
Definition make_output_dir (w : World) (dir : string) : bool :=
  if negb (is_dir w dir) then mkdir_p w dir && mkdir_p w (dir ++ "/reports")
  else true.

(** The end of a run of [fix_agent.sh]: the content of [.env] and whether
    the script got to its end. *)
Record Run : Type := mkRun {
  env_after : EnvFile;
  completed : bool
}.

(** [fix_agent.sh]. *)
Definition fix_agent (w : World) (env : option EnvFile) : Run :=
  let checked := ensure_all fix_agent_first (agent_start env) in
  if make_output_dir w (output_dir checked)
  then mkRun (ensure_all fix_agent_last checked) true
  else mkRun checked false.

Definition fix_supervisor_defaults : list (string * string) :=
  [ ("EXECUTE_TOOLS", "1");
    ("COLLOQUIAL_ENABLED", "1");
    ("MAX_TOOL_LOOPS", "3");
    ("OUTPUT_DIR", "./outputs");
    ("PDF_ENGINE", "weasyprint");
    ("VECTORSTORE_DIR", "./vector_store") ].

(** [if [ ! -f .env ]; then cp .env.example .env; fi]: a missing [.env] is
    copied from [.env.example]; the copy fails when that file is missing
    too. *)
Definition supervisor_start (env example : option EnvFile) : option EnvFile :=
  match env with
  | Some e => Some e
  | None => example
  end.

(** The directories [fix_supervisor.sh] makes once [.env] is repaired. *)
Definition supervisor_dirs : list string :=
  [ "outputs/reports"; "logs"; "vector_store"; "resources/fonts";
    "resources/pdf" ].

(** The end of a run of [fix_supervisor.sh]: [.env], when there is one,
    and whether the script got to its end. *)
Record SupervisorRun : Type := mkSupervisorRun {
  sup_env_after : option EnvFile;
  sup_completed : bool
}.

(** [fix_supervisor.sh]: under [set -e] the script stops when
    [mkdir -p scripts], the copy or a later [mkdir] fails. *)
Definition fix_supervisor (w : World) (env example : option EnvFile)
  : SupervisorRun :=
  if negb (mkdir_p w "scripts") then mkSupervisorRun env false
  else
    match supervisor_start env example with
    | Some start =>
        mkSupervisorRun (Some (ensure_all fix_supervisor_defaults start))
                        (forallb (mkdir_p w) supervisor_dirs)
    | None => mkSupervisorRun None false
    end.

(** The line [fix_supervisor.sh] prints for a key:
    [echo "KEY=$(grep '^KEY=' .env | cut -d'=' -f2)"]. *)
Definition shown (key : string) (env : EnvFile) : string :=
  key ++ "=" ++ substituted (read_value key env).

(** The variables the test-server script at the end of
    [fix_supervisor.sh] exports before it starts the service. *)
Definition test_server_exports : list (string * string) :=
  [ ("EXECUTE_TOOLS", "1");
    ("COLLOQUIAL_ENABLED", "1");
    ("MAX_TOOL_LOOPS", "3");
    ("LLM_REPORT_ENHANCEMENT", "1") ].

Fixpoint exported (key : string) (l : list (string * string)) : option string :=
  match l with
  | [] => None
  | (k, v) :: r => if String.eqb key k then Some v else exported key r
  end.

End EnvScripts.

(* ================================================================== *)
(** * The bounded tool loop of the backend *)
(* ================================================================== *)

Module ToolLoop.
Import Json.

(** Modelled from the spec: a ToolInvocationPlan (section 3), one entry per
    planned call. *)
Record ToolInvocationPlan : Type := mkPlan {
  tool_name : string;
  arguments : list (string * json);
  rationale : option string
}.

(** Modelled from the spec: a ToolResult (section 3), the outcome of one
    call. *)
Record ToolResult : Type := mkToolResult {
  ok : bool;
  source : string;
  tool : string;
  data : option json;
  error : option string;
  logs : option string;
  timestamp : string
}.

(** Modelled from the spec: the run state of a request (section 3), as far
    as the loop reads and writes it, with the planning error that the
    envelope reports (section 7). *)
Record RunState : Type := mkRunState {
  query : string;
  plan : list ToolInvocationPlan;
  tool_results : list ToolResult;
  loop_count : nat;
  warnings : list string;
  planning_error : option string;
  trace_id : string
}.

(** Modelled from the spec: the state is created fresh per request. *)
Definition fresh (query trace_id : string) : RunState :=
  mkRunState query [] [] 0 [] None trace_id.

(** Modelled from the spec: the decision of the PlannerStep (section 4.1). *)
Inductive PlanDecision : Type :=
| Continue (tool_calls : list ToolInvocationPlan)
| Finish.

(** Modelled from the spec: what planning comes to: a decision, or the
    planning error of section 7 (the utterance cannot be classified or
    parsed, or the plan names an unknown tool). *)
Inductive Planned : Type :=
| Decided (decision : PlanDecision)
| PlanningError (code : string).

(** Modelled from the spec: the process-wide flags the loop consults
    (section 5), read once per request. *)
Record Config : Type := mkConfig {
  EXECUTE_TOOLS : bool;
  MAX_TOOL_LOOPS : nat
}.

(** Modelled from the spec: the states of the machine (section 4.2); the
    calls to execute and the results to evaluate travel with the state. *)
Inductive Phase : Type :=
| Planning
| Executing (tool_calls : list ToolInvocationPlan)
| Evaluating (round : list ToolResult)
| Done.

Record Machine : Type := mkMachine {
  phase : Phase;
  state : RunState
}.

(** Modelled from the spec: the warning of a disabled execution. *)
Definition execute_tools_disabled : string := "execute_tools_disabled".

(** Modelled from the spec: the warning
    [tool_loops_exceeded: {loop_count} >= {MAX_TOOL_LOOPS}]. *)
Definition tool_loops_exceeded (loop_count max : nat) : string :=
  "tool_loops_exceeded: " ++ Js.nat_to_string loop_count ++ " >= "
  ++ Js.nat_to_string max.

Definition add_warning (w : string) (st : RunState) : RunState :=
  mkRunState (query st) (plan st) (tool_results st) (loop_count st)
             (warnings st ++ [w]) (planning_error st) (trace_id st).

Definition set_plan (p : list ToolInvocationPlan) (st : RunState) : RunState :=
  mkRunState (query st) p (tool_results st) (loop_count st)
             (warnings st) (planning_error st) (trace_id st).

Definition set_planning_error (code : string) (st : RunState) : RunState :=
  mkRunState (query st) (plan st) (tool_results st) (loop_count st)
             (warnings st) (Some code) (trace_id st).

(** Modelled from the spec: the results of a round are added in completion
    order and the round is counted. *)
Definition record_round (rs : list ToolResult) (st : RunState) : RunState :=
  mkRunState (query st) (plan st) (tool_results st ++ rs) (S (loop_count st))
             (warnings st) (planning_error st) (trace_id st).

(** Modelled from the spec: the calls of a decision. *)
Definition calls_of (d : PlanDecision) : list ToolInvocationPlan :=
  match d with
  | Continue calls => calls
  | Finish => []
  end.

(** Modelled from the spec: the ResponseEnvelope (section 6), as far as the
    loop decides it. *)
Record ResponseEnvelope : Type := mkEnvelope {
  env_ok : bool;
  env_tool_results : list ToolResult;
  env_warnings : list string;
  env_error : option string;
  env_trace_id : string
}.

Section WithCollaborators.

Variable config : Config.

(** PlannerStep: a pure function of the state. *)
Variable planner : RunState -> Planned.

(** The tool provider: every call returns a result. *)
Variable invoke : ToolInvocationPlan -> ToolResult.

(** Does the state, with the results of the round in it, ask for another
    round? *)
Variable more_rounds : RunState -> bool.

(** Modelled from the spec: the state machine of the ToolExecutionLoop
    (section 4.2), whose implementation (the agent graph of the backend)
    is not among the sources, transition by transition in the words of
    that section.  From [Planning] the machine goes to [Done] with the
    warning [execute_tools_disabled] when the execution flag is off, to
    [Executing] when the flag is on and the plan is not empty, and to
    [Done] when no tool is needed; a planning error (section 7) ends the
    run with the error.  [Executing] invokes every call of the round; a
    round is counted when its calls have been executed, so that a tool that
    always asks for another round is stopped after exactly
    [MAX_TOOL_LOOPS] rounds (section 8).  From [Evaluating] the machine
    plans again only if another round is asked for and
    [loop_count < MAX_TOOL_LOOPS]; when another round is asked for and
    [loop_count >= MAX_TOOL_LOOPS] the end is forced and the warning
    recorded; otherwise it is done. *)
Definition step (m : Machine) : Machine :=
  let st := state m in
  match phase m with
  | Planning =>
      match planner st with
      | PlanningError code => mkMachine Done (set_planning_error code st)
      | Decided decision =>
          if negb (EXECUTE_TOOLS config) then
            mkMachine Done
                      (add_warning execute_tools_disabled
                                   (set_plan (calls_of decision) st))
          else
            match calls_of decision with
            | [] => mkMachine Done st
            | calls => mkMachine (Executing calls) (set_plan calls st)
            end
      end
  | Executing calls =>
      let round := map invoke calls in
      mkMachine (Evaluating round) (record_round round st)
  | Evaluating round =>
      if more_rounds st then
        if loop_count st <? MAX_TOOL_LOOPS config then mkMachine Planning st
        else
          mkMachine Done
                    (add_warning
                       (tool_loops_exceeded (loop_count st) (MAX_TOOL_LOOPS config))
                       st)
      else mkMachine Done st
  | Done => m
  end.

Fixpoint iterate (n : nat) (m : Machine) : Machine :=
  match n with
  | 0 => m
  | S k => iterate k (step m)
  end.

(** The steps a run is given: three per round, for at most
    [MAX_TOOL_LOOPS] rounds or one, and one more. *)
Definition fuel : nat := 3 * MAX_TOOL_LOOPS config + 4.

(** Modelled from the spec: [run(state) -> state'] of section 4.2, the
    machine started in [Planning] and stepped. *)
Definition run (st : RunState) : Machine :=
  iterate fuel (mkMachine Planning st).

(** The machines a run goes through, from the first to the last. *)
Definition visited (st : RunState) : list Machine :=
  map (fun k => iterate k (mkMachine Planning st)) (seq 0 (S fuel)).

(** Modelled from the spec: [build(state)] of the ResponseBuilder
    (section 4.6), as far as the loop decides it: [ok] is true unless a
    planning error occurred before any result could be produced. *)
Definition build (st : RunState) : ResponseEnvelope :=
  mkEnvelope
    (match planning_error st, tool_results st with
     | Some _, [] => false
     | _, _ => true
     end)
    (tool_results st) (warnings st) (planning_error st) (trace_id st).

End WithCollaborators.

End ToolLoop.

(* ================================================================== *)
(** * What the specification says about the declared types *)
(* ================================================================== *)

Unset Implicit Arguments.

Module SpecWords.

(** The members of [ResponseEnvelope] in the words of the specification
    (section 6): name and whether the member is optional. *)
Definition ResponseEnvelope_members : list (string * bool) :=
  [ ("ok", false); ("response", true); ("input_type", false);
    ("tool_results", true); ("sources", true); ("warnings", true);
    ("error", true); ("timestamp", false); ("trace_id", true);
    ("nlg", true); ("output_files", true) ].

(** The members of a listed report in the words of the specification. *)
Definition report_index_members : list string :=
  [ "name"; "path"; "size"; "generated_at"; "render_mode"; "watermark" ].

(** The values of [render_mode] in the words of the specification. *)
Definition render_modes : list string :=
  [ "auto"; "overlay"; "acroform"; "unknown" ].

End SpecWords.

(** Name and optionality of the members a type declares. *)
Definition declared_members (t : Types.TsType) : list (string * bool) :=
  map (fun m => (fst m, fst (snd m))) (Types.members_of t).

(* ================================================================== *)
(** * More of [api.ts]: the health check *)
(* ================================================================== *)

Module ApiHealth.
Import Json Types Api.

Record HealthCheckResponse : Type := mkHealth {
  health_ok : bool;
  service : string;
  version : string;
  environment : string;
  health_timestamp : string;
  api_status : string
}.

(** What [checkBackendStatus] resolves to. *)
Record BackendStatus : Type := mkBackendStatus {
  available : bool;
  status_error : option string
}.

Section WithEnvironment.

Variable NEXT_PUBLIC_API_BASE_URL : option string.
Variable now : string.

Definition healthCheck (fetch : FetchRequest -> FetchOutcome HealthCheckResponse)
  : list FetchRequest * Promise HealthCheckResponse :=
  apiGet NEXT_PUBLIC_API_BASE_URL now fetch "/health".

(** [checkBackendStatus]: the requests issued and the status; the promise
    of this function never rejects. *)
Definition checkBackendStatus
           (fetch : FetchRequest -> FetchOutcome HealthCheckResponse)
  : list FetchRequest * BackendStatus :=
  let (sent, settled) := healthCheck fetch in
  (sent,
   match settled with
   | Fulfilled health =>
       mkBackendStatus (health_ok health)
                       (if health_ok health then None
                        else Some "後端服務回報異常狀態")
   | Rejected apiError => mkBackendStatus false (Some (message apiError))
   end).

End WithEnvironment.

End ApiHealth.

(* ================================================================== *)
(** * [ReportList]: what the component renders *)
(* ================================================================== *)

Module ReportListView.
Import Types useReports.

(** The link [handleDownload] creates and clicks. *)
Record DownloadLink : Type := mkDownloadLink {
  href : string;
  download : string;
  target : string
}.

(** One row of the table; [row_link] is what a click on the download
    button of the row does. *)
Record Row : Type := mkRow {
  row_key : string;
  row_name : string;
  row_size : string;
  row_generated_at : string;
  row_badge : ReportList.RenderModeDisplay;
  row_link : option DownloadLink
}.

(** What the component renders. *)
Inductive View : Type :=
| Skeleton
| ErrorView (message : string)
| EmptyView
| TableView (count : nat) (rows : list Row) (watermark : option string)
            (loading_more : bool).

Section WithFormatters.

Variable NEXT_PUBLIC_API_BASE_URL : option string.

(** [fmtBytes] and [fmtDate] of [formatters.ts]. *)
Variable fmtBytes : nat -> string.
Variable fmtDate : string -> string.

(** [handleDownload(path, filename)]: the link that is clicked, or none
    when [buildDownloadUrl] throws and the [catch] logs the error. *)
Definition handleDownload (path filename : string) : option DownloadLink :=
  match buildDownloadUrl NEXT_PUBLIC_API_BASE_URL path with
  | Some downloadUrl => Some (mkDownloadLink downloadUrl filename "_blank")
  | None => None
  end.

Definition row_of (report : ReportInfo) : Row :=
  let renderMode :=
    ReportList.getRenderModeDisplay (RenderMode_to_string (render_mode report)) in
  mkRow (path report) (name report) (fmtBytes (size report))
        (fmtDate (generated_at report)) renderMode
        (handleDownload (path report) (name report)).

(** The branches of the component, in the order of the source. *)
Definition view (st : ReportsState) : View :=
  if loading st && (List.length (reports st) =? 0) then Skeleton
  else if Js.truthy_opt (error st) then
    ErrorView (match error st with Some e => e | None => EmptyString end)
  else if List.length (reports st) =? 0 then EmptyView
  else
    TableView (List.length (reports st)) (map row_of (reports st))
              (match reports st with
               | first :: _ =>
                   if Js.truthy (watermark first) then Some (watermark first)
                   else None
               | [] => None
               end)
              (loading st && (0 <? List.length (reports st))).

End WithFormatters.

End ReportListView.

(* ================================================================== *)
(** * [formatters.ts]: the formatters that work on strings *)
(* ================================================================== *)

(** [fmtPhone] only looks at ASCII digits, which are the same bytes in
    UTF-8 as code units in UTF-16, so it is modelled on [string] like the
    rest.  [truncateText] and [fmtLineId] count and cut code units: for them
    a JavaScript string is the list of its UTF-16 code units. *)

Module Formatters.

(** ** [fmtPhone] *)

Definition is_digit (c : ascii) : bool :=
  let n := nat_of_ascii c in (48 <=? n) && (n <=? 57).

(** [phone.replace(/\D/g, '')]. *)
Fixpoint digits_only (s : string) : string :=
  match s with
  | EmptyString => EmptyString
  | String c r => if is_digit c then String c (digits_only r) else digits_only r
  end.

Fixpoint take (n : nat) (s : string) : string :=
  match n, s with
  | S k, String c r => String c (take k r)
  | _, _ => EmptyString
  end.

Fixpoint drop (n : nat) (s : string) : string :=
  match n, s with
  | S k, String _ r => drop k r
  | _, _ => s
  end.

(** [s.substring(from, to)] for [from <= to]. *)
Definition substring (from to : nat) (s : string) : string :=
  take (to - from) (drop from s).

Definition fmtPhone (phone : string) : string :=
  let cleaned := digits_only phone in
  if (String.length cleaned =? 10) && Js.startsWith cleaned "09" then
    substring 0 4 cleaned ++ "-" ++ substring 4 7 cleaned ++ "-" ++ drop 7 cleaned
  else if (String.length cleaned =? 9) || (String.length cleaned =? 10) then
    (* cleaned.replace(/(\d{2})(\d{4})(\d+)/, '$1-$2-$3') on 9 or 10 digits *)
    substring 0 2 cleaned ++ "-" ++ substring 2 6 cleaned ++ "-" ++ drop 6 cleaned
  else phone.

(** ** [truncateText] and [fmtLineId] *)

Definition jsstring : Type := list nat.

Definition dots : jsstring := [46; 46; 46].
Definition stars : jsstring := [42; 42; 42].

(** [s.substring(from, to)] with the arguments clamped to the string and
    swapped when they come in the wrong order. *)
Definition js_substring (s : jsstring) (from to : Z) : jsstring :=
  let len := Z.of_nat (List.length s) in
  let clamp := fun x => Z.to_nat (Z.max 0 (Z.min x len)) in
  let a := Nat.min (clamp from) (clamp to) in
  let b := Nat.max (clamp from) (clamp to) in
  firstn (b - a) (skipn a s).

(** [truncateText(text, maxLength)] for a whole number [maxLength]. *)
Definition truncateText (text : jsstring) (maxLength : Z) : jsstring :=
  if (Z.of_nat (List.length text) <=? maxLength)%Z then text
  else (js_substring text 0 (maxLength - 3) ++ dots)%list.

Definition fmtLineId (lineId : jsstring) : jsstring :=
  if List.length lineId <=? 6 then lineId
  else
    let len := Z.of_nat (List.length lineId) in
    let start := js_substring lineId 0 3 in
    let finish := js_substring lineId (len - 3) len in
    (start ++ stars ++ finish)%list.

End Formatters.

(* ================================================================== *)
(** * The customer hook: [useCustomers] *)
(* ================================================================== *)

Module useCustomers.
Import Json.

Inductive RiskProfile : Type := conservative | balanced | aggressive.

Record Customer : Type := mkCustomer {
  id : string;
  lineId : string;
  name : string;
  phone : option string;
  annualIncome : option Z;
  riskProfile : option RiskProfile;
  note : option string;
  createdAt : string;
  updatedAt : string
}.

(** [Omit<Customer, 'id' | 'createdAt' | 'updatedAt'>]. *)
Record CustomerData : Type := mkCustomerData {
  data_lineId : string;
  data_name : string;
  data_phone : option string;
  data_annualIncome : option Z;
  data_riskProfile : option RiskProfile;
  data_note : option string
}.

(** [Partial<...>] of the same: a member is absent ([None]) or present
    with its value, which for an optional member may be undefined. *)
Record CustomerPatch : Type := mkCustomerPatch {
  patch_lineId : option string;
  patch_name : option string;
  patch_phone : option (option string);
  patch_annualIncome : option (option Z);
  patch_riskProfile : option (option RiskProfile);
  patch_note : option (option string)
}.

(** The React state of the hook. *)
Record CustomersState : Type := mkCustomersState {
  customers : list Customer;
  loading : bool;
  error : option string
}.

Definition has_id (wanted : string) (c : Customer) : bool :=
  String.eqb (id c) wanted.

Definition override {A} (old : A) (new : option A) : A :=
  match new with Some v => v | None => old end.

(** [{ ...prev[index], ...customerData, updatedAt: now }]. *)
Definition merge (old : Customer) (patch : CustomerPatch) (now : string)
  : Customer :=
  mkCustomer (id old)
             (override (lineId old) (patch_lineId patch))
             (override (name old) (patch_name patch))
             (override (phone old) (patch_phone patch))
             (override (annualIncome old) (patch_annualIncome patch))
             (override (riskProfile old) (patch_riskProfile patch))
             (override (note old) (patch_note patch))
             (createdAt old) now.

(** [newCustomers[index] = updatedCustomer] for the index [findIndex]
    gives: the first customer with the id is replaced. *)
Fixpoint replace_first (wanted : string) (patch : CustomerPatch) (now : string)
         (l : list Customer) : list Customer :=
  match l with
  | [] => []
  | c :: r =>
      if has_id wanted c then merge c patch now :: r
      else c :: replace_first wanted patch now r
  end.

Definition not_found (wanted : string) : string :=
  "找不到 ID 為 " ++ wanted ++ " 的客戶".

(** [list]. *)
Definition list_customers (st : CustomersState) : list Customer := customers st.

(** [create]: [new_id] is what [uuidv4()] returns and [now] what
    [new Date().toISOString()] returns at the call. *)
Definition create (new_id now : string) (customerData : CustomerData)
           (st : CustomersState) : Customer * CustomersState :=
  let newCustomer :=
    mkCustomer new_id (data_lineId customerData) (data_name customerData)
               (data_phone customerData) (data_annualIncome customerData)
               (data_riskProfile customerData) (data_note customerData)
               now now in
  (newCustomer,
   mkCustomersState (customers st ++ [newCustomer]) (loading st) None).

(** [update]: the state once the updater has run. *)
Definition update (wanted now : string) (customerData : CustomerPatch)
           (st : CustomersState) : CustomersState :=
  if existsb (has_id wanted) (customers st) then
    mkCustomersState (replace_first wanted customerData now (customers st))
                     (loading st) None
  else
    mkCustomersState (customers st) (loading st) (Some (not_found wanted)).

(** [remove]: the state once the updater has run. *)
Definition remove (wanted : string) (st : CustomersState) : CustomersState :=
  if existsb (has_id wanted) (customers st) then
    mkCustomersState (filter (fun c => negb (has_id wanted c)) (customers st))
                     (loading st) None
  else
    mkCustomersState (customers st) (loading st) (Some (not_found wanted)).

(** [findById] and [findByLineId]. *)
Definition findById (wanted : string) (st : CustomersState) : option Customer :=
  find (has_id wanted) (customers st).

Definition findByLineId (wanted : string) (st : CustomersState)
  : option Customer :=
  find (fun c => String.eqb (lineId c) wanted) (customers st).

Definition clearError (st : CustomersState) : CustomersState :=
  mkCustomersState (customers st) (loading st) None.

(** ** [importData] *)

(** [typeof item.key === 'string'] on a parsed object. *)
Definition has_string (key : string) (members : list (string * json)) : bool :=
  match assoc key members with
  | Some (JStr _) => true
  | _ => false
  end.

(** The test of the filter in [importData]; [None] when it throws:
    [typeof null] is 'object' and reading [null.id] is a TypeError. *)
Definition valid_record (item : json) : option bool :=
  match item with
  | JNull => None
  | JObj members =>
      Some (has_string "id" members && has_string "lineId" members
            && has_string "name" members && has_string "createdAt" members
            && has_string "updatedAt" members)
  | JArr _ => Some false
  | JBool _ | JNum _ | JStr _ => Some false
  end.

(** [parsed.filter(...)], which stops at the first throw. *)
Fixpoint filter_valid (items : list json) : option (list json) :=
  match items with
  | [] => Some []
  | item :: rest =>
      match valid_record item with
      | None => None
      | Some keep =>
          match filter_valid rest with
          | None => None
          | Some kept => Some (if keep then item :: kept else kept)
          end
      end
  end.

(** What a call of [importData] does: what it returns, the calls of
    [setError] in order, and the call of [setCustomers] if there is one
    (the imported records are kept as they were parsed). *)
Record ImportEffect : Type := mkImportEffect {
  returned : bool;
  setError_calls : list (option string);
  setCustomers_call : option (list json)
}.

Definition parse_failure : ImportEffect :=
  mkImportEffect false [Some "匯入資料解析失敗"] None.

(** [importData], given what [JSON.parse] makes of the text ([None] when it
    throws). *)
Definition importData (parsed : option json) : ImportEffect :=
  match parsed with
  | None => parse_failure
  | Some (JArr items) =>
      match filter_valid items with
      | None => parse_failure
      | Some validCustomers =>
          let dropped := List.length items - List.length validCustomers in
          mkImportEffect true
            ((if negb (List.length validCustomers =? List.length items)
              then [Some ("匯入資料中有 " ++ Js.nat_to_string dropped
                          ++ " 筆格式錯誤的記錄")%string]
              else []) ++ [None])%list
            (Some validCustomers)
      end
  | Some _ => mkImportEffect false [Some "匯入資料格式錯誤：必須是陣列"] None
  end.

(** The error state after the calls of [setError]. *)
Definition error_after (calls : list (option string)) (before : option string)
  : option string :=
  last calls before.

End useCustomers.

(* ================================================================== *)
(** * [fix_agent.sh]: the checks of the API keys *)
(* ================================================================== *)

Module EnvReport.
Import EnvScripts.

(** The test of [fix_agent.sh] for an API key,
    [grep -q "^KEY=" .env] and not [-z "$(grep "^KEY=" .env | cut -d'=' -f2)"]:
    the key has a line and the values printed for it are not all empty. *)
Definition key_is_set (key : string) (env : EnvFile) : bool :=
  grep_q (key ++ "=") env && Js.truthy (substituted (read_value key env)).

(** A line matched by [grep "^KEY=.+"].  Without [-E] the pattern is a
    basic regular expression, in which [+] stands for itself: the line has
    to go on after [KEY=] with any one character and then a plus sign. *)
Definition matches_dot_plus (key line : string) : bool :=
  String.prefix (key ++ "=") line
  && match Formatters.drop (String.length key + 1) line with
     | String _ (String c _) => Ascii.eqb c "+"
     | _ => false
     end.

(** [grep -q "^KEY=.+" .env] of the summary at the end of [fix_agent.sh]:
    does the summary say that the key is set? *)
Definition summary_says_set (key : string) (env : EnvFile) : bool :=
  existsb (matches_dot_plus key) (lines env).

End EnvReport.

(* ================================================================== *)
(** * [TopTabs.tsx], [AgentChat.tsx], [StreamingChat.tsx]: who calls [send] *)
(* ================================================================== *)

Module TopTabs.
Import Types Api.

(** [Country] and [EconomicIndicator] of [types.ts]. *)
Inductive Country : Type := US | Japan | Taiwan | EU.

Inductive EconomicIndicator : Type := CPI | GDP | Unemployment | Interest_Rate.

(** The string a value of the union type is. *)
Definition Country_value (c : Country) : string :=
  match c with
  | US => "US"
  | Japan => "Japan"
  | Taiwan => "Taiwan"
  | EU => "EU"
  end.

Definition EconomicIndicator_value (i : EconomicIndicator) : string :=
  match i with
  | CPI => "CPI"
  | GDP => "GDP"
  | Unemployment => "Unemployment"
  | Interest_Rate => "Interest Rate"
  end.

(** The tables of [EconomicTab], as pairs of [value] and [label]. *)
Definition countries : list (string * string) :=
  [ ("US", "美國"); ("Japan", "日本"); ("Taiwan", "台灣"); ("EU", "歐盟") ].

Definition indicators : list (string * string) :=
  [ ("CPI", "CPI (消費者物價指數)");
    ("GDP", "GDP (國內生產毛額)");
    ("Unemployment", "失業率");
    ("Interest Rate", "利率") ].

(** [table.find(e => e.value === v)?.label || v]. *)
Definition label_of (table : list (string * string)) (v : string) : string :=
  Js.or_default
    (option_map snd (find (fun e => String.eqb (fst e) v) table)) v.

Definition economic_query (country : Country) (indicator : EconomicIndicator)
  : string :=
  label_of countries (Country_value country) ++ " "
  ++ label_of indicators (EconomicIndicator_value indicator) ++ " 最近 6 期".

Definition news_query (keywords : string) : string :=
  "查詢新聞 " ++ Js.trim keywords ++ " 近 10 則".

Section WithRuntime.

Variable NEXT_PUBLIC_API_BASE_URL : option string.
Variable now : string.
Variable uuidv4 : nat -> string.
Variable toISOString : nat -> string.
Variable fetch : FetchRequest -> FetchOutcome AgentRunResponse.

(** [String.prototype.toUpperCase]. *)
Variable toUpperCase : string -> string.

(** [fmtStockSymbol] of [formatters.ts]. *)
Definition fmtStockSymbol (symbol : string) : string :=
  toUpperCase (Js.trim symbol).

(** [fmtStockSymbols] of [formatters.ts]: the pieces between commas,
    formatted, without the empty ones. *)
Definition fmtStockSymbols (symbols : string) : list string :=
  filter Js.truthy (map fmtStockSymbol (EnvScripts.split_on "," symbols)).

Definition stock_query (symbols : string) : string :=
  "查詢個股 " ++ Js.join ", " (fmtStockSymbols symbols) ++ " 報價".

(** What the handlers of the three tabs share, with [onQuery] the [send] of
    the chat hook, which never rejects:
    [setLoading(true); try { await onQuery(query) } ... finally { setLoading(false) }].
    The result is what was sent, the [loading] of the tab and the state of
    the hook. *)
Definition submit (query : string) (chat : useAgentChat.ChatState)
  : list FetchRequest * bool * useAgentChat.ChatState :=
  let (sent, chat') :=
    useAgentChat.send NEXT_PUBLIC_API_BASE_URL now uuidv4 toISOString fetch
                      query chat in
  (sent, false, chat').

(** [handleSubmit] of [StockTab]. *)
Definition StockTab_handleSubmit (symbols : string) (loading : bool)
           (chat : useAgentChat.ChatState)
  : list FetchRequest * bool * useAgentChat.ChatState :=
  if negb (Js.truthy (Js.trim symbols)) then ([], loading, chat)
  else submit (stock_query symbols) chat.

(** [handleSubmit] of [NewsTab]. *)
Definition NewsTab_handleSubmit (keywords : string) (loading : bool)
           (chat : useAgentChat.ChatState)
  : list FetchRequest * bool * useAgentChat.ChatState :=
  if negb (Js.truthy (Js.trim keywords)) then ([], loading, chat)
  else submit (news_query keywords) chat.

(** [handleSubmit] of [EconomicTab], which has no test of its own. *)
Definition EconomicTab_handleSubmit (country : Country)
           (indicator : EconomicIndicator) (chat : useAgentChat.ChatState)
  : list FetchRequest * bool * useAgentChat.ChatState :=
  submit (economic_query country indicator) chat.

(** [handleSend] of [AgentChat] and of [StreamingChat]: what was sent, the
    input field and the state of the hook. *)
Definition handleSend (input : string) (chat : useAgentChat.ChatState)
  : list FetchRequest * string * useAgentChat.ChatState :=
  if negb (Js.truthy (Js.trim input)) || useAgentChat.loading chat
  then ([], input, chat)
  else
    let message := Js.trim input in
    let (sent, chat') :=
      useAgentChat.send NEXT_PUBLIC_API_BASE_URL now uuidv4 toISOString fetch
                        message chat in
    (sent, EmptyString, chat').

End WithRuntime.

End TopTabs.

(* ================================================================== *)
(** * Properties of the setup scripts *)
(* ================================================================== *)

(** The scripts seen line by line: what [grep -q], [grep | cut] and the
    checks do to the list of the lines of a file.  The lemmas below say
    when the file itself follows. *)
Module EnvLines.

Definition Lines : Type := list string.

Definition grep_q (prefix : string) (ls : Lines) : bool :=
  existsb (String.prefix prefix) ls.

Definition read_value (key : string) (ls : Lines) : list string :=
  map EnvScripts.cut_f2 (filter (String.prefix (key ++ "=")) ls).

Definition ensure (key default : string) (ls : Lines) : Lines :=
  if grep_q (key ++ "=") ls then ls
  else (ls ++ [(key ++ "=" ++ default)%string])%list.

Definition ensure_all (defaults : list (string * string)) (ls : Lines) : Lines :=
  fold_left (fun e kd => ensure (fst kd) (snd kd) e) defaults ls.

Lemma grep_q_app (p : string) (a b : Lines) :
  grep_q p (a ++ b)%list = grep_q p a || grep_q p b.
Proof. unfold grep_q. apply existsb_app. Qed.

Lemma read_value_app (k : string) (a b : Lines) :
  read_value k (a ++ b)%list = (read_value k a ++ read_value k b)%list.
Proof. unfold read_value. rewrite filter_app. apply map_app. Qed.

Lemma grep_none (p : string) (ls : Lines) :
  grep_q p ls = false -> filter (String.prefix p) ls = [].
Proof.
  unfold grep_q. induction ls as [|l ls IH]; simpl; intros H.
  - reflexivity.
  - apply orb_false_iff in H. destruct H as [Hl He].
    rewrite Hl. auto.
Qed.

(** A line that is not about the key changes nothing for the key. *)
Lemma ensure_other (k' k d : string) (ls : Lines) :
  String.prefix (k' ++ "=") (k ++ "=" ++ d) = false ->
  grep_q (k' ++ "=") (ensure k d ls) = grep_q (k' ++ "=") ls
  /\ read_value k' (ensure k d ls) = read_value k' ls.
Proof.
  intros H. unfold ensure.
  destruct (grep_q (k ++ "=") ls); [split; reflexivity|].
  rewrite grep_q_app, read_value_app. unfold read_value at 2.
  unfold grep_q at 2. cbn [existsb filter].
  rewrite H. cbn [map]. rewrite !orb_false_r, app_nil_r. split; reflexivity.
Qed.

Definition unrelated (k' : string) (kd : string * string) : Prop :=
  String.prefix (k' ++ "=") (fst kd ++ "=" ++ snd kd) = false.

Lemma ensure_all_other (k' : string) (l : list (string * string)) :
  Forall (unrelated k') l ->
  forall ls,
    grep_q (k' ++ "=") (ensure_all l ls) = grep_q (k' ++ "=") ls
    /\ read_value k' (ensure_all l ls) = read_value k' ls.
Proof.
  induction 1 as [|kd l Hkd _ IH]; intros ls; simpl.
  - split; reflexivity.
  - destruct (IH (ensure (fst kd) (snd kd) ls)) as [Hq Hr].
    destruct (ensure_other k' (fst kd) (snd kd) ls Hkd) as [Hq' Hr'].
    unfold ensure_all in *. simpl. split; congruence.
Qed.

(** The checks only ever add lines. *)
Lemma ensure_keeps (k d line : string) (ls : Lines) :
  In line ls -> In line (ensure k d ls).
Proof.
  unfold ensure. destruct (grep_q _ ls); intros H; auto.
  apply in_or_app. now left.
Qed.

Lemma ensure_all_keeps (line : string) (l : list (string * string)) :
  forall ls, In line ls -> In line (ensure_all l ls).
Proof.
  induction l as [|kd l IH]; intros ls H; simpl; auto.
  apply IH. now apply ensure_keeps.
Qed.

Lemma ensure_all_app (l1 l2 : list (string * string)) (ls : Lines) :
  ensure_all (l1 ++ l2)%list ls = ensure_all l2 (ensure_all l1 ls).
Proof. unfold ensure_all. apply fold_left_app. Qed.

(** A key the lines do not set gets its default, written at the end,
    whatever the keys checked before and after, as long as their lines
    are about other keys. *)
Lemma ensure_all_default (k d : string) (before after : list (string * string))
      (ls : Lines) :
  Forall (unrelated k) before ->
  Forall (unrelated k) after ->
  String.prefix (k ++ "=") (k ++ "=" ++ d) = true ->
  grep_q (k ++ "=") ls = false ->
  let ls' := ensure_all (before ++ (k, d) :: after)%list ls in
  read_value k ls' = [EnvScripts.cut_f2 (k ++ "=" ++ d)]
  /\ In (k ++ "=" ++ d) ls'
  /\ grep_q (k ++ "=") ls' = true.
Proof.
  intros Hb Ha Hp Hq ls'. subst ls'.
  rewrite ensure_all_app.
  change (ensure_all ((k, d) :: after) (ensure_all before ls))
    with (ensure_all after (ensure k d (ensure_all before ls))).
  set (e1 := ensure_all before ls).
  assert (H1 : grep_q (k ++ "=") e1 = false /\ read_value k e1 = []).
  { destruct (ensure_all_other k before Hb ls) as [Hq1 Hr1]. fold e1 in Hq1, Hr1.
    split; [congruence|]. rewrite Hr1. unfold read_value.
    now rewrite (grep_none _ _ Hq). }
  destruct H1 as [Hq1 Hr1].
  assert (He : ensure k d e1 = (e1 ++ [(k ++ "=" ++ d)%string])%list).
  { unfold ensure. now rewrite Hq1. }
  destruct (ensure_all_other k after Ha (ensure k d e1)) as [Hq2 Hr2].
  rewrite Hq2, Hr2, He. repeat split.
  - rewrite read_value_app, Hr1. unfold read_value. cbn [filter].
    now rewrite Hp.
  - apply ensure_all_keeps. apply in_or_app. right. now left.
  - rewrite grep_q_app. unfold grep_q at 2. cbn [existsb]. rewrite Hp.
    apply orb_true_r.
Qed.

End EnvLines.

Module EnvFacts.
Import EnvScripts.

Lemma append_assoc (a b c : string) : (a ++ b) ++ c = a ++ b ++ c.
Proof. induction a as [|x a IH]; cbn; [reflexivity | now rewrite IH]. Qed.

(** The file is empty or ends with a newline. *)
Fixpoint terminated (s : string) : bool :=
  match s with
  | EmptyString => true
  | String c r =>
      match r with
      | EmptyString => Ascii.eqb c newline_char
      | _ => terminated r
      end
  end.

(** The text has no newline in it. *)
Fixpoint no_newline (s : string) : bool :=
  match s with
  | EmptyString => true
  | String c r => negb (Ascii.eqb c newline_char) && no_newline r
  end.

(** The lines the checks of a table write are lines: no newline in them. *)
Definition plain (l : list (string * string)) : Prop :=
  Forall (fun kd => no_newline (fst kd ++ "=" ++ snd kd) = true) l.

Lemma lines_cons (c : ascii) (r : string) :
  lines (String c r)
  = if Ascii.eqb c newline_char then EmptyString :: lines r
    else match lines r with
         | h :: t => String c h :: t
         | [] => [String c EmptyString]
         end.
Proof. reflexivity. Qed.

Lemma lines_nonempty (c : ascii) (r : string) : lines (String c r) <> [].
Proof.
  rewrite lines_cons. destruct (Ascii.eqb c newline_char); [discriminate|].
  destruct (lines r); discriminate.
Qed.

(** After a file that ends with a newline a text starts on a line of its
    own. *)
Lemma lines_app (a b : string) :
  terminated a = true -> lines (a ++ b) = (lines a ++ lines b)%list.
Proof.
  induction a as [|c a IH]; intros H; [reflexivity|].
  destruct a as [|c' a'].
  - cbn [terminated] in H. cbn [append]. rewrite !lines_cons, H. reflexivity.
  - change (terminated (String c' a') = true) in H. specialize (IH H).
    change (String c (String c' a') ++ b) with (String c (String c' a' ++ b)).
    rewrite (lines_cons c (String c' a' ++ b)), IH.
    rewrite (lines_cons c (String c' a')).
    destruct (Ascii.eqb c newline_char); [reflexivity|].
    destruct (lines (String c' a')) as [|h t] eqn:E; [|reflexivity].
    now apply lines_nonempty in E.
Qed.

Lemma lines_line (line : string) :
  no_newline line = true -> lines (line ++ newline) = [line].
Proof.
  induction line as [|c line IH]; intros H; [reflexivity|].
  cbn [no_newline] in H. apply andb_true_iff in H. destruct H as [Hc Hl].
  cbn [append]. rewrite lines_cons, (IH Hl).
  apply negb_true_iff in Hc. now rewrite Hc.
Qed.

Lemma terminated_app (a b : string) :
  b <> EmptyString -> terminated (a ++ b) = terminated b.
Proof.
  intros Hb. induction a as [|c a IH]; [reflexivity|].
  cbn [append terminated]. rewrite IH.
  destruct (a ++ b) eqn:E; [|reflexivity].
  exfalso. destruct a; cbn in E; [now apply Hb | discriminate E].
Qed.

Lemma terminated_line (line : string) : terminated (line ++ newline) = true.
Proof.
  rewrite terminated_app; [reflexivity | discriminate].
Qed.

(** Whatever the file was, after an [echo >>] it ends with a newline. *)
Lemma terminated_append_line (line : string) (env : EnvFile) :
  terminated (append_line line env) = true.
Proof.
  unfold append_line. rewrite terminated_app; [apply terminated_line|].
  destruct line; discriminate.
Qed.

Lemma lines_append_line (line : string) (env : EnvFile) :
  terminated env = true -> no_newline line = true ->
  lines (append_line line env) = (lines env ++ [line])%list.
Proof.
  intros Ht Hl. unfold append_line. now rewrite (lines_app _ _ Ht), lines_line.
Qed.

(** On a file that ends with a newline a check does to the file what it
    does to its lines. *)
Lemma ensure_lines (k d : string) (env : EnvFile) :
  terminated env = true -> no_newline (k ++ "=" ++ d) = true ->
  lines (ensure k d env) = EnvLines.ensure k d (lines env)
  /\ terminated (ensure k d env) = true.
Proof.
  intros Ht Hl. unfold ensure, EnvLines.ensure, grep_q, EnvLines.grep_q.
  destruct (existsb (String.prefix (k ++ "=")) (lines env)).
  - now split.
  - split; [now apply lines_append_line | apply terminated_append_line].
Qed.

Lemma ensure_all_lines (l : list (string * string)) :
  plain l ->
  forall env,
    terminated env = true ->
    lines (ensure_all l env) = EnvLines.ensure_all l (lines env)
    /\ terminated (ensure_all l env) = true.
Proof.
  induction 1 as [|kd l Hkd _ IH]; intros env Ht; [now split|].
  destruct (ensure_lines (fst kd) (snd kd) env Ht Hkd) as [Hl Ht'].
  change (ensure_all (kd :: l) env)
    with (ensure_all l (ensure (fst kd) (snd kd) env)).
  change (EnvLines.ensure_all (kd :: l) (lines env))
    with (EnvLines.ensure_all l (EnvLines.ensure (fst kd) (snd kd) (lines env))).
  rewrite <- Hl. now apply IH.
Qed.

(** The checks write at the end of the file and nowhere else. *)
Lemma ensure_all_appends (l : list (string * string)) :
  forall env, exists added, ensure_all l env = env ++ added.
Proof.
  induction l as [|kd l IH]; intros env.
  - exists EmptyString. clear. induction env as [|c env IH]; [reflexivity|].
    cbn [append]. now rewrite <- IH.
  - change (ensure_all (kd :: l) env)
      with (ensure_all l (ensure (fst kd) (snd kd) env)).
    destruct (IH (ensure (fst kd) (snd kd) env)) as (added & Ha).
    unfold ensure, append_line in *.
    destruct (grep_q (fst kd ++ "=") env).
    + now exists added.
    + eexists. rewrite Ha. apply append_assoc.
Qed.

Ltac plain_lines := repeat (constructor; [reflexivity|]); constructor.

Lemma fix_agent_first_plain : plain fix_agent_first.
Proof. plain_lines. Qed.

Lemma fix_agent_defaults_plain : plain fix_agent_defaults.
Proof. plain_lines. Qed.

Lemma fix_supervisor_defaults_plain : plain fix_supervisor_defaults.
Proof. plain_lines. Qed.

(** The keys [fix_agent.sh] has checked at its end: all of them when it
    got there, those before the output directory otherwise. *)
Definition checked_by (run : Run) : list (string * string) :=
  if completed run then fix_agent_defaults else fix_agent_first.

Lemma fix_agent_unfold (w : World) (env : option EnvFile) :
  env_after (fix_agent w env)
  = ensure_all (checked_by (fix_agent w env)) (agent_start env).
Proof.
  unfold fix_agent, checked_by.
  destruct (make_output_dir w _); cbn [env_after completed]; [|reflexivity].
  unfold fix_agent_defaults, ensure_all. now rewrite fold_left_app.
Qed.

(** The lines of [.env] after [fix_agent.sh], for a file that is empty or
    ends with a newline. *)
Lemma fix_agent_lines (w : World) (env : option EnvFile) :
  terminated (agent_start env) = true ->
  lines (env_after (fix_agent w env))
  = EnvLines.ensure_all (checked_by (fix_agent w env)) (lines (agent_start env))
  /\ terminated (env_after (fix_agent w env)) = true.
Proof.
  intros Ht. rewrite fix_agent_unfold. apply ensure_all_lines; [|exact Ht].
  unfold checked_by. destruct (completed (fix_agent w env));
    [apply fix_agent_defaults_plain | apply fix_agent_first_plain].
Qed.

Ltac unrelated_lines :=
  repeat (constructor; [reflexivity|]); constructor.

(** Where the file is empty or ends with a newline and does not set
    [MAX_TOOL_LOOPS], both scripts write the line [MAX_TOOL_LOOPS=3], and 3
    is read back. *)
Lemma fix_agent_default_bound (w : World) (env : option EnvFile) :
  terminated (agent_start env) = true ->
  grep_q "MAX_TOOL_LOOPS=" (agent_start env) = false ->
  In "MAX_TOOL_LOOPS=3" (lines (env_after (fix_agent w env)))
  /\ read_value "MAX_TOOL_LOOPS" (env_after (fix_agent w env)) = ["3"].
Proof.
  intros Ht Hq. destruct (fix_agent_lines w env Ht) as [Hl _].
  unfold read_value, grep. rewrite Hl. unfold checked_by.
  destruct (completed (fix_agent w env)).
  - destruct (EnvLines.ensure_all_default "MAX_TOOL_LOOPS" "3"
                [("EXECUTE_TOOLS", "1"); ("COLLOQUIAL_ENABLED", "1")]
                [("LLM_REPORT_ENHANCEMENT", "1"); ("OPENAI_API_KEY", "");
                 ("FMP_API_KEY", ""); ("OUTPUT_DIR", "./outputs");
                 ("PDF_ENGINE", "weasyprint"); ("VECTORSTORE_DIR", "./vector_store")]
                (lines (agent_start env))) as (Hr & Hi & _);
      [unrelated_lines | unrelated_lines | reflexivity | exact Hq |].
    split; [exact Hi | exact Hr].
  - destruct (EnvLines.ensure_all_default "MAX_TOOL_LOOPS" "3"
                [("EXECUTE_TOOLS", "1"); ("COLLOQUIAL_ENABLED", "1")]
                [("LLM_REPORT_ENHANCEMENT", "1"); ("OPENAI_API_KEY", "");
                 ("FMP_API_KEY", ""); ("OUTPUT_DIR", "./outputs")]
                (lines (agent_start env))) as (Hr & Hi & _);
      [unrelated_lines | unrelated_lines | reflexivity | exact Hq |].
    split; [exact Hi | exact Hr].
Qed.

Lemma fix_supervisor_default_bound (start : EnvFile) :
  terminated start = true ->
  grep_q "MAX_TOOL_LOOPS=" start = false ->
  let repaired := ensure_all fix_supervisor_defaults start in
  In "MAX_TOOL_LOOPS=3" (lines repaired)
  /\ read_value "MAX_TOOL_LOOPS" repaired = ["3"]
  /\ shown "MAX_TOOL_LOOPS" repaired = "MAX_TOOL_LOOPS=3".
Proof.
  intros Ht Hq repaired. subst repaired.
  destruct (ensure_all_lines fix_supervisor_defaults
              fix_supervisor_defaults_plain start Ht) as [Hl _].
  destruct (EnvLines.ensure_all_default "MAX_TOOL_LOOPS" "3"
              [("EXECUTE_TOOLS", "1"); ("COLLOQUIAL_ENABLED", "1")]
              [("OUTPUT_DIR", "./outputs"); ("PDF_ENGINE", "weasyprint");
               ("VECTORSTORE_DIR", "./vector_store")]
              (lines start)) as (Hr & Hi & _);
    [unrelated_lines | unrelated_lines | reflexivity | exact Hq |].
  assert (Hv : read_value "MAX_TOOL_LOOPS"
                 (ensure_all fix_supervisor_defaults start) = ["3"]).
  { unfold read_value, grep. rewrite Hl. exact Hr. }
  split; [rewrite Hl; exact Hi|]. split; [exact Hv|].
  unfold shown. rewrite Hv. reflexivity.
Qed.

End EnvFacts.

Module EnvExamples.
Import EnvScripts.

(** A machine on which every directory can be made. *)
Definition obliging : World := mkWorld (fun _ => false) (fun _ => true).

(** A machine on which no directory can be made. *)
Definition stubborn : World := mkWorld (fun _ => false) (fun _ => false).

(** A [.env] of two lines, as an editor that writes no newline after the
    last line leaves it. *)
Definition unterminated : EnvFile :=
  "EXECUTE_TOOLS=1" ++ newline ++ "COLLOQUIAL_ENABLED=1".

(** A [.env] of two lines that ends with a newline. *)
Definition two_keys : EnvFile :=
  "FMP_API_KEY=abc" ++ newline ++ "EXECUTE_TOOLS=0" ++ newline.

End EnvExamples.

(** ** C3 *)

(** C3: MAX_TOOL_LOOPS is a configured bound with default 3, and the
    test-server script exports 3.  But the repair scripts do not always
    write the default for a [.env] that does not set the bound.  When the
    last line of the file has no newline after it and the two keys checked
    before are set, [echo "MAX_TOOL_LOOPS=3" >> .env] continues that last
    line: the file gets the line [COLLOQUIAL_ENABLED=1MAX_TOOL_LOOPS=3],
    [MAX_TOOL_LOOPS] is as unset as before (no line starts with it, nothing
    is read back, [fix_supervisor.sh] shows an empty value) and the value
    of [COLLOQUIAL_ENABLED] is spoilt, whatever happens to the
    directories. *)
Theorem C3_max_tool_loops_default_glued :
  EnvScripts.grep_q "MAX_TOOL_LOOPS=" EnvExamples.unterminated = false
  /\ (forall w : EnvScripts.World,
        let after :=
          EnvScripts.env_after (EnvScripts.fix_agent w (Some EnvExamples.unterminated)) in
        EnvScripts.lines (EnvScripts.ensure_all EnvScripts.fix_agent_first
                            EnvExamples.unterminated)
        = [ "EXECUTE_TOOLS=1"; "COLLOQUIAL_ENABLED=1MAX_TOOL_LOOPS=3";
            "LLM_REPORT_ENHANCEMENT=1"; "OPENAI_API_KEY="; "FMP_API_KEY=";
            "OUTPUT_DIR=./outputs" ]
        /\ EnvScripts.grep_q "MAX_TOOL_LOOPS=" after = false
        /\ EnvScripts.read_value "MAX_TOOL_LOOPS" after = []
        /\ EnvScripts.read_value "COLLOQUIAL_ENABLED" after = ["1MAX_TOOL_LOOPS"])
  /\ (forall (w : EnvScripts.World) (example : option EnvScripts.EnvFile),
        EnvScripts.mkdir_p w "scripts" = true ->
        exists after,
          EnvScripts.sup_env_after
            (EnvScripts.fix_supervisor w (Some EnvExamples.unterminated) example)
          = Some after
          /\ EnvScripts.lines after
             = [ "EXECUTE_TOOLS=1"; "COLLOQUIAL_ENABLED=1MAX_TOOL_LOOPS=3";
                 "OUTPUT_DIR=./outputs"; "PDF_ENGINE=weasyprint";
                 "VECTORSTORE_DIR=./vector_store" ]
          /\ EnvScripts.grep_q "MAX_TOOL_LOOPS=" after = false
          /\ EnvScripts.read_value "MAX_TOOL_LOOPS" after = []
          /\ EnvScripts.shown "MAX_TOOL_LOOPS" after = "MAX_TOOL_LOOPS=")
  /\ EnvScripts.exported "MAX_TOOL_LOOPS" EnvScripts.test_server_exports = Some "3".
Proof.
  split; [reflexivity|]. split; [|split; [|reflexivity]].
  - intros w after. subst after. split; [reflexivity|].
    rewrite EnvFacts.fix_agent_unfold. unfold EnvFacts.checked_by.
    destruct (EnvScripts.completed _); repeat split; reflexivity.
  - intros w example Hmk. unfold EnvScripts.fix_supervisor. rewrite Hmk.
    cbn [negb EnvScripts.supervisor_start EnvScripts.sup_env_after].
    eexists. split; [reflexivity|]. repeat split; reflexivity.
Qed.

(* ================================================================== *)
(** * Properties of the declared types and of the report list *)
(* ================================================================== *)

(** ** C1 *)

(** C1: the members of the response envelope.  The type [AgentRunResponse]
    declares the first ten members of the specification's list, with the
    same optionality, and stops there: it has no member [output_files], so
    the list of the specification is the declared one followed by
    [output_files]. *)
Theorem C1_envelope_type_lacks_output_files :
  Types.declares Types.AgentRunResponse_type "output_files" = false
  /\ Types.member Types.AgentRunResponse_type "output_files" = None
  /\ SpecWords.ResponseEnvelope_members
     = (declared_members Types.AgentRunResponse_type ++ [("output_files", true)])%list
  /\ declared_members Types.AgentRunResponse_type
     <> SpecWords.ResponseEnvelope_members.
Proof.
  repeat split; try reflexivity.
  intros H. apply (f_equal (@List.length _)) in H. discriminate H.
Qed.

(** ** C6 *)

Module ReportListFacts.
Import ReportList.

Lemma eqb_false_of_neq (a b : string) : a <> b -> String.eqb a b = false.
Proof. intros H. now apply String.eqb_neq. Qed.

(** The [default] branch of the [switch]. *)
Lemma default_branch (mode : string) :
  mode <> "overlay" -> mode <> "acroform" -> mode <> "auto" ->
  getRenderModeDisplay mode = unknown_display.
Proof.
  intros H1 H2 H3. unfold getRenderModeDisplay.
  rewrite (eqb_false_of_neq _ _ H1), (eqb_false_of_neq _ _ H2),
    (eqb_false_of_neq _ _ H3).
  reflexivity.
Qed.

(** Only the default branch gives the destructive variant. *)
Lemma destructive_only_by_default (mode : string) :
  variant (getRenderModeDisplay mode) = variant_destructive ->
  mode <> "overlay" /\ mode <> "acroform" /\ mode <> "auto".
Proof.
  unfold getRenderModeDisplay. intros H.
  repeat split; intros ->; simpl in H; discriminate H.
Qed.

End ReportListFacts.

(** C6: [render_mode] takes one of the four values auto, overlay, acroform
    and unknown, and every mode string outside overlay, acroform and auto is
    displayed as the unknown mode, with the destructive variant; the value
    unknown itself is such a string. *)
Theorem C6_render_mode_values_and_unknown_display :
  forall (r : Types.ReportInfo) (mode : string),
    mode <> "overlay" -> mode <> "acroform" -> mode <> "auto" ->
    In (Types.RenderMode_to_string (Types.render_mode r)) SpecWords.render_modes
    /\ Types.member Types.ReportInfo_type "render_mode"
       = Some (false, Types.TUnion (map Types.TLit SpecWords.render_modes))
    /\ ReportList.getRenderModeDisplay mode = ReportList.unknown_display
    /\ ReportList.display_text (ReportList.getRenderModeDisplay mode) = "未知"
    /\ ReportList.variant (ReportList.getRenderModeDisplay mode)
       = ReportList.variant_destructive
    /\ ReportList.getRenderModeDisplay "unknown" = ReportList.unknown_display.
Proof.
  intros r mode H1 H2 H3.
  rewrite (ReportListFacts.default_branch mode H1 H2 H3).
  repeat split; try reflexivity.
  destruct (Types.render_mode r); simpl; auto.
Qed.

(** A mode the backend never sends is displayed as unknown. *)
Lemma C6_render_mode_values_and_unknown_display_witness :
  ReportList.getRenderModeDisplay "flatten"
  = ReportList.mkDisplay "未知" ReportList.variant_destructive.
Proof.
  refine (proj1 (proj2 (proj2
    (C6_render_mode_values_and_unknown_display
       (Types.mkReportInfo "AAPL.md" "20250904_095145/AAPL.md" 342
                           "2025-09-04T09:51:45" Types.unknown "")
       "flatten" _ _ _)))); discriminate.
Defined.

(** ** C5 *)

Module UriFacts.
Import Js.

(** The characters that would end or split a query parameter. *)
Definition query_delimiter (c : ascii) : bool :=
  let n := nat_of_ascii c in
  (n =? 38) || (n =? 61) || (n =? 63) || (n =? 35) || (n =? 47)
  || (n =? 43) || (n =? 32).

Fixpoint free_of_delimiters (s : string) : bool :=
  match s with
  | EmptyString => true
  | String c r => negb (query_delimiter c) && free_of_delimiters r
  end.

Definition is_upper_hex (c : ascii) : bool :=
  let n := nat_of_ascii c in
  ((48 <=? n) && (n <=? 57)) || ((65 <=? n) && (n <=? 70)).

(** A text made of unreserved characters and of escapes [%XX] with two
    upper-case hexadecimal digits, and of nothing else. *)
Fixpoint escaped (s : string) : bool :=
  match s with
  | EmptyString => true
  | String c r =>
      if Ascii.eqb c "%" then
        match r with
        | String h1 (String h2 r') =>
            is_upper_hex h1 && is_upper_hex h2 && escaped r'
        | _ => false
        end
      else uri_unreserved c && escaped r
  end.

Definition hex_value (c : ascii) : nat :=
  let n := nat_of_ascii c in
  if n <? 58 then n - 48 else n - 55.

(** Reading an escaped text back: every escape is replaced by the byte it
    stands for. *)
Fixpoint unescape (s : string) : string :=
  match s with
  | EmptyString => EmptyString
  | String c r =>
      if Ascii.eqb c "%" then
        match r with
        | String h1 (String h2 r') =>
            String (ascii_of_nat (16 * hex_value h1 + hex_value h2)) (unescape r')
        | _ => s
        end
      else String c (unescape r)
  end.

Lemma free_of_delimiters_app (a b : string) :
  free_of_delimiters (a ++ b) = free_of_delimiters a && free_of_delimiters b.
Proof.
  induction a as [|c a IH]; simpl; [reflexivity|].
  now rewrite IH, andb_assoc.
Qed.

(** What is written for one byte has no delimiter. *)
Lemma encoded_byte_free (c : ascii) :
  free_of_delimiters
    (if uri_unreserved c then String c EmptyString else percent_encode c) = true.
Proof.
  destruct c as [[] [] [] [] [] [] [] []]; vm_compute; reflexivity.
Qed.

Lemma percent_encode_bytes_free (s : string) :
  free_of_delimiters (percent_encode_bytes s) = true.
Proof.
  induction s as [|c s IH]; simpl; [reflexivity|].
  now rewrite free_of_delimiters_app, encoded_byte_free, IH.
Qed.

Lemma escaped_encoded_byte (c : ascii) (r : string) :
  escaped ((if uri_unreserved c then String c EmptyString else percent_encode c)
           ++ r)
  = escaped r.
Proof.
  destruct c as [[] [] [] [] [] [] [] []]; reflexivity.
Qed.

Lemma percent_encode_bytes_escaped (s : string) :
  escaped (percent_encode_bytes s) = true.
Proof.
  induction s as [|c s IH]; [reflexivity|].
  cbn [percent_encode_bytes]. now rewrite escaped_encoded_byte.
Qed.

Lemma unescape_encoded_byte (c : ascii) (r : string) :
  unescape ((if uri_unreserved c then String c EmptyString else percent_encode c)
            ++ r)
  = String c (unescape r).
Proof.
  destruct c as [[] [] [] [] [] [] [] []]; reflexivity.
Qed.

Lemma unescape_percent_encode_bytes (s : string) :
  unescape (percent_encode_bytes s) = s.
Proof.
  induction s as [|c s IH]; [reflexivity|].
  cbn [percent_encode_bytes]. now rewrite unescape_encoded_byte, IH.
Qed.

(** [encodeURIComponent] returns exactly on the strings without a lone
    surrogate. *)
Lemma encodeURIComponent_returns (s encoded : string) :
  encodeURIComponent s = Some encoded <->
  has_lone_surrogate s = false /\ encoded = percent_encode_bytes s.
Proof.
  unfold encodeURIComponent. destruct (has_lone_surrogate s); split.
  - discriminate.
  - intros [H _]. discriminate H.
  - intros H. injection H as <-. now split.
  - intros [_ ->]. reflexivity.
Qed.

Lemma encodeURIComponent_throws (s : string) :
  encodeURIComponent s = None <-> has_lone_surrogate s = true.
Proof.
  unfold encodeURIComponent. destruct (has_lone_surrogate s); split;
    intros H; try reflexivity; discriminate H.
Qed.

Lemma encodeURIComponent_injective (a b encoded : string) :
  encodeURIComponent a = Some encoded ->
  encodeURIComponent b = Some encoded ->
  a = b.
Proof.
  intros Ha Hb.
  apply encodeURIComponent_returns in Ha. destruct Ha as [_ Ha].
  apply encodeURIComponent_returns in Hb. destruct Hb as [_ Hb].
  rewrite <- (unescape_percent_encode_bytes a),
          <- (unescape_percent_encode_bytes b).
  congruence.
Qed.

(** An endpoint path that starts with a slash is not touched. *)
Lemma buildApiUrl_absolute (base : option string) (rest : string) :
  Api.buildApiUrl base (String "/" rest) = Api.API_BASE_URL base ++ String "/" rest.
Proof. destruct rest; reflexivity. Qed.

Lemma download_url_shape (base : option string) (path : string) :
  Api.buildReportDownloadUrl base path
  = option_map (fun encoded =>
                  Api.API_BASE_URL base ++ "/api/reports/download" ++ "?path="
                  ++ encoded)
               (encodeURIComponent path).
Proof.
  unfold Api.buildReportDownloadUrl.
  destruct (encodeURIComponent path); reflexivity.
Qed.

End UriFacts.

Module UriExamples.

(** U+D800 alone, a high surrogate without its partner: a path that the
    JSON text of a report list can spell with an escape. *)
Definition lone : string :=
  String (ascii_of_nat 237) (String (ascii_of_nat 160)
    (String (ascii_of_nat 128) EmptyString)).

End UriExamples.

(** C5: a listed report has exactly the members name, path, size,
    generated_at, render_mode and watermark (all required).  For a path
    without a lone surrogate the download URL is the base URL followed by
    the download endpoint and the query parameter [path] whose value is the
    URI-encoded path: a text of unreserved characters and escapes [%XX]
    only, hence without a character that would end or split the parameter,
    which read back gives the path, byte for byte.  For a path with a
    lone surrogate [encodeURIComponent] throws and there is no URL; the
    hook gives what the function of [api.ts] gives, and a click on the
    download button then opens nothing. *)
Theorem C5_report_fields_and_download_url :
  forall (base : option string) (path filename : string),
    declared_members Types.ReportInfo_type
    = map (fun n => (n, false)) SpecWords.report_index_members
    /\ (Js.has_lone_surrogate path = false ->
        exists encoded,
          Api.buildReportDownloadUrl base path
          = Some (Api.API_BASE_URL base ++ "/api/reports/download?path="
                  ++ encoded)
          /\ UriFacts.escaped encoded = true
          /\ UriFacts.free_of_delimiters encoded = true
          /\ UriFacts.unescape encoded = path)
    /\ (Js.has_lone_surrogate path = true ->
        Api.buildReportDownloadUrl base path = None
        /\ ReportListView.handleDownload base path filename = None)
    /\ useReports.buildDownloadUrl base path = Api.buildReportDownloadUrl base path.
Proof.
  intros base path filename.
  split; [reflexivity|]. split; [|split; [|reflexivity]].
  - intros Hwf. exists (Js.percent_encode_bytes path).
    rewrite UriFacts.download_url_shape.
    unfold Js.encodeURIComponent. rewrite Hwf. cbn [option_map].
    split; [reflexivity|].
    split; [apply UriFacts.percent_encode_bytes_escaped|].
    split; [apply UriFacts.percent_encode_bytes_free|].
    apply UriFacts.unescape_percent_encode_bytes.
  - intros Hlone.
    assert (H : Api.buildReportDownloadUrl base path = None).
    { rewrite UriFacts.download_url_shape.
      unfold Js.encodeURIComponent. now rewrite Hlone. }
    split; [exact H|].
    unfold ReportListView.handleDownload, useReports.buildDownloadUrl.
    now rewrite H.
Qed.

(** The URL of a report whose path has a slash, a space, an ampersand and a
    character outside ASCII. *)
Lemma C5_report_fields_and_download_url_witness :
  Api.buildReportDownloadUrl None "20250904_095145/AAPL TSLA&報.md"
  = Some "http://localhost:8000/api/reports/download?path=20250904_095145%2FAAPL%20TSLA%26%E5%A0%B1.md"
  /\ exists encoded,
       Api.buildReportDownloadUrl None "20250904_095145/AAPL TSLA&報.md"
       = Some ("http://localhost:8000/api/reports/download?path=" ++ encoded)
       /\ UriFacts.unescape encoded = "20250904_095145/AAPL TSLA&報.md".
Proof.
  split; [reflexivity|].
  destruct (proj1 (proj2
    (C5_report_fields_and_download_url None "20250904_095145/AAPL TSLA&報.md"
       "AAPL.md")) eq_refl)
    as (encoded & Hurl & _ & _ & Hback).
  exists encoded. split; [exact Hurl | exact Hback].
Defined.

(** Not for every path string: for a path with a lone surrogate no URL is
    built. *)
Lemma C5_lone_surrogate_has_no_url :
  ~ (exists url, Api.buildReportDownloadUrl None UriExamples.lone = Some url)
  /\ useReports.buildDownloadUrl None UriExamples.lone = None.
Proof.
  split; [|reflexivity]. intros [url H]. discriminate H.
Qed.

(* ================================================================== *)
(** * Properties of the client: [runAgent] and the two hooks *)
(* ================================================================== *)

Module ApiFacts.
Import Json Types Api.

(** The request [runAgent] hands to [fetch]. *)
Definition agent_request (base : option string) (request : AgentRunRequest)
  : FetchRequest :=
  mkFetchRequest (API_BASE_URL base ++ "/api/agent/run") POST
                 [("Content-Type", "application/json")]
                 (Some (stringify (AgentRunRequest_to_json request))).

(** Whatever the network does, [runAgent] issues that one request. *)
Lemma runAgent_sends base now fetch request :
  fst (runAgent base now fetch request) = [agent_request base request].
Proof. reflexivity. Qed.

Lemma runAgent_settles base now fetch request :
  snd (runAgent base now fetch request)
  = finish now ("POST " ++ agent_endpoint) (settle (fetch (agent_request base request))).
Proof. reflexivity. Qed.

(** The object that is sent has [input_type: "text"] whatever the
    request. *)
Lemma input_type_is_text (request : AgentRunRequest) :
  get "input_type" (AgentRunRequest_to_json request) = Some (JStr "text").
Proof. destruct request as [[] q sid opts]. reflexivity. Qed.

Lemma get_query (request : AgentRunRequest) :
  get "query" (AgentRunRequest_to_json request) = Some (JStr (query request)).
Proof. reflexivity. Qed.

Lemma get_session_id (request : AgentRunRequest) :
  get "session_id" (AgentRunRequest_to_json request)
  = option_map JStr (session_id request).
Proof. destruct request as [t q [sid|] [o|]]; reflexivity. Qed.

Lemma get_options (request : AgentRunRequest) :
  get "options" (AgentRunRequest_to_json request)
  = option_map Options_to_json (options request).
Proof. destruct request as [t q [sid|] [o|]]; reflexivity. Qed.

(** The members of the object that is sent are among the four of the
    request type, and those of its options among the four options. *)
Definition keys (j : json) : list string :=
  match j with JObj ms => map fst ms | _ => [] end.

Lemma request_keys (request : AgentRunRequest) :
  incl (keys (AgentRunRequest_to_json request))
       (field_names AgentRunRequest_type).
Proof.
  destruct request as [t q [sid|] [o|]]; simpl;
    intros k Hk; simpl in Hk |- *; intuition.
Qed.

Lemma options_keys (o : Options) :
  incl (keys (Options_to_json o)) ["lang"; "top_k"; "include_sources"; "format"].
Proof.
  destruct o as [[l|] [k|] [i|] [f|]]; simpl;
    intros x Hx; simpl in Hx |- *; intuition.
Qed.

(** ** The text of the body, written out *)

(** A name or a word between double quotes. *)
Definition quoted (word : string) : string :=
  String dquote (word ++ String dquote EmptyString).

(** The text with a double quote for every apostrophe: a way to write a
    text that has double quotes in it. *)
Fixpoint with_quotes (s : string) : string :=
  match s with
  | EmptyString => EmptyString
  | String c r =>
      String (if Ascii.eqb c "'" then dquote else c) (with_quotes r)
  end.

(** A member of an object: its name between quotes, a colon and the text
    of its value. *)
Definition member_text (name value : string) : string :=
  quoted name ++ ":" ++ value.

(** The JSON text of the options: the members that are given, in the
    order lang, top_k, include_sources, format. *)
Definition options_text (o : Options) : string :=
  "{"
  ++ Js.join ","
       (match lang o with
        | Some tw => [member_text "lang" (quoted "tw")]
        | Some en => [member_text "lang" (quoted "en")]
        | None => []
        end
        ++ match top_k o with
           | Some k => [member_text "top_k" (Js.Z_to_string k)]
           | None => []
           end
        ++ match include_sources o with
           | Some true => [member_text "include_sources" "true"]
           | Some false => [member_text "include_sources" "false"]
           | None => []
           end
        ++ match format o with
           | Some fmt_json => [member_text "format" (quoted "json")]
           | Some fmt_markdown => [member_text "format" (quoted "markdown")]
           | Some fmt_plain => [member_text "format" (quoted "plain")]
           | None => []
           end)%list
  ++ "}".

(** The JSON text of a request: input_type and query, then session_id and
    options when they are given. *)
Definition request_text (r : AgentRunRequest) : string :=
  "{"
  ++ Js.join ","
       ([member_text "input_type" (quoted "text");
         member_text "query" (quote (query r))]
        ++ match session_id r with
           | Some sid => [member_text "session_id" (quote sid)]
           | None => []
           end
        ++ match options r with
           | Some o => [member_text "options" (options_text o)]
           | None => []
           end)%list
  ++ "}".

(** The numbers of a request are numbers of the model. *)
Definition numbers_safe (r : AgentRunRequest) : Prop :=
  match options r with
  | Some o =>
      match top_k o with
      | Some k => safe_integer k = true
      | None => True
      end
  | None => True
  end.

Lemma stringify_request (r : AgentRunRequest) :
  stringify (AgentRunRequest_to_json r) = request_text r.
Proof.
  destruct r as [[] q [sid|] [[[[|]|] [k|] [[|]|] [[| |]|]]|]]; reflexivity.
Qed.

End ApiFacts.

(** ** C4 *)

(** C4: [runAgent] is the single entry operation.  Its request type has the
    members input_type (the literal "text"), query, and the optional
    session_id and options {lang, top_k, include_sources, format}.  It
    hands [fetch] one request and nothing else: a POST to the agent endpoint
    under the base URL, with the JSON content type, whose body is the JSON
    text of the object with input_type "text", the query, and the
    session_id and the options (with the members that are given) when the
    request has them; and when the endpoint answers with a successful
    response it returns the parsed envelope. *)
Theorem C4_runAgent_single_entry :
  forall (base : option string) (now : string)
         (fetch : Api.FetchRequest -> Api.FetchOutcome Types.AgentRunResponse)
         (request : Types.AgentRunRequest)
         (status : nat) (statusText : string) (envelope : Types.AgentRunResponse),
    ApiFacts.numbers_safe request ->
    fetch (ApiFacts.agent_request base request)
    = Api.FetchResolved (Api.mkResponse true status statusText (inr envelope)) ->
    Api.runAgent base now fetch request
    = ([ApiFacts.agent_request base request], Api.Fulfilled envelope)
    /\ ApiFacts.agent_request base request
       = Api.mkFetchRequest
           (Api.API_BASE_URL base ++ "/api/agent/run") Api.POST
           [("Content-Type", "application/json")]
           (Some (ApiFacts.request_text request))
    /\ Types.AgentRunRequest_to_json request
       = Json.JObj
           ([ ("input_type", Json.JStr "text");
              ("query", Json.JStr (Types.query request)) ]
            ++ match Types.session_id request with
               | Some sid => [("session_id", Json.JStr sid)]
               | None => []
               end
            ++ match Types.options request with
               | Some o =>
                   [("options",
                     Json.JObj
                       (match Types.lang o with
                        | Some Types.tw => [("lang", Json.JStr "tw")]
                        | Some Types.en => [("lang", Json.JStr "en")]
                        | None => []
                        end
                        ++ match Types.top_k o with
                           | Some k => [("top_k", Json.JNum k)]
                           | None => []
                           end
                        ++ match Types.include_sources o with
                           | Some b => [("include_sources", Json.JBool b)]
                           | None => []
                           end
                        ++ match Types.format o with
                           | Some Types.fmt_json => [("format", Json.JStr "json")]
                           | Some Types.fmt_markdown =>
                               [("format", Json.JStr "markdown")]
                           | Some Types.fmt_plain => [("format", Json.JStr "plain")]
                           | None => []
                           end)%list)]
               | None => []
               end)%list
    /\ declared_members Types.AgentRunRequest_type
       = [("input_type", false); ("query", false); ("session_id", true); ("options", true)]
    /\ Types.member Types.AgentRunRequest_type "input_type"
       = Some (false, Types.TLit "text")
    /\ option_map (fun d => declared_members (snd d))
                  (Types.member Types.AgentRunRequest_type "options")
       = Some [("lang", true); ("top_k", true); ("include_sources", true);
               ("format", true)].
Proof.
  intros base now fetch request status statusText envelope _ Hfetch.
  split; [|split; [|split]].
  - unfold Api.runAgent, Api.apiPost.
    change (Api.post_request base Api.agent_endpoint
              (Types.AgentRunRequest_to_json request))
      with (ApiFacts.agent_request base request).
    rewrite Hfetch. reflexivity.
  - unfold ApiFacts.agent_request. now rewrite ApiFacts.stringify_request.
  - destruct request as [[] q [sid|] [[[[|]|] [k|] [i|] [[| |]|]]|]]; reflexivity.
  - repeat split.
Qed.

Module Examples.
Import Json Types Api.

(** An envelope with two warnings and no text. *)
Definition warned : AgentRunResponse :=
  mkAgentRunResponse true (Some " ") "text" None None
    (Some ["execute_tools_disabled"; "pdf_generation_failed"])
    None "2025-09-04T09:51:45Z" None None.

(** An envelope of a failed request. *)
Definition failed : AgentRunResponse :=
  mkAgentRunResponse false None "text" None None None
    (Some "unclassified") "2025-09-04T09:51:45Z" None None.

Definition answers (envelope : AgentRunResponse)
  : FetchRequest -> FetchOutcome AgentRunResponse :=
  fun _ => FetchResolved (mkResponse true 200 "OK" (inr envelope)).

Definition uuid (n : nat) : string := "id-" ++ Js.nat_to_string n.
Definition date (n : nat) : string := "t" ++ Js.nat_to_string n.

Definition question : AgentRunRequest :=
  mkAgentRunRequest text "AAPL" (Some "s1")
    (Some (mkOptions (Some tw) None (Some true) (Some fmt_json))).

(** A report list that the backend refuses. *)
Definition refused : ReportListResponse :=
  mkReportListResponse false None 0 (Some "no reports directory")
    "2025-09-04T09:51:45Z".

Definition one_report : ReportInfo :=
  mkReportInfo "AAPL.md" "20250904_095145/AAPL.md" 342
               "2025-09-04T09:51:45" unknown "".

End Examples.

Module RequestExamples.
Import Json Types Api.

(** A request with every member, whose query has double quotes, a
    backslash and characters outside ASCII. *)
Definition full : AgentRunRequest :=
  mkAgentRunRequest text (ApiFacts.with_quotes "C:\reports 'AAPL' 股價") (Some "s1")
    (Some (mkOptions (Some tw) (Some 5%Z) (Some true) (Some fmt_json))).

Definition full_text : string :=
  ApiFacts.with_quotes
    "{'input_type':'text','query':'C:\\reports \'AAPL\' 股價','session_id':'s1','options':{'lang':'tw','top_k':5,'include_sources':true,'format':'json'}}".

End RequestExamples.

(** A concrete exchange: the one request, with its body letter by letter,
    and the envelope. *)
Lemma C4_runAgent_single_entry_witness :
  Api.runAgent None "now" (Examples.answers Examples.warned) RequestExamples.full
  = ([Api.mkFetchRequest "http://localhost:8000/api/agent/run" Api.POST
        [("Content-Type", "application/json")]
        (Some RequestExamples.full_text)],
     Api.Fulfilled Examples.warned).
Proof.
  destruct (C4_runAgent_single_entry None "now"
              (Examples.answers Examples.warned) RequestExamples.full
              200 "OK" Examples.warned eq_refl eq_refl) as (Hrun & Hreq & _).
  rewrite Hrun, Hreq. reflexivity.
Defined.

Module ChatFacts.
Import Json Types Api useAgentChat.

Section WithRuntime.

Variable base : option string.
Variable now : string.
Variable uuidv4 toISOString : nat -> string.
Variable fetch : FetchRequest -> FetchOutcome AgentRunResponse.

(** The warning messages [forEach] adds, the first one drawing the
    [k]-th identifier. *)
Fixpoint warning_messages (k : nat) (ws : list string) : list ChatMessage :=
  match ws with
  | [] => []
  | w :: r =>
      mkChatMessage (uuidv4 k) warning ("警告: " ++ w) (toISOString k) None None
      :: warning_messages (S k) r
  end.

Lemma add_warnings_spec (ws : list string) :
  forall st,
    add_warnings uuidv4 toISOString ws st
    = mkChatState (messages st ++ warning_messages (drawn st) ws)
                  (loading st) (error st) (sessionId st)
                  (drawn st + List.length ws).
Proof.
  induction ws as [|w ws IH]; intros st; simpl.
  - rewrite app_nil_r, Nat.add_0_r. now destruct st.
  - rewrite IH. simpl. rewrite <- app_assoc. simpl.
    now rewrite Nat.add_succ_r.
Qed.

Lemma warning_messages_types (ws : list string) :
  forall k, map type (warning_messages k ws) = repeat warning (List.length ws).
Proof. induction ws as [|w ws IH]; intros k; simpl; [|rewrite IH]; reflexivity. Qed.

Lemma warning_messages_contents (ws : list string) :
  forall k, map content (warning_messages k ws)
            = map (fun w => "警告: " ++ w) ws.
Proof. induction ws as [|w ws IH]; intros k; simpl; [|rewrite IH]; reflexivity. Qed.

(** The state in which [send] waits for the answer. *)
Definition waiting (text : string) (st : ChatState) : ChatState :=
  addMessage uuidv4 toISOString user (Js.trim text) None None
             (setError None (setLoading true st)).

(** [send] on a text that is not blank, while nothing is loading. *)
Lemma send_unfold (text : string) (st : ChatState) :
  Js.truthy (Js.trim text) = true ->
  loading st = false ->
  send base now uuidv4 toISOString fetch text st
  = ([ApiFacts.agent_request base (prepare text st)],
     setLoading false
       (match snd (runAgent base now fetch (prepare text st)) with
        | Fulfilled response =>
            on_response uuidv4 toISOString response (waiting text st)
        | Rejected apiError =>
            on_rejection uuidv4 toISOString apiError (waiting text st)
        end)).
Proof.
  intros Ht Hl. unfold send. rewrite Ht, Hl. simpl negb. cbn [orb].
  reflexivity.
Qed.

(** [send] does nothing on a blank text or while loading. *)
Lemma send_ignored (text : string) (st : ChatState) :
  Js.truthy (Js.trim text) = false \/ loading st = true ->
  send base now uuidv4 toISOString fetch text st = ([], st).
Proof.
  intros [H|H]; unfold send; rewrite H; simpl; [reflexivity|].
  now rewrite orb_true_r.
Qed.

Lemma repeat_snoc {A} (a : A) (n : nat) :
  (repeat a n ++ [a])%list = repeat a (n + 1).
Proof. induction n as [|n IH]; simpl; [|rewrite IH]; reflexivity. Qed.

End WithRuntime.

End ChatFacts.

(** ** C7 *)

(** C7: every request the chat submits carries [input_type: "text"].
    Whatever the text and the state of the hook, each request issued by
    [send] is the post of a request object to the agent endpoint whose
    [input_type] member is the string "text"; a text that is not blank is
    indeed submitted (once) when nothing is loading, with the trimmed text
    as its query.  The same holds for every call of [runAgent], whose
    request type admits no other value. *)
Theorem C7_input_type_always_text :
  forall (base : option string) (now : string)
         (uuidv4 toISOString : nat -> string)
         (fetch : Api.FetchRequest -> Api.FetchOutcome Types.AgentRunResponse)
         (text : string) (st : useAgentChat.ChatState)
         (request : Types.AgentRunRequest),
    Forall (fun rq =>
              exists r : Types.AgentRunRequest,
                rq = Api.post_request base Api.agent_endpoint
                                      (Types.AgentRunRequest_to_json r)
                /\ Types.req_input_type r = Types.text
                /\ Json.get "input_type" (Types.AgentRunRequest_to_json r)
                   = Some (Json.JStr "text")
                /\ Types.query r = Js.trim text)
           (fst (useAgentChat.send base now uuidv4 toISOString fetch text st))
    /\ (Js.truthy (Js.trim text) = true -> useAgentChat.loading st = false ->
        List.length (fst (useAgentChat.send base now uuidv4 toISOString fetch text st)) = 1)
    /\ Forall (fun rq =>
                 exists j, Api.body rq = Some (Json.stringify j)
                           /\ Json.get "input_type" j = Some (Json.JStr "text"))
              (fst (Api.runAgent base now fetch request)).
Proof.
  intros base now uuidv4 toISOString fetch text st request.
  split; [|split].
  - destruct (Js.truthy (Js.trim text)) eqn:Ht;
      [destruct (useAgentChat.loading st) eqn:Hl|].
    + rewrite ChatFacts.send_ignored by (now right). constructor.
    + rewrite ChatFacts.send_unfold by assumption.
      constructor; [|constructor].
      exists (useAgentChat.prepare text st).
      repeat split.
    + rewrite ChatFacts.send_ignored by (now left). constructor.
  - intros Ht Hl. rewrite ChatFacts.send_unfold by assumption. reflexivity.
  - rewrite ApiFacts.runAgent_sends. constructor; [|constructor].
    exists (Types.AgentRunRequest_to_json request). split; [reflexivity|].
    apply ApiFacts.input_type_is_text.
Qed.

(** The request of a concrete message. *)
Lemma C7_input_type_always_text_witness :
  List.length
    (fst (useAgentChat.send None "now" Examples.uuid Examples.date
            (Examples.answers Examples.warned) " AAPL "
            (useAgentChat.initial Examples.uuid))) = 1.
Proof.
  exact (proj1 (proj2 (C7_input_type_always_text None "now" Examples.uuid
                         Examples.date (Examples.answers Examples.warned) " AAPL "
                         (useAgentChat.initial Examples.uuid) Examples.question))
               eq_refl eq_refl).
Defined.

(** ** C8 *)

(** C8: an envelope with [ok:true], an empty or whitespace-only response
    and n > 0 warnings makes [send] append, after the user's message, n+1
    messages of type warning: one per warning, prefixed by "警告: ", and one
    more whose content is the warnings joined by ", ".  No assistant message
    is appended. *)
Theorem C8_warnings_shown_twice :
  forall (base : option string) (now : string)
         (uuidv4 toISOString : nat -> string)
         (fetch : Api.FetchRequest -> Api.FetchOutcome Types.AgentRunResponse)
         (text : string) (st : useAgentChat.ChatState)
         (envelope : Types.AgentRunResponse) (r : string) (ws : list string),
    Js.truthy (Js.trim text) = true ->
    useAgentChat.loading st = false ->
    snd (Api.runAgent base now fetch (useAgentChat.prepare text st))
    = Api.Fulfilled envelope ->
    Types.ok envelope = true ->
    Types.response envelope = Some r ->
    Js.trim r = EmptyString ->
    Types.warnings envelope = Some ws ->
    ws <> [] ->
    exists appended : list Types.ChatMessage,
      useAgentChat.messages
        (snd (useAgentChat.send base now uuidv4 toISOString fetch text st))
      = (useAgentChat.messages st ++ appended)%list
      /\ map Types.type appended
         = Types.user :: repeat Types.warning (List.length ws + 1)
      /\ map Types.content appended
         = (Js.trim text :: map (fun w => ("警告: " ++ w)%string) ws
            ++ [Js.join ", " ws])%list
      /\ List.length (filter (fun m => match Types.type m with
                                       | Types.warning => true
                                       | _ => false
                                       end) appended)
         = List.length ws + 1.
Proof.
  intros base now uuidv4 toISOString fetch text st envelope r ws
         Ht Hl Hrun Hok Hr Hblank Hws Hne.
  rewrite ChatFacts.send_unfold by assumption.
  rewrite Hrun. unfold useAgentChat.on_response.
  rewrite Hok, Hr, Hws, Hblank.
  assert (Hlen : (0 <? List.length ws) = true).
  { destruct ws; [congruence|reflexivity]. }
  rewrite Hlen, andb_false_r. cbn [Js.truthy negb andb].
  rewrite ChatFacts.add_warnings_spec.
  set (k := useAgentChat.drawn (ChatFacts.waiting uuidv4 toISOString text st)).
  eexists ( Types.mkChatMessage (uuidv4 (useAgentChat.drawn st)) Types.user
              (Js.trim text) (toISOString (useAgentChat.drawn st)) None None
            :: ChatFacts.warning_messages uuidv4 toISOString k ws
            ++ [Types.mkChatMessage _ Types.warning (Js.join ", " ws) _ None None])%list.
  split; [|split; [|split]].
  - cbn. rewrite <- !app_assoc. reflexivity.
  - cbn [map]. rewrite map_app, ChatFacts.warning_messages_types. cbn [map Types.type].
    now rewrite ChatFacts.repeat_snoc.
  - cbn [map]. rewrite map_app, ChatFacts.warning_messages_contents. reflexivity.
  - cbn [filter Types.type]. rewrite filter_app. cbn [filter Types.type].
    rewrite length_app. cbn [List.length]. f_equal.
    clear. generalize k. induction ws as [|w ws IH]; intros k0; simpl; [reflexivity|].
    now rewrite IH.
Qed.

(** Two warnings and a blank response: three warning messages. *)
Lemma C8_warnings_shown_twice_witness :
  exists appended : list Types.ChatMessage,
    useAgentChat.messages
      (snd (useAgentChat.send None "now" Examples.uuid Examples.date
              (Examples.answers Examples.warned) "AAPL"
              (useAgentChat.initial Examples.uuid)))
    = appended
    /\ map Types.content appended
       = ["AAPL"; "警告: execute_tools_disabled"; "警告: pdf_generation_failed";
          "execute_tools_disabled, pdf_generation_failed"].
Proof.
  destruct (C8_warnings_shown_twice None "now" Examples.uuid Examples.date
              (Examples.answers Examples.warned) "AAPL"
              (useAgentChat.initial Examples.uuid) Examples.warned " "
              ["execute_tools_disabled"; "pdf_generation_failed"]
              eq_refl eq_refl eq_refl eq_refl eq_refl eq_refl eq_refl
              ltac:(discriminate))
    as (appended & Hm & _ & Hc & _).
  exists appended. split; [exact Hm | exact Hc].
Defined.

(** ** C9 *)

(** C9: an envelope with [ok:false] makes [send] append, after the user's
    message, exactly one message, of type error, whose content is the
    envelope's error when that is a non-empty string and "查詢處理失敗"
    otherwise; the error state of the hook is that same string, no assistant
    message is appended, and loading is over. *)
Theorem C9_failed_envelope_one_error_message :
  forall (base : option string) (now : string)
         (uuidv4 toISOString : nat -> string)
         (fetch : Api.FetchRequest -> Api.FetchOutcome Types.AgentRunResponse)
         (text : string) (st : useAgentChat.ChatState)
         (envelope : Types.AgentRunResponse),
    Js.truthy (Js.trim text) = true ->
    useAgentChat.loading st = false ->
    snd (Api.runAgent base now fetch (useAgentChat.prepare text st))
    = Api.Fulfilled envelope ->
    Types.ok envelope = false ->
    let st' := snd (useAgentChat.send base now uuidv4 toISOString fetch text st) in
    let errorMessage :=
      match Types.error envelope with
      | Some (String c e) => String c e
      | _ => "查詢處理失敗"
      end in
    exists user_message error_message : Types.ChatMessage,
      useAgentChat.messages st'
      = (useAgentChat.messages st ++ [user_message; error_message])%list
      /\ Types.type user_message = Types.user
      /\ Types.type error_message = Types.error_msg
      /\ Types.content error_message = errorMessage
      /\ useAgentChat.error st' = Some errorMessage
      /\ useAgentChat.loading st' = false.
Proof.
  intros base now uuidv4 toISOString fetch text st envelope Ht Hl Hrun Hok st' msg.
  subst st'. rewrite ChatFacts.send_unfold by assumption.
  rewrite Hrun. unfold useAgentChat.on_response. rewrite Hok.
  assert (Hmsg : Js.or_default (Types.error envelope) "查詢處理失敗" = msg).
  { subst msg. destruct (Types.error envelope) as [[|c e]|]; reflexivity. }
  rewrite Hmsg.
  do 2 eexists. split.
  - cbn. rewrite <- app_assoc. reflexivity.
  - repeat split.
Qed.

(** A failed envelope that names its error, and one that does not. *)
Lemma C9_failed_envelope_one_error_message_witness :
  exists user_message error_message : Types.ChatMessage,
    useAgentChat.messages
      (snd (useAgentChat.send None "now" Examples.uuid Examples.date
              (Examples.answers Examples.failed) "AAPL"
              (useAgentChat.initial Examples.uuid)))
    = [user_message; error_message]
    /\ Types.content error_message = "unclassified".
Proof.
  destruct (C9_failed_envelope_one_error_message None "now" Examples.uuid
              Examples.date (Examples.answers Examples.failed) "AAPL"
              (useAgentChat.initial Examples.uuid) Examples.failed
              eq_refl eq_refl eq_refl eq_refl)
    as (u & e & Hm & _ & _ & Hc & _).
  exists u, e. split; [exact Hm | exact Hc].
Defined.

(** ** C10 *)

Module ReportsFacts.
Import Types Api useReports.

(** The request completed unsuccessfully: the list was refused, or the
    request threw. *)
Definition unsuccessful (settled : Promise ReportListResponse) : Prop :=
  match settled with
  | Fulfilled response => list_ok response = false
  | Rejected _ => True
  end.

(** The limit [list] asks for. *)
Definition effective_limit (limit : option nat) : nat :=
  match limit with Some n => n | None => 20 end.

Lemma or_default_truthy (o : option string) (d : string) :
  Js.truthy d = true -> Js.truthy (Js.or_default o d) = true.
Proof.
  intros Hd. unfold Js.or_default.
  destruct o as [s|]; [|exact Hd].
  destruct (Js.truthy s) eqn:Hs; [exact Hs | exact Hd].
Qed.

Lemma list_reports_request base now fetch limit st :
  fst (list_reports base now fetch limit st)
  = getReportsList base now fetch (Some (effective_limit limit)).
Proof. reflexivity. Qed.

End ReportsFacts.

(** C10: when [list] completes unsuccessfully (the response has
    [ok:false], or the request throws) the reports are set to the empty
    array, whatever was loaded before, and the error is set to a message (a
    non-empty string); loading is false after completion in every case. *)
Theorem C10_list_failure_clears_reports :
  forall (base : option string) (now : string)
         (fetch : Api.FetchRequest -> Api.FetchOutcome Types.ReportListResponse)
         (limit : option nat) (st : useReports.ReportsState),
    let outcome := useReports.list_reports base now fetch limit st in
    let settled := snd (fst outcome) in
    let st' := snd outcome in
    settled = snd (Api.getReportsList base now fetch
                     (Some (ReportsFacts.effective_limit limit)))
    /\ useReports.loading st' = false
    /\ (ReportsFacts.unsuccessful settled ->
        useReports.reports st' = []
        /\ exists msg : string,
             useReports.error st' = Some msg /\ Js.truthy msg = true).
Proof.
  intros base now fetch limit st outcome settled st'.
  subst outcome settled st'. unfold useReports.list_reports.
  cbn [fst snd Api.getReportsList Api.apiGet].
  split; [reflexivity|]. split; [reflexivity|].
  match goal with
  | |- ReportsFacts.unsuccessful ?p -> _ => destruct p as [response|apiError]
  end; cbn [ReportsFacts.unsuccessful]; intros H.
  - unfold useReports.on_response. rewrite H. cbn.
    split; [reflexivity|]. eexists. split; [reflexivity|].
    now apply ReportsFacts.or_default_truthy.
  - unfold useReports.on_rejection. cbn.
    split; [reflexivity|]. eexists. split; [reflexivity|].
    now apply (ReportsFacts.or_default_truthy (Some (Types.message apiError))).
Qed.

(** A refused list and an unreachable backend, after a report was loaded. *)
Lemma C10_list_failure_clears_reports_witness :
  useReports.reports
    (snd (useReports.list_reports None "now"
            (fun _ => Api.FetchResolved
                        (Api.mkResponse true 200 "OK" (inr Examples.refused)))
            None
            (useReports.mkReportsState [Examples.one_report] false None 20)))
  = []
  /\ useReports.reports
       (snd (useReports.list_reports None "now"
               (fun _ => Api.FetchRejected true "Failed to fetch")
               (Some 5)
               (useReports.mkReportsState [Examples.one_report] false None 20)))
     = [].
Proof.
  split.
  - exact (proj1 (proj2 (proj2
      (C10_list_failure_clears_reports None "now"
         (fun _ => Api.FetchResolved
                     (Api.mkResponse true 200 "OK" (inr Examples.refused)))
         None
         (useReports.mkReportsState [Examples.one_report] false None 20))) eq_refl)).
  - exact (proj1 (proj2 (proj2
      (C10_list_failure_clears_reports None "now"
         (fun _ => Api.FetchRejected true "Failed to fetch")
         (Some 5)
         (useReports.mkReportsState [Examples.one_report] false None 20))) I)).
Defined.

(* ================================================================== *)
(** * Properties of the bounded tool loop *)
(* ================================================================== *)

Module LoopFacts.
Import ToolLoop.

Section WithCollaborators.

Variable config : Config.
Variable planner : RunState -> Planned.
Variable invoke : ToolInvocationPlan -> ToolResult.
Variable more_rounds : RunState -> bool.

Let MAX := MAX_TOOL_LOOPS config.
Let step := step config planner invoke more_rounds.
Let iterate := iterate config planner invoke more_rounds.

(** The rounds a run can have: the bound, and one for a bound of zero, for
    which the first round is run all the same. *)
Definition rounds : nat := Nat.max 1 MAX.

Definition starts_round (m : Machine) : bool :=
  match phase m with
  | Planning | Executing _ => true
  | _ => false
  end.

Definition is_done (m : Machine) : bool :=
  match phase m with Done => true | _ => false end.

(** What holds of the machine all along: the rounds counted so far are
    within [rounds], a round is only started below it, and no planning
    error has been met before the end. *)
Definition invariant (m : Machine) : Prop :=
  loop_count (state m) <= rounds
  /\ (starts_round m = true -> loop_count (state m) < rounds)
  /\ (is_done m = false -> planning_error (state m) = None).

(** The number of steps the machine can still take. *)
Definition remaining (m : Machine) : nat :=
  match phase m with
  | Done => 0
  | Executing _ => 3 * (rounds - loop_count (state m))
  | Planning => 3 * (rounds - loop_count (state m)) + 1
  | Evaluating _ => 3 * (rounds - loop_count (state m)) + 2
  end.

Lemma MAX_le_rounds : MAX <= rounds.
Proof. unfold rounds. lia. Qed.

Lemma rounds_positive : 1 <= rounds.
Proof. unfold rounds. lia. Qed.

Lemma step_invariant (m : Machine) : invariant m -> invariant (step m).
Proof.
  pose proof MAX_le_rounds as HM.
  destruct m as [ph st]. unfold invariant, step, ToolLoop.step, starts_round, is_done.
  cbn [phase state]. intros (Hle & Hst & Herr).
  destruct ph as [|calls|round|].
  - specialize (Hst eq_refl). specialize (Herr eq_refl).
    destruct (planner st) as [decision|code]; cbn [phase state].
    + destruct (EXECUTE_TOOLS config); cbn [negb phase state].
      * destruct (calls_of decision) as [|c calls]; cbn [phase state loop_count set_plan
          planning_error];
          repeat split; try discriminate; auto.
      * cbn [loop_count add_warning set_plan].
        repeat split; try discriminate; auto.
    + cbn [loop_count set_planning_error].
      repeat split; try discriminate; auto.
  - specialize (Hst eq_refl). specialize (Herr eq_refl).
    cbn [phase state loop_count record_round planning_error].
    repeat split; [lia | discriminate | auto].
  - specialize (Herr eq_refl).
    destruct (more_rounds st);
      [|cbn [phase state]; repeat split; [assumption | discriminate | discriminate]].
    fold MAX. destruct (loop_count st <? MAX) eqn:Hb; cbn [phase state].
    + apply Nat.ltb_lt in Hb. repeat split; [assumption | lia | auto].
    + cbn [loop_count add_warning].
      repeat split; [assumption | discriminate | discriminate].
  - repeat split; assumption.
Qed.

Lemma step_remaining (m : Machine) :
  invariant m -> is_done m = false -> remaining (step m) < remaining m.
Proof.
  destruct m as [ph st]. unfold invariant, step, ToolLoop.step, remaining, is_done,
    starts_round.
  cbn [phase state]. intros (Hle & Hst & _) Hnd.
  destruct ph as [|calls|round|]; [| | |discriminate Hnd].
  - destruct (planner st) as [decision|code]; cbn [phase state]; [|lia].
    destruct (EXECUTE_TOOLS config); cbn [negb phase state]; [|lia].
    destruct (calls_of decision); cbn [phase state loop_count set_plan]; lia.
  - specialize (Hst eq_refl). cbn [phase state loop_count record_round]. lia.
  - destruct (more_rounds st); cbn [phase state]; [|lia].
    fold MAX. destruct (loop_count st <? MAX); cbn [phase state]; lia.
Qed.

Lemma step_done (m : Machine) : is_done m = true -> step m = m.
Proof.
  destruct m as [[] st]; intros H; try discriminate H. reflexivity.
Qed.

Lemma iterate_done (n : nat) (m : Machine) :
  is_done m = true -> iterate n m = m.
Proof.
  revert m. induction n as [|n IH]; intros m H; [reflexivity|].
  unfold iterate in *. cbn [ToolLoop.iterate]. fold step.
  rewrite (step_done m H). now apply IH.
Qed.

Lemma iterate_add (a b : nat) (m : Machine) :
  iterate (a + b) m = iterate b (iterate a m).
Proof.
  revert m. induction a as [|a IH]; intros m; [reflexivity|].
  unfold iterate in *. cbn [Nat.add ToolLoop.iterate]. apply IH.
Qed.

Lemma iterate_invariant (n : nat) (m : Machine) :
  invariant m -> invariant (iterate n m).
Proof.
  revert m. induction n as [|n IH]; intros m H; [exact H|].
  unfold iterate in *. cbn [ToolLoop.iterate]. apply IH. now apply step_invariant.
Qed.

Lemma remaining_zero (m : Machine) :
  invariant m -> remaining m = 0 -> is_done m = true.
Proof.
  destruct m as [ph st]. unfold invariant, remaining, is_done, starts_round.
  cbn [phase state]. intros (_ & Hst & _) H.
  destruct ph as [|calls|round|]; [lia | | lia | reflexivity].
  specialize (Hst eq_refl). lia.
Qed.

(** Enough steps bring the machine to [Done], with the invariant. *)
Lemma iterate_reaches_done (n : nat) :
  forall m, invariant m -> remaining m <= n ->
            is_done (iterate n m) = true /\ invariant (iterate n m).
Proof.
  induction n as [|n IH]; intros m Hinv Hrem.
  - change (iterate 0 m) with m.
    split; [|exact Hinv]. apply remaining_zero; [exact Hinv | lia].
  - destruct (is_done m) eqn:Hd.
    + rewrite iterate_done by exact Hd. split; assumption.
    + unfold iterate in *. cbn [ToolLoop.iterate]. fold step.
      apply IH; [now apply step_invariant|].
      pose proof (step_remaining m Hinv Hd). lia.
Qed.

Lemma fresh_invariant (query trace_id : string) :
  invariant (mkMachine Planning (fresh query trace_id)).
Proof.
  pose proof rounds_positive.
  unfold invariant, starts_round, is_done.
  cbn [phase state loop_count fresh planning_error].
  repeat split; [lia | intros _; lia].
Qed.

Lemma run_done (query trace_id : string) :
  is_done (run config planner invoke more_rounds (fresh query trace_id)) = true
  /\ invariant (run config planner invoke more_rounds (fresh query trace_id)).
Proof.
  unfold run. apply iterate_reaches_done; [apply fresh_invariant|].
  unfold remaining, fuel, rounds.
  cbn [phase state loop_count fresh]. fold MAX. lia.
Qed.

(** A machine the run goes through is reached after some steps, and the
    run goes on from it. *)
Lemma visited_reached (st : RunState) (m : Machine) :
  In m (visited config planner invoke more_rounds st) ->
  exists k, k <= fuel config
            /\ m = iterate k (mkMachine Planning st)
            /\ run config planner invoke more_rounds st
               = iterate (fuel config - k) m.
Proof.
  unfold visited. intros H. apply in_map_iff in H.
  destruct H as (k & <- & Hk). apply in_seq in Hk.
  exists k. split; [lia|]. split; [reflexivity|].
  unfold run. fold iterate. rewrite <- iterate_add. f_equal. lia.
Qed.

(** The end that the bound forces: the step out of [Evaluating] when
    another round is asked for at the bound. *)
Lemma forced_end (round : list ToolResult) (st : RunState) :
  more_rounds st = true ->
  MAX <= loop_count st ->
  step (mkMachine (Evaluating round) st)
  = mkMachine Done (add_warning (tool_loops_exceeded (loop_count st) MAX) st).
Proof.
  intros Hm Hb. unfold step, ToolLoop.step. cbn [phase state]. rewrite Hm.
  fold MAX. apply Nat.ltb_ge in Hb. now rewrite Hb.
Qed.

End WithCollaborators.

End LoopFacts.

Module LoopExamples.
Import ToolLoop.

Definition quote_call : ToolInvocationPlan :=
  mkPlan "fmp_quote" [("symbol", Json.JStr "AAPL")] None.

Definition missing_key : ToolResult :=
  mkToolResult false "FMP" "fmp_quote" None (Some "missing_api_key")
               (Some "FMP_API_KEY") "2025-09-04T09:51:45Z".

(** A planner that always plans the same call, a tool that always fails
    and results that always ask for another round. *)
Definition always_plans : RunState -> Planned :=
  fun _ => Decided (Continue [quote_call]).

Definition always_fails : ToolInvocationPlan -> ToolResult :=
  fun _ => missing_key.

Definition always_more : RunState -> bool := fun _ => true.

Definition never_more : RunState -> bool := fun _ => false.

Definition exhausted : Machine :=
  run (mkConfig true 3) always_plans always_fails always_more
      (fresh "AAPL" "trace-1").

(** The same under a bound of zero, with a tool that asks for nothing. *)
Definition unbounded_once : Machine :=
  run (mkConfig true 0) always_plans always_fails never_more
      (fresh "AAPL" "trace-1").

End LoopExamples.

(** ** C2 *)




(* ================================================================== *)
(** * Properties of [api.ts] *)
(* ================================================================== *)

Module ApiMoreFacts.
Import Json Types Api.

Lemma truthy_append_r (a b : string) :
  Js.truthy b = true -> Js.truthy (a ++ b) = true.
Proof. destruct a; simpl; auto. Qed.

Lemma truthy_append_l (a b : string) :
  Js.truthy a = true -> Js.truthy (a ++ b) = true.
Proof. destruct a; simpl; [discriminate | reflexivity]. Qed.

Lemma or_default_some_truthy (s d : string) :
  Js.truthy s = true -> Js.or_default (Some s) d = s.
Proof. intros H. unfold Js.or_default. now rewrite H. Qed.

Lemma or_default_is_truthy (o : option string) (d : string) :
  Js.truthy d = true -> Js.truthy (Js.or_default o d) = true.
Proof.
  intros Hd. unfold Js.or_default.
  destruct o as [s|]; [|exact Hd].
  destruct (Js.truthy s) eqn:Hs; [exact Hs | exact Hd].
Qed.

(** The message of an HTTP failure as [apiGet] and [apiPost] throw it. *)
Definition http_message (status : nat) (statusText : string) : string :=
  "HTTP " ++ Js.nat_to_string status ++ ": " ++ statusText.

Lemma http_message_truthy (status : nat) (statusText : string) :
  Js.truthy (http_message status statusText) = true.
Proof. reflexivity. Qed.

(** What an HTTP failure is reported as. *)
Definition http_error (now : string) (status : nat) (statusText : string)
  : ApiError :=
  if status =? 0 then
    mkApiError (http_message status statusText) None (Some "UNKNOWN_ERROR") now
  else
    mkApiError (http_message status statusText) (Some status)
               (Some "HTTP_ERROR") now.

Lemma finish_http_failure (T : Type) (now context : string) (r : Response T) :
  resp_ok r = false ->
  finish now context (settle (FetchResolved r))
  = Rejected (http_error now (resp_status r) (resp_statusText r)).
Proof.
  intros Hok. unfold settle, finish, handleApiError, http_error. rewrite Hok.
  cbn [negb]. fold (http_message (resp_status r) (resp_statusText r)).
  rewrite !(or_default_some_truthy _ _ (http_message_truthy _ _)).
  destruct (resp_status r =? 0); reflexivity.
Qed.

(** What a rejected [fetch] is reported as. *)
Definition network_error (now context : string) (is_type_error : bool)
           (msg : string) : ApiError :=
  if is_type_error && Js.includes msg "fetch" then
    mkApiError "無法連接到後端服務，請檢查服務是否正常運行" None
               (Some "NETWORK_ERROR") now
  else
    mkApiError (Js.or_default (Some msg) (context ++ " 時發生未知錯誤")) None
               (Some "UNKNOWN_ERROR") now.

Lemma finish_fetch_rejected (T : Type) (now context : string)
      (is_type_error : bool) (msg : string) :
  finish now context (settle (@FetchRejected T is_type_error msg))
  = Rejected (network_error now context is_type_error msg).
Proof.
  unfold settle, finish, handleApiError, network_error.
  destruct (is_type_error && Js.includes msg "fetch"); reflexivity.
Qed.

Lemma handleApiError_truthy (now : string) (error : Thrown) (context : string) :
  Js.truthy (message (handleApiError now error context)) = true.
Proof.
  unfold handleApiError.
  assert (Hd : Js.truthy (context ++ " 時發生未知錯誤") = true)
    by (apply truthy_append_r; reflexivity).
  destruct error as [is_type_error msg | status msg].
  - destruct (is_type_error && Js.includes msg "fetch"); cbn [message];
      [reflexivity|].
    now apply or_default_is_truthy.
  - destruct (status =? 0); cbn [message negb]; apply or_default_is_truthy;
      [exact Hd|].
    apply truthy_append_l. reflexivity.
Qed.

Lemma network_error_truthy (now context : string) (is_type_error : bool)
      (msg : string) :
  Js.truthy (message (network_error now context is_type_error msg)) = true.
Proof.
  unfold network_error.
  destruct (is_type_error && Js.includes msg "fetch"); cbn [message];
    [reflexivity|].
  apply or_default_is_truthy. apply truthy_append_r. reflexivity.
Qed.

Lemma http_error_truthy (now : string) (status : nat) (statusText : string) :
  Js.truthy (message (http_error now status statusText)) = true.
Proof. unfold http_error. destruct (status =? 0); reflexivity. Qed.

(** Every rejection of the two wrappers carries a non-empty message. *)
Lemma finish_rejection_truthy (T : Type) (now context : string)
      (r : Thrown + T) (e : ApiError) :
  finish now context r = Rejected e -> Js.truthy (message e) = true.
Proof.
  destruct r as [error|data]; cbn; intros H; [|discriminate H].
  injection H as <-. apply handleApiError_truthy.
Qed.

End ApiMoreFacts.

(** X1: whatever is thrown and whatever the context, the error that
    [handleApiError] builds has a non-empty message and one of the three
    codes, and it carries a status exactly when its code is HTTP_ERROR, the
    status then being the (non-zero) one that was thrown. *)
Theorem X1_handleApiError_message_and_code :
  forall (now : string) (error : Api.Thrown) (context : string),
    let e := Api.handleApiError now error context in
    Js.truthy (Types.message e) = true
    /\ In (Types.code e)
          [Some "NETWORK_ERROR"; Some "HTTP_ERROR"; Some "UNKNOWN_ERROR"]
    /\ (Types.code e = Some "HTTP_ERROR" <->
        exists s, Types.status e = Some s)
    /\ (forall s, Types.status e = Some s ->
                  s <> 0 /\ exists msg, error = Api.HttpFailure s msg)
    /\ Types.err_timestamp e = now.
Proof.
  intros now error context e.
  split; [apply ApiMoreFacts.handleApiError_truthy|].
  subst e. unfold Api.handleApiError.
  destruct error as [is_type_error msg | status msg].
  - destruct (is_type_error && Js.includes msg "fetch"); cbn;
      (split; [auto|]); (split; [split; [discriminate | intros [s Hs]; discriminate Hs]|]);
      (split; [discriminate | reflexivity]).
  - destruct (status =? 0) eqn:Hs; cbn.
    + split; [auto|].
      split; [split; [discriminate | intros [s H]; discriminate H]|].
      split; [discriminate | reflexivity].
    + apply Nat.eqb_neq in Hs. split; [auto|].
      split; [split; [intros _; now exists status | reflexivity]|].
      split; [|reflexivity].
      intros s H. injection H as <-. split; [exact Hs | now exists msg].
Qed.

(** X2: a response whose [ok] is false is never parsed: [apiGet] and
    [apiPost] reject with the message "HTTP <status>: <statusText>", and
    with the status and the code HTTP_ERROR unless the status is 0 (then
    without status, as UNKNOWN_ERROR), whatever [json()] would give. *)
Theorem X2_http_failure_rejects_unparsed :
  forall (T : Type) (base : option string) (now : string)
         (fetch : Api.FetchRequest -> Api.FetchOutcome T)
         (path : string) (body : Json.json) (r_get r_post : Api.Response T),
    fetch (Api.get_request base path) = Api.FetchResolved r_get ->
    fetch (Api.post_request base path body) = Api.FetchResolved r_post ->
    Api.resp_ok r_get = false ->
    Api.resp_ok r_post = false ->
    snd (Api.apiGet base now fetch path)
    = Api.Rejected (ApiMoreFacts.http_error now (Api.resp_status r_get)
                                            (Api.resp_statusText r_get))
    /\ snd (Api.apiPost base now fetch path body)
       = Api.Rejected (ApiMoreFacts.http_error now (Api.resp_status r_post)
                                               (Api.resp_statusText r_post)).
Proof.
  intros T base now fetch path body r_get r_post Hg Hp Hokg Hokp.
  unfold Api.apiGet, Api.apiPost. cbn [snd]. rewrite Hg, Hp.
  split; now apply ApiMoreFacts.finish_http_failure.
Qed.

(** A 500 answer with a body that would parse. *)
Lemma X2_http_failure_rejects_unparsed_witness :
  snd (Api.apiGet None "now"
         (fun _ => Api.FetchResolved
                     (Api.mkResponse false 500 "Internal Server Error" (inr 7)))
         "/health")
  = Api.Rejected (Types.mkApiError "HTTP 500: Internal Server Error" (Some 500)
                                   (Some "HTTP_ERROR") "now").
Proof.
  exact (proj1 (X2_http_failure_rejects_unparsed nat None "now"
                  (fun _ => Api.FetchResolved
                              (Api.mkResponse false 500 "Internal Server Error"
                                              (inr 7)))
                  "/health" Json.JNull _ _ eq_refl eq_refl eq_refl eq_refl)).
Defined.

Module UrlFacts.
Import Js Api.

Lemma startsWith_slash (p : string) :
  startsWith p "/" = true <-> exists rest, p = String "/" rest.
Proof.
  unfold startsWith. split.
  - destruct p as [|c r]; cbn [prefix]; [discriminate|].
    destruct (ascii_dec "/"%char c) as [<-|]; [|discriminate].
    intros _. now exists r.
  - intros [rest ->]. now destruct rest.
Qed.

Lemma append_cancel_l (x a b : string) : x ++ a = x ++ b -> a = b.
Proof.
  induction x as [|c x IH]; simpl; intros H; [exact H|].
  injection H as H. now apply IH.
Qed.

Lemma truthy_base (b tail : string) :
  Js.truthy b = true -> API_BASE_URL (Some (b ++ tail)) = b ++ tail.
Proof. destruct b; [discriminate | reflexivity]. Qed.

End UrlFacts.

(** X3: [buildApiUrl] appends a path that starts with a slash as it is and
    any other path after one slash, so both spellings of a path give the
    same URL.  It adds the slash that is missing and removes none: a base
    URL that ends with a slash, or a path that starts with two, gives a URL
    with a doubled slash.  A base URL that is unset or empty is the local
    one. *)
Theorem X3_buildApiUrl_leading_slash :
  forall (base : option string) (path : string),
    (exists rest,
        Api.buildApiUrl base path = Api.API_BASE_URL base ++ String "/" rest
        /\ (path = String "/" rest
            \/ (Js.startsWith path "/" = false /\ path = rest)))
    /\ (Js.startsWith path "/" = false ->
        Api.buildApiUrl base path = Api.buildApiUrl base (String "/" path))
    /\ (forall b, Js.truthy b = true ->
                  Api.buildApiUrl (Some (b ++ "/")) (String "/" path)
                  = b ++ "//" ++ path)
    /\ Api.buildApiUrl base (String "/" (String "/" path))
       = Api.API_BASE_URL base ++ "//" ++ path
    /\ (Js.truthy_opt base = false ->
        Api.API_BASE_URL base = "http://localhost:8000").
Proof.
  intros base path. split; [|split; [|split; [|split]]].
  - destruct (Js.startsWith path "/") eqn:Hs.
    + destruct (proj1 (UrlFacts.startsWith_slash path) Hs) as [rest ->].
      exists rest. split; [apply UriFacts.buildApiUrl_absolute | now left].
    + exists path. split; [|right; now split].
      unfold Api.buildApiUrl. now rewrite Hs.
  - intros Hs. rewrite UriFacts.buildApiUrl_absolute.
    unfold Api.buildApiUrl. now rewrite Hs.
  - intros b Hb. rewrite UriFacts.buildApiUrl_absolute.
    rewrite (UrlFacts.truthy_base b "/" Hb).
    now rewrite EnvFacts.append_assoc.
  - apply UriFacts.buildApiUrl_absolute.
  - intros Hb. unfold Api.API_BASE_URL, Js.or_default.
    destruct base as [s|]; [|reflexivity].
    cbn in Hb. now rewrite Hb.
Qed.

(** Both spellings of the health path, with an empty base URL, and the
    doubled slash after a base URL that ends with one. *)
Lemma X3_buildApiUrl_leading_slash_witness :
  Api.buildApiUrl (Some "") "health" = Api.buildApiUrl (Some "") "/health"
  /\ Api.API_BASE_URL (Some "") = "http://localhost:8000"
  /\ Api.buildApiUrl (Some "https://api.example.com/") "/health"
     = "https://api.example.com//health".
Proof.
  split; [|split].
  - exact (proj1 (proj2 (X3_buildApiUrl_leading_slash (Some "") "health")) eq_refl).
  - exact (proj2 (proj2 (proj2 (proj2
             (X3_buildApiUrl_leading_slash (Some "") "health")))) eq_refl).
  - exact (proj1 (proj2 (proj2 (X3_buildApiUrl_leading_slash None "health")))
             "https://api.example.com" eq_refl).
Defined.

(** X4: different report paths get different download URLs: the URL
    determines the path. *)
Theorem X4_download_url_determines_path :
  forall (base : option string) (path1 path2 url : string),
    Api.buildReportDownloadUrl base path1 = Some url ->
    Api.buildReportDownloadUrl base path2 = Some url ->
    path1 = path2.
Proof.
  intros base path1 path2 url H1 H2.
  rewrite UriFacts.download_url_shape in H1, H2.
  destruct (Js.encodeURIComponent path1) as [e1|] eqn:He1; [|discriminate H1].
  destruct (Js.encodeURIComponent path2) as [e2|] eqn:He2; [|discriminate H2].
  cbn [option_map] in H1, H2. rewrite <- H2 in H1. injection H1 as H.
  apply UrlFacts.append_cancel_l in H.
  apply (UrlFacts.append_cancel_l "/api/reports/download") in H.
  apply (UrlFacts.append_cancel_l "?path=") in H. subst e2.
  exact (UriFacts.encodeURIComponent_injective path1 path2 e1 He1 He2).
Qed.

(** The URL of a report in a time-stamped directory. *)
Lemma X4_download_url_determines_path_witness :
  Api.buildReportDownloadUrl None "20250904_095145/AAPL.md"
  = Some "http://localhost:8000/api/reports/download?path=20250904_095145%2FAAPL.md"
  /\ "20250904_095145/AAPL.md" = "20250904_095145/AAPL.md".
Proof.
  split; [reflexivity|].
  exact (X4_download_url_determines_path None "20250904_095145/AAPL.md"
           "20250904_095145/AAPL.md" _ eq_refl eq_refl).
Defined.

(** X5: [checkBackendStatus] asks for [/health] once and always resolves.
    The backend is available exactly when the request resolved with an ok
    response whose body parsed and says [ok: true]; then no error is
    given, and otherwise the error is a non-empty message. *)
Theorem X5_checkBackendStatus_available :
  forall (base : option string) (now : string)
         (fetch : Api.FetchRequest -> Api.FetchOutcome ApiHealth.HealthCheckResponse),
    let outcome := ApiHealth.checkBackendStatus base now fetch in
    let status := snd outcome in
    fst outcome = [Api.get_request base "/health"]
    /\ (ApiHealth.available status = true <->
        exists (code : nat) (statusText : string)
               (health : ApiHealth.HealthCheckResponse),
          fetch (Api.get_request base "/health")
          = Api.FetchResolved (Api.mkResponse true code statusText (inr health))
          /\ ApiHealth.health_ok health = true)
    /\ (ApiHealth.available status = true <->
        ApiHealth.status_error status = None)
    /\ (ApiHealth.available status = false ->
        exists msg, ApiHealth.status_error status = Some msg
                    /\ Js.truthy msg = true).
Proof.
  intros base now fetch outcome status. subst status outcome.
  unfold ApiHealth.checkBackendStatus, ApiHealth.healthCheck, Api.apiGet.
  cbn [fst snd]. split; [reflexivity|].
  destruct (fetch (Api.get_request base "/health")) as [te msg | [ok code txt js]] eqn:Hf.
  - rewrite ApiMoreFacts.finish_fetch_rejected. cbn [ApiHealth.available ApiHealth.status_error].
    split; [split; [discriminate | intros (c & t & h & H & _); discriminate H]|].
    split; [split; discriminate|].
    intros _. eexists. split; [reflexivity|].
    apply ApiMoreFacts.network_error_truthy.
  - destruct ok.
    + destruct js as [[te msg]|health];
        unfold Api.settle, Api.finish;
        cbn [Api.resp_ok Api.resp_json negb ApiHealth.available
             ApiHealth.status_error].
      * split; [split; [discriminate | intros (c & t & h & H & _); discriminate H]|].
        split; [split; discriminate|].
        intros _. eexists. split; [reflexivity|].
        apply (ApiMoreFacts.handleApiError_truthy now (Api.JsError te msg)).
      * split.
        { split.
          - intros H. exists code, txt, health. now split.
          - intros (c & t & h & H & Hok). injection H as _ _ <-. exact Hok. }
        destruct (ApiHealth.health_ok health); cbn.
        { split; [split; reflexivity|]. discriminate. }
        { split; [split; discriminate|]. intros _. eexists. now split. }
    + rewrite ApiMoreFacts.finish_http_failure by reflexivity.
      cbn [ApiHealth.available ApiHealth.status_error Api.resp_status Api.resp_statusText].
      split; [split; [discriminate | intros (c & t & h & H & _); discriminate H]|].
      split; [split; discriminate|].
      intros _. eexists. split; [reflexivity|].
      apply ApiMoreFacts.http_error_truthy.
Qed.

(** A backend that answers but reports that it is not well. *)
Lemma X5_checkBackendStatus_available_witness :
  exists msg,
    ApiHealth.status_error
      (snd (ApiHealth.checkBackendStatus None "now"
              (fun _ => Api.FetchResolved
                          (Api.mkResponse true 200 "OK"
                             (inr (ApiHealth.mkHealth false "agent" "1" "dev"
                                                      "t" "degraded"))))))
    = Some msg /\ Js.truthy msg = true.
Proof.
  exact (proj2 (proj2 (proj2
    (X5_checkBackendStatus_available None "now"
       (fun _ => Api.FetchResolved
                   (Api.mkResponse true 200 "OK"
                      (inr (ApiHealth.mkHealth false "agent" "1" "dev"
                                               "t" "degraded"))))))) eq_refl).
Defined.

(* ================================================================== *)
(** * More about the chat hook *)
(* ================================================================== *)

Module ChatMoreFacts.
Import Json Types Api useAgentChat.

Section WithRuntime.

Variable base : option string.
Variable now : string.
Variable uuidv4 toISOString : nat -> string.
Variable fetch : FetchRequest -> FetchOutcome AgentRunResponse.

(** [st'] is [st] with [k] more messages at the end, whose identifiers are
    the next [k] values of [uuidv4]; the session is the same. *)
Definition grows (k : nat) (st st' : ChatState) : Prop :=
  exists appended : list ChatMessage,
    messages st' = (messages st ++ appended)%list
    /\ map id appended = map uuidv4 (seq (drawn st) k)
    /\ drawn st' = drawn st + k
    /\ sessionId st' = sessionId st.

Lemma grows_refl (st : ChatState) : grows 0 st st.
Proof.
  exists []. rewrite app_nil_r, Nat.add_0_r. repeat split.
Qed.

Lemma grows_trans (k1 k2 : nat) (st1 st2 st3 : ChatState) :
  grows k1 st1 st2 -> grows k2 st2 st3 -> grows (k1 + k2) st1 st3.
Proof.
  intros (a1 & Hm1 & Hi1 & Hd1 & Hs1) (a2 & Hm2 & Hi2 & Hd2 & Hs2).
  exists (a1 ++ a2)%list. repeat split.
  - now rewrite Hm2, Hm1, app_assoc.
  - rewrite map_app, Hi1, Hi2, Hd1, seq_app, map_app. reflexivity.
  - rewrite Hd2, Hd1. lia.
  - congruence.
Qed.

Lemma grows_setLoading (b : bool) (st : ChatState) : grows 0 st (setLoading b st).
Proof. exists []. cbn. rewrite app_nil_r, Nat.add_0_r. repeat split. Qed.

Lemma grows_setError (e : option string) (st : ChatState) :
  grows 0 st (setError e st).
Proof. exists []. cbn. rewrite app_nil_r, Nat.add_0_r. repeat split. Qed.

Lemma grows_addMessage type content sources tool_results (st : ChatState) :
  grows 1 st (addMessage uuidv4 toISOString type content sources tool_results st).
Proof.
  eexists. cbn. repeat split. now rewrite Nat.add_1_r.
Qed.

Lemma grows_add_warnings (ws : list string) :
  forall st, grows (List.length ws) st (add_warnings uuidv4 toISOString ws st).
Proof.
  induction ws as [|w ws IH]; intros st; cbn [add_warnings List.length].
  - apply grows_refl.
  - change (S (List.length ws)) with (1 + List.length ws).
    eapply grows_trans; [apply grows_addMessage | apply IH].
Qed.

Lemma grows_on_response (response : AgentRunResponse) (st : ChatState) :
  exists k, grows k st (on_response uuidv4 toISOString response st).
Proof.
  unfold on_response. destruct (ok response).
  - set (st1 := match Types.response response with
                | Some r => _ | None => st end).
    assert (H1 : exists k, grows k st st1).
    { subst st1. destruct (Types.response response) as [r|];
        [|exists 0; apply grows_refl].
      destruct (Js.truthy r && Js.truthy (Js.trim r));
        [exists 1; apply grows_addMessage | exists 0; apply grows_refl]. }
    destruct H1 as [k1 H1]. clearbody st1.
    set (st2 := match warnings response with
                | Some ws => _ | None => st1 end).
    assert (H2 : exists k, grows k st1 st2).
    { subst st2. destruct (warnings response) as [ws|];
        [|exists 0; apply grows_refl].
      destruct (0 <? List.length ws);
        [eexists; apply grows_add_warnings | exists 0; apply grows_refl]. }
    destruct H2 as [k2 H2]. clearbody st2.
    destruct (warnings response) as [ws|].
    + destruct (_ && _).
      * exists (k1 + k2 + 1).
        eapply grows_trans; [eapply grows_trans; eassumption|].
        apply grows_addMessage.
      * exists (k1 + k2). eapply grows_trans; eassumption.
    + exists (k1 + k2). eapply grows_trans; eassumption.
  - exists (1 + 0).
    eapply grows_trans; [apply grows_addMessage | apply grows_setError].
Qed.

Lemma grows_on_rejection (apiError : ApiError) (st : ChatState) :
  grows (1 + 0) st (on_rejection uuidv4 toISOString apiError st).
Proof.
  unfold on_rejection.
  eapply grows_trans; [apply grows_addMessage | apply grows_setError].
Qed.

Lemma grows_send (text : string) (st : ChatState) :
  exists k, grows k st (snd (send base now uuidv4 toISOString fetch text st)).
Proof.
  destruct (Js.truthy (Js.trim text)) eqn:Ht;
    [destruct (loading st) eqn:Hl|].
  - rewrite ChatFacts.send_ignored by (now right). exists 0. apply grows_refl.
  - rewrite ChatFacts.send_unfold by assumption. cbn [snd].
    assert (Hw : grows (0 + 0 + 1) st (ChatFacts.waiting uuidv4 toISOString text st)).
    { unfold ChatFacts.waiting.
      eapply grows_trans; [|apply grows_addMessage].
      eapply grows_trans; [apply grows_setLoading | apply grows_setError]. }
    destruct (snd (runAgent base now fetch (prepare text st))) as [response|apiError].
    + destruct (grows_on_response response
                  (ChatFacts.waiting uuidv4 toISOString text st)) as [k Hk].
      exists (0 + 0 + 1 + k + 0).
      eapply grows_trans; [eapply grows_trans; eassumption|].
      apply grows_setLoading.
    + eexists.
      eapply grows_trans; [eapply grows_trans; [exact Hw|apply grows_on_rejection]|].
      apply grows_setLoading.
  - rewrite ChatFacts.send_ignored by (now left). exists 0. apply grows_refl.
Qed.

(** The identifiers of the messages are values of [uuidv4] that were drawn
    before, each one once. *)
Definition well_formed (st : ChatState) : Prop :=
  exists drawn_for : list nat,
    map id (messages st) = map uuidv4 drawn_for
    /\ Forall (fun i => i < drawn st) drawn_for
    /\ NoDup drawn_for.

Lemma grows_well_formed (k : nat) (st st' : ChatState) :
  grows k st st' -> well_formed st -> well_formed st'.
Proof.
  intros (appended & Hm & Hi & Hd & _) (idx & Hids & Hlt & Hnd).
  exists (idx ++ seq (drawn st) k)%list. repeat split.
  - now rewrite Hm, !map_app, Hids, Hi.
  - apply Forall_app. split.
    + eapply Forall_impl; [|exact Hlt]. cbn. intros i Hi'. lia.
    + apply Forall_forall. intros i Hin. apply in_seq in Hin. lia.
  - apply NoDup_app; [exact Hnd | apply seq_NoDup |].
    intros i Hin Hin'. apply in_seq in Hin'.
    rewrite Forall_forall in Hlt. specialize (Hlt i Hin). lia.
Qed.

Lemma NoDup_map_injective (l : list nat) :
  (forall i j, uuidv4 i = uuidv4 j -> i = j) ->
  NoDup l -> NoDup (map uuidv4 l).
Proof.
  intros Hinj. induction 1 as [|i l Hnin Hnd IH]; cbn; constructor; [|exact IH].
  intros Hin. apply in_map_iff in Hin. destruct Hin as (j & Hj & Hjl).
  apply Hinj in Hj. subst j. contradiction.
Qed.

Lemma well_formed_unique (st : ChatState) :
  (forall i j, uuidv4 i = uuidv4 j -> i = j) ->
  well_formed st -> NoDup (map id (messages st)).
Proof.
  intros Hinj (idx & Hids & _ & Hnd). rewrite Hids.
  now apply NoDup_map_injective.
Qed.

Lemma truthy_trim (r : string) :
  Js.truthy (Js.trim r) = true -> Js.truthy r = true.
Proof. destruct r; [discriminate | reflexivity]. Qed.

(** [send] when the request is rejected. *)
Lemma send_rejected (text : string) (st : ChatState) (apiError : ApiError) :
  Js.truthy (Js.trim text) = true ->
  loading st = false ->
  snd (runAgent base now fetch (prepare text st)) = Rejected apiError ->
  Js.truthy (message apiError) = true
  /\ snd (send base now uuidv4 toISOString fetch text st)
     = setLoading false
         (setError (Some (message apiError))
            (addMessage uuidv4 toISOString error_msg (message apiError) None None
               (ChatFacts.waiting uuidv4 toISOString text st))).
Proof.
  intros Ht Hl Hrun.
  assert (Hmsg : Js.truthy (message apiError) = true).
  { rewrite ApiFacts.runAgent_settles in Hrun.
    eapply ApiMoreFacts.finish_rejection_truthy. exact Hrun. }
  split; [exact Hmsg|].
  rewrite ChatFacts.send_unfold by assumption.
  rewrite Hrun. unfold on_rejection.
  now rewrite (ApiMoreFacts.or_default_some_truthy _ _ Hmsg).
Qed.

End WithRuntime.

End ChatMoreFacts.

(** X7: when the request of [send] is rejected, the chat gets the user's
    message and one error message whose content is the message of the
    rejection, which is never empty, so that the fallback text of the hook
    is never shown; the error state is that message and loading is over. *)
Theorem X7_send_rejection_shows_api_message :
  forall (base : option string) (now : string)
         (uuidv4 toISOString : nat -> string)
         (fetch : Api.FetchRequest -> Api.FetchOutcome Types.AgentRunResponse)
         (text : string) (st : useAgentChat.ChatState) (apiError : Types.ApiError),
    Js.truthy (Js.trim text) = true ->
    useAgentChat.loading st = false ->
    snd (Api.runAgent base now fetch (useAgentChat.prepare text st))
    = Api.Rejected apiError ->
    let st' := snd (useAgentChat.send base now uuidv4 toISOString fetch text st) in
    Js.truthy (Types.message apiError) = true
    /\ (exists user_message error_message : Types.ChatMessage,
           useAgentChat.messages st'
           = (useAgentChat.messages st ++ [user_message; error_message])%list
           /\ Types.type user_message = Types.user
           /\ Types.content user_message = Js.trim text
           /\ Types.type error_message = Types.error_msg
           /\ Types.content error_message = Types.message apiError)
    /\ useAgentChat.error st' = Some (Types.message apiError)
    /\ useAgentChat.loading st' = false.
Proof.
  intros base now uuidv4 toISOString fetch text st apiError Ht Hl Hrun st'.
  destruct (ChatMoreFacts.send_rejected base now uuidv4 toISOString fetch
              text st apiError Ht Hl Hrun) as [Hmsg Hst].
  split; [exact Hmsg|].
  subst st'. rewrite Hst.
  split; [|split; reflexivity].
  do 2 eexists. split.
  - cbn. rewrite <- app_assoc. reflexivity.
  - repeat split.
Qed.

(** The backend is down: the connection message is shown. *)
Lemma X7_send_rejection_shows_api_message_witness :
  useAgentChat.error
    (snd (useAgentChat.send None "now" Examples.uuid Examples.date
            (fun _ => Api.FetchRejected true "Failed to fetch") "AAPL"
            (useAgentChat.initial Examples.uuid)))
  = Some "無法連接到後端服務，請檢查服務是否正常運行".
Proof.
  exact (proj1 (proj2 (proj2
    (X7_send_rejection_shows_api_message None "now" Examples.uuid Examples.date
       (fun _ => Api.FetchRejected true "Failed to fetch") "AAPL"
       (useAgentChat.initial Examples.uuid)
       (Types.mkApiError "無法連接到後端服務，請檢查服務是否正常運行" None
                         (Some "NETWORK_ERROR") "now")
       eq_refl eq_refl eq_refl)))).
Defined.

(** X8: what the chat shows for a failed exchange.  When the agent endpoint
    answers with a response that is not ok, the error state is
    "HTTP <status>: <statusText>"; when [fetch] rejects with a TypeError
    whose message contains "fetch", it is the fixed connection message;
    when it rejects with any other non-empty message, it is that message. *)
Theorem X8_send_failure_texts :
  forall (base : option string) (now : string)
         (uuidv4 toISOString : nat -> string)
         (fetch : Api.FetchRequest -> Api.FetchOutcome Types.AgentRunResponse)
         (text : string) (st : useAgentChat.ChatState),
    Js.truthy (Js.trim text) = true ->
    useAgentChat.loading st = false ->
    let st' := snd (useAgentChat.send base now uuidv4 toISOString fetch text st) in
    let rq := ApiFacts.agent_request base (useAgentChat.prepare text st) in
    (forall r, fetch rq = Api.FetchResolved r -> Api.resp_ok r = false ->
               useAgentChat.error st'
               = Some (ApiMoreFacts.http_message (Api.resp_status r)
                                                 (Api.resp_statusText r)))
    /\ (forall msg, fetch rq = Api.FetchRejected true msg ->
                    Js.includes msg "fetch" = true ->
                    useAgentChat.error st'
                    = Some "無法連接到後端服務，請檢查服務是否正常運行")
    /\ (forall is_type_error msg,
           fetch rq = Api.FetchRejected is_type_error msg ->
           is_type_error && Js.includes msg "fetch" = false ->
           Js.truthy msg = true ->
           useAgentChat.error st' = Some msg).
Proof.
  intros base now uuidv4 toISOString fetch text st Ht Hl st' rq.
  subst st' rq. split; [|split].
  - intros r Hf Hok.
    destruct (ChatMoreFacts.send_rejected base now uuidv4 toISOString fetch text st
                (ApiMoreFacts.http_error now (Api.resp_status r) (Api.resp_statusText r))
                Ht Hl) as [_ He].
    { rewrite ApiFacts.runAgent_settles, Hf.
      now apply ApiMoreFacts.finish_http_failure. }
    rewrite He. unfold ApiMoreFacts.http_error.
    destruct (Api.resp_status r =? 0); reflexivity.
  - intros msg Hf Hinc.
    destruct (ChatMoreFacts.send_rejected base now uuidv4 toISOString fetch text st
                (ApiMoreFacts.network_error now ("POST " ++ Api.agent_endpoint) true msg)
                Ht Hl) as [_ He].
    { rewrite ApiFacts.runAgent_settles, Hf.
      apply ApiMoreFacts.finish_fetch_rejected. }
    rewrite He. unfold ApiMoreFacts.network_error. rewrite Hinc. reflexivity.
  - intros te msg Hf Hcond Hmsg.
    destruct (ChatMoreFacts.send_rejected base now uuidv4 toISOString fetch text st
                (ApiMoreFacts.network_error now ("POST " ++ Api.agent_endpoint) te msg)
                Ht Hl) as [_ He].
    { rewrite ApiFacts.runAgent_settles, Hf.
      apply ApiMoreFacts.finish_fetch_rejected. }
    rewrite He. unfold ApiMoreFacts.network_error. rewrite Hcond.
    cbn [Types.message]. now rewrite (ApiMoreFacts.or_default_some_truthy _ _ Hmsg).
Qed.

(** A 503 answer, and a browser whose network error does not say "fetch". *)
Lemma X8_send_failure_texts_witness :
  useAgentChat.error
    (snd (useAgentChat.send None "now" Examples.uuid Examples.date
            (fun _ => Api.FetchResolved
                        (Api.mkResponse false 503 "Service Unavailable"
                                        (inr Examples.warned)))
            "AAPL" (useAgentChat.initial Examples.uuid)))
  = Some "HTTP 503: Service Unavailable"
  /\ useAgentChat.error
       (snd (useAgentChat.send None "now" Examples.uuid Examples.date
               (fun _ => Api.FetchRejected true "Load failed")
               "AAPL" (useAgentChat.initial Examples.uuid)))
     = Some "Load failed".
Proof.
  split.
  - exact (proj1 (X8_send_failure_texts None "now" Examples.uuid Examples.date
                    (fun _ => Api.FetchResolved
                                (Api.mkResponse false 503 "Service Unavailable"
                                                (inr Examples.warned)))
                    "AAPL" (useAgentChat.initial Examples.uuid) eq_refl eq_refl)
                 _ eq_refl eq_refl).
  - exact (proj2 (proj2 (X8_send_failure_texts None "now" Examples.uuid
                           Examples.date
                           (fun _ => Api.FetchRejected true "Load failed")
                           "AAPL" (useAgentChat.initial Examples.uuid)
                           eq_refl eq_refl))
                 true "Load failed" eq_refl eq_refl eq_refl).
Defined.

Module ChatSession.
Import Json Types Api useAgentChat.

(** What a component can do with the hook. *)
Inductive Event : Type :=
| Send (message : string) (fetch : FetchRequest -> FetchOutcome AgentRunResponse)
| Reset
| ClearError.

Section WithRuntime.

Variable base : option string.
Variable now : string.
Variable uuidv4 toISOString : nat -> string.

Definition apply_event (e : Event) (st : ChatState) : ChatState :=
  match e with
  | Send txt fetch => snd (send base now uuidv4 toISOString fetch txt st)
  | Reset => reset uuidv4 st
  | ClearError => clearError st
  end.

(** The state after a sequence of events, each send with the network as it
    was then. *)
Definition session (events : list Event) : ChatState :=
  fold_left (fun st e => apply_event e st) events (initial uuidv4).

Lemma apply_event_well_formed (e : Event) (st : ChatState) :
  ChatMoreFacts.well_formed uuidv4 st ->
  ChatMoreFacts.well_formed uuidv4 (apply_event e st).
Proof.
  intros Hwf. destruct e as [txt fetch| |]; cbn [apply_event].
  - destruct (ChatMoreFacts.grows_send base now uuidv4 toISOString fetch txt st)
      as [k Hk].
    eapply ChatMoreFacts.grows_well_formed; eassumption.
  - exists []. repeat split; constructor.
  - eapply ChatMoreFacts.grows_well_formed; [|exact Hwf].
    apply ChatMoreFacts.grows_setError.
Qed.

Lemma session_well_formed (events : list Event) :
  ChatMoreFacts.well_formed uuidv4 (session events).
Proof.
  unfold session.
  assert (H0 : ChatMoreFacts.well_formed uuidv4 (initial uuidv4))
    by (exists []; repeat split; constructor).
  revert H0. generalize (initial uuidv4).
  induction events as [|e events IH]; intros st Hwf; cbn [fold_left];
    [exact Hwf|].
  apply IH. now apply apply_event_well_formed.
Qed.

End WithRuntime.

End ChatSession.

(** X9: [send] never removes or changes the messages that are there and
    never changes the session id.  On a blank text, or while loading, it
    sends nothing and leaves the state as it is; otherwise it sends one
    request, the first message it appends is the user's, with the trimmed
    text, and it ends with loading false. *)
Theorem X9_send_keeps_history :
  forall (base : option string) (now : string)
         (uuidv4 toISOString : nat -> string)
         (fetch : Api.FetchRequest -> Api.FetchOutcome Types.AgentRunResponse)
         (text : string) (st : useAgentChat.ChatState),
    let outcome := useAgentChat.send base now uuidv4 toISOString fetch text st in
    let st' := snd outcome in
    (exists appended,
        useAgentChat.messages st' = (useAgentChat.messages st ++ appended)%list)
    /\ useAgentChat.sessionId st' = useAgentChat.sessionId st
    /\ (Js.truthy (Js.trim text) = false \/ useAgentChat.loading st = true ->
        outcome = ([], st))
    /\ (Js.truthy (Js.trim text) = true -> useAgentChat.loading st = false ->
        List.length (fst outcome) = 1
        /\ useAgentChat.loading st' = false
        /\ exists user_message rest,
             useAgentChat.messages st'
             = (useAgentChat.messages st ++ user_message :: rest)%list
             /\ Types.type user_message = Types.user
             /\ Types.content user_message = Js.trim text).
Proof.
  intros base now uuidv4 toISOString fetch text st outcome st'.
  subst st' outcome.
  destruct (ChatMoreFacts.grows_send base now uuidv4 toISOString fetch text st)
    as (k & appended & Hm & _ & _ & Hs).
  split; [now exists appended|]. split; [exact Hs|].
  split; [apply ChatFacts.send_ignored|].
  intros Ht Hl. rewrite ChatFacts.send_unfold by assumption.
  cbn [fst snd List.length]. split; [reflexivity|]. split; [reflexivity|].
  set (w := ChatFacts.waiting uuidv4 toISOString text st).
  assert (Hgrow : exists k' st2,
             ChatMoreFacts.grows uuidv4 k' w st2
             /\ useAgentChat.messages
                  (useAgentChat.setLoading false
                     match snd (Api.runAgent base now fetch
                                  (useAgentChat.prepare text st)) with
                     | Api.Fulfilled response =>
                         useAgentChat.on_response uuidv4 toISOString response w
                     | Api.Rejected apiError =>
                         useAgentChat.on_rejection uuidv4 toISOString apiError w
                     end)
                = useAgentChat.messages st2).
  { destruct (snd (Api.runAgent base now fetch (useAgentChat.prepare text st)))
      as [response|apiError].
    - destruct (ChatMoreFacts.grows_on_response uuidv4 toISOString response w)
        as [k' Hk'].
      exists k'. eexists. split; [exact Hk' | reflexivity].
    - eexists. eexists. split;
        [apply ChatMoreFacts.grows_on_rejection | reflexivity]. }
  destruct Hgrow as (k' & st2 & (rest & Hm2 & _) & Heq).
  rewrite Heq, Hm2. subst w. cbn [ChatFacts.waiting useAgentChat.messages
    useAgentChat.addMessage useAgentChat.setError useAgentChat.setLoading].
  eexists. exists rest. rewrite <- app_assoc. cbn [app].
  split; [reflexivity|]. split; reflexivity.
Qed.

(** A text of spaces sends nothing. *)
Lemma X9_send_keeps_history_witness :
  useAgentChat.send None "now" Examples.uuid Examples.date
    (Examples.answers Examples.warned) "   "
    (useAgentChat.initial Examples.uuid)
  = ([], useAgentChat.initial Examples.uuid)
  /\ List.length
       (fst (useAgentChat.send None "now" Examples.uuid Examples.date
               (Examples.answers Examples.warned) " AAPL "
               (useAgentChat.initial Examples.uuid))) = 1.
Proof.
  split.
  - exact (proj1 (proj2 (proj2
      (X9_send_keeps_history None "now" Examples.uuid Examples.date
         (Examples.answers Examples.warned) "   "
         (useAgentChat.initial Examples.uuid)))) (or_introl eq_refl)).
  - exact (proj1 (proj2 (proj2 (proj2
      (X9_send_keeps_history None "now" Examples.uuid Examples.date
         (Examples.answers Examples.warned) " AAPL "
         (useAgentChat.initial Examples.uuid)))) eq_refl eq_refl)).
Defined.

(** X10: an envelope with [ok:true] and a response that is not blank makes
    [send] append the user's message, one assistant message with the
    response as it came (not trimmed) and the sources and tool results of
    the envelope, and then one prefixed warning message per warning, with no
    joined warning message; the error state is empty and loading is over. *)
Theorem X10_send_answer_then_warnings :
  forall (base : option string) (now : string)
         (uuidv4 toISOString : nat -> string)
         (fetch : Api.FetchRequest -> Api.FetchOutcome Types.AgentRunResponse)
         (text : string) (st : useAgentChat.ChatState)
         (envelope : Types.AgentRunResponse) (r : string),
    Js.truthy (Js.trim text) = true ->
    useAgentChat.loading st = false ->
    snd (Api.runAgent base now fetch (useAgentChat.prepare text st))
    = Api.Fulfilled envelope ->
    Types.ok envelope = true ->
    Types.response envelope = Some r ->
    Js.truthy (Js.trim r) = true ->
    let ws := match Types.warnings envelope with Some l => l | None => [] end in
    let st' := snd (useAgentChat.send base now uuidv4 toISOString fetch text st) in
    exists (user_message answer : Types.ChatMessage)
           (warned : list Types.ChatMessage),
      useAgentChat.messages st'
      = (useAgentChat.messages st ++ user_message :: answer :: warned)%list
      /\ Types.type user_message = Types.user
      /\ Types.type answer = Types.assistant
      /\ Types.content answer = r
      /\ Types.msg_sources answer = Types.sources envelope
      /\ Types.msg_tool_results answer = Types.tool_results envelope
      /\ map Types.type warned = repeat Types.warning (List.length ws)
      /\ map Types.content warned = map (fun w => ("警告: " ++ w)%string) ws
      /\ useAgentChat.error st' = None
      /\ useAgentChat.loading st' = false.
Proof.
  intros base now uuidv4 toISOString fetch text st envelope r
         Ht Hl Hrun Hok Hr Hnb ws st'.
  subst st'. rewrite ChatFacts.send_unfold by assumption.
  rewrite Hrun. unfold useAgentChat.on_response.
  rewrite Hok, Hr, Hnb, (ChatMoreFacts.truthy_trim r Hnb).
  cbn [andb negb].
  set (k := S (S (useAgentChat.drawn st))).
  exists (Types.mkChatMessage (uuidv4 (useAgentChat.drawn st)) Types.user
            (Js.trim text) (toISOString (useAgentChat.drawn st)) None None),
         (Types.mkChatMessage (uuidv4 (S (useAgentChat.drawn st))) Types.assistant
            r (toISOString (S (useAgentChat.drawn st)))
            (Types.sources envelope) (Types.tool_results envelope)),
         (ChatFacts.warning_messages uuidv4 toISOString k ws).
  rewrite ChatFacts.warning_messages_types, ChatFacts.warning_messages_contents.
  subst ws. destruct (Types.warnings envelope) as [l|].
  - destruct l as [|w l].
    + cbn. rewrite <- !app_assoc. repeat split.
    + cbn [List.length Nat.ltb Nat.leb].
      rewrite ChatFacts.add_warnings_spec. cbn.
      rewrite <- !app_assoc. repeat split.
  - cbn. rewrite <- !app_assoc. repeat split.
Qed.

(** An answer with one warning. *)
Lemma X10_send_answer_then_warnings_witness :
  exists (user_message answer : Types.ChatMessage)
         (warned : list Types.ChatMessage),
    useAgentChat.messages
      (snd (useAgentChat.send None "now" Examples.uuid Examples.date
              (Examples.answers
                 (Types.mkAgentRunResponse true (Some " AAPL 238.47 ") "text"
                    None None (Some ["pdf_generation_failed"]) None "t" None None))
              "AAPL" (useAgentChat.initial Examples.uuid)))
    = user_message :: answer :: warned
    /\ Types.content answer = " AAPL 238.47 "
    /\ map Types.content warned = ["警告: pdf_generation_failed"].
Proof.
  destruct (X10_send_answer_then_warnings None "now" Examples.uuid Examples.date
              (Examples.answers
                 (Types.mkAgentRunResponse true (Some " AAPL 238.47 ") "text"
                    None None (Some ["pdf_generation_failed"]) None "t" None None))
              "AAPL" (useAgentChat.initial Examples.uuid) _ " AAPL 238.47 "
              eq_refl eq_refl eq_refl eq_refl eq_refl eq_refl)
    as (u & a & w & Hm & _ & _ & Hc & _ & _ & _ & Hw & _).
  exists u, a, w. split; [exact Hm|]. split; [exact Hc | exact Hw].
Defined.

Module UnaryIds.

(** Identifiers that never repeat: the n-th one is n letters long. *)
Fixpoint unary (n : nat) : string :=
  match n with
  | 0 => EmptyString
  | S k => String "u" (unary k)
  end.

Lemma unary_injective (i j : nat) : unary i = unary j -> i = j.
Proof.
  revert j. induction i as [|i IH]; intros [|j] H; cbn in H;
    try reflexivity; try discriminate H.
  injection H as H. f_equal. now apply IH.
Qed.

End UnaryIds.

(** X11: as long as [uuidv4] never returns the same value twice, the
    identifiers of the messages are pairwise distinct in every state that a
    component can reach from the initial one by sends (whatever the network
    does), resets and clearing the error. *)
Theorem X11_message_ids_unique :
  forall (base : option string) (now : string)
         (uuidv4 toISOString : nat -> string)
         (events : list ChatSession.Event),
    (forall i j, uuidv4 i = uuidv4 j -> i = j) ->
    NoDup (map Types.id
               (useAgentChat.messages
                  (ChatSession.session base now uuidv4 toISOString events))).
Proof.
  intros base now uuidv4 toISOString events Hinj.
  apply (ChatMoreFacts.well_formed_unique uuidv4); [exact Hinj|].
  apply ChatSession.session_well_formed.
Qed.

(** Two sends, a reset and another send. *)
Lemma X11_message_ids_unique_witness :
  NoDup (map Types.id
             (useAgentChat.messages
                (ChatSession.session None "now" UnaryIds.unary Examples.date
                   [ChatSession.Send "AAPL" (Examples.answers Examples.warned);
                    ChatSession.Send "TSLA" (Examples.answers Examples.failed);
                    ChatSession.Reset;
                    ChatSession.Send "NVDA" (Examples.answers Examples.warned)]))).
Proof.
  exact (X11_message_ids_unique None "now" UnaryIds.unary Examples.date _
           UnaryIds.unary_injective).
Defined.

(* ================================================================== *)
(** * Properties of the report hook and of the report list *)
(* ================================================================== *)

Module ReportsMoreFacts.
Import Types Api useReports.

(** The request [list] issues for a limit. *)
Definition list_request (base : option string) (limit : nat) : FetchRequest :=
  mkFetchRequest
    (API_BASE_URL base ++ "/api/reports/list?limit=" ++ Js.nat_to_string limit)
    GET [("Content-Type", "application/json")] None.

Lemma list_reports_sent base now fetch limit st :
  fst (fst (list_reports base now fetch limit st))
  = [list_request base (ReportsFacts.effective_limit limit)].
Proof. reflexivity. Qed.

Lemma list_reports_settled base now fetch limit st :
  snd (fst (list_reports base now fetch limit st))
  = finish now ("GET /api/reports/list?limit="
                ++ Js.nat_to_string (ReportsFacts.effective_limit limit))
           (settle (fetch (list_request base (ReportsFacts.effective_limit limit)))).
Proof. reflexivity. Qed.

Lemma list_reports_state base now fetch limit st :
  snd (list_reports base now fetch limit st)
  = setLoading false
      (match snd (fst (list_reports base now fetch limit st)) with
       | Fulfilled response =>
           on_response response
             (setLastLimit (ReportsFacts.effective_limit limit)
                (setError None (setLoading true st)))
       | Rejected apiError =>
           on_rejection apiError
             (setLastLimit (ReportsFacts.effective_limit limit)
                (setError None (setLoading true st)))
       end).
Proof. reflexivity. Qed.

(** What a click on the download button of each row opens. *)
Lemma row_links (base : option string) (fmtBytes : nat -> string)
      (fmtDate : string -> string) (l : list ReportInfo) :
  map (fun row => option_map ReportListView.href (ReportListView.row_link row))
      (map (ReportListView.row_of base fmtBytes fmtDate) l)
  = map (fun r => buildReportDownloadUrl base (path r)) l.
Proof.
  rewrite map_map. apply map_ext. intros report.
  unfold ReportListView.row_of, ReportListView.handleDownload, buildDownloadUrl.
  cbn [ReportListView.row_link].
  now destruct (buildReportDownloadUrl base (path report)).
Qed.

End ReportsMoreFacts.

(** X12: when the list request is fulfilled with [ok:true], the reports
    are the data of the response (none when the data is missing), replacing
    what was loaded before; the error is cleared, loading is over and the
    limit is remembered. *)
Theorem X12_list_success_replaces_reports :
  forall (base : option string) (now : string)
         (fetch : Api.FetchRequest -> Api.FetchOutcome Types.ReportListResponse)
         (limit : option nat) (st : useReports.ReportsState)
         (response : Types.ReportListResponse),
    snd (fst (useReports.list_reports base now fetch limit st))
    = Api.Fulfilled response ->
    Types.list_ok response = true ->
    let st' := snd (useReports.list_reports base now fetch limit st) in
    useReports.reports st'
    = match Types.data response with Some d => d | None => [] end
    /\ useReports.error st' = None
    /\ useReports.loading st' = false
    /\ useReports.lastLimit st' = ReportsFacts.effective_limit limit.
Proof.
  intros base now fetch limit st response Hs Hok st'. subst st'.
  rewrite ReportsMoreFacts.list_reports_state, Hs.
  unfold useReports.on_response. rewrite Hok. repeat split.
Qed.

(** A list of one report replaces an earlier error. *)
Lemma X12_list_success_replaces_reports_witness :
  useReports.reports
    (snd (useReports.list_reports None "now"
            (fun _ => Api.FetchResolved
                        (Api.mkResponse true 200 "OK"
                           (inr (Types.mkReportListResponse true
                                   (Some [Examples.one_report]) 1 None "t"))))
            (Some 5)
            (useReports.mkReportsState [] false (Some "old") 20)))
  = [Examples.one_report].
Proof.
  exact (proj1 (X12_list_success_replaces_reports None "now"
                  (fun _ => Api.FetchResolved
                              (Api.mkResponse true 200 "OK"
                                 (inr (Types.mkReportListResponse true
                                         (Some [Examples.one_report]) 1 None "t"))))
                  (Some 5)
                  (useReports.mkReportsState [] false (Some "old") 20)
                  _ eq_refl eq_refl)).
Defined.

(** X13: [list] asks for [/api/reports/list?limit=<n>] with a GET without
    body, n being 20 when no limit is given, and [refresh] after a [list]
    repeats the request of that [list], however it ended. *)
Theorem X13_refresh_repeats_last_list :
  forall (base : option string) (now : string)
         (fetch fetch' : Api.FetchRequest -> Api.FetchOutcome Types.ReportListResponse)
         (limit : option nat) (st : useReports.ReportsState),
    let first := useReports.list_reports base now fetch limit st in
    fst (fst first)
    = [Api.mkFetchRequest
         (Api.API_BASE_URL base ++ "/api/reports/list?limit="
          ++ Js.nat_to_string (match limit with Some n => n | None => 20 end))
         Api.GET [("Content-Type", "application/json")] None]
    /\ fst (fst (useReports.refresh base now fetch' (snd first)))
       = fst (fst first).
Proof.
  intros base now fetch fetch' limit st first. subst first.
  split; [destruct limit; reflexivity|].
  unfold useReports.refresh.
  rewrite !ReportsMoreFacts.list_reports_sent.
  rewrite ReportsMoreFacts.list_reports_state.
  destruct (snd (fst (useReports.list_reports base now fetch limit st)))
    as [response|apiError].
  - unfold useReports.on_response. destruct (Types.list_ok response); reflexivity.
  - reflexivity.
Qed.

(** X14: what the report hook shows for a failed list.  A response that is
    not ok gives the error "HTTP <status>: <statusText>"; an ok response
    whose body says [ok:false] gives its reason, or "取得報告列表失敗" when the
    reason is missing or empty; a [fetch] rejected with a TypeError whose
    message contains "fetch" gives the fixed connection message.  In each
    case no report is kept. *)
Theorem X14_list_failure_texts :
  forall (base : option string) (now : string)
         (fetch : Api.FetchRequest -> Api.FetchOutcome Types.ReportListResponse)
         (limit : option nat) (st : useReports.ReportsState),
    let st' := snd (useReports.list_reports base now fetch limit st) in
    let rq := ReportsMoreFacts.list_request base (ReportsFacts.effective_limit limit) in
    (forall r, fetch rq = Api.FetchResolved r -> Api.resp_ok r = false ->
               useReports.error st'
               = Some (ApiMoreFacts.http_message (Api.resp_status r)
                                                 (Api.resp_statusText r))
               /\ useReports.reports st' = [])
    /\ (forall code txt response,
           fetch rq = Api.FetchResolved (Api.mkResponse true code txt (inr response)) ->
           Types.list_ok response = false ->
           useReports.error st'
           = Some (match Types.reason response with
                   | Some (String c r) => String c r
                   | _ => "取得報告列表失敗"
                   end)
           /\ useReports.reports st' = [])
    /\ (forall msg, fetch rq = Api.FetchRejected true msg ->
                    Js.includes msg "fetch" = true ->
                    useReports.error st'
                    = Some "無法連接到後端服務，請檢查服務是否正常運行"
                    /\ useReports.reports st' = []).
Proof.
  intros base now fetch limit st st' rq. subst st' rq.
  rewrite ReportsMoreFacts.list_reports_state,
    ReportsMoreFacts.list_reports_settled.
  split; [|split].
  - intros r Hf Hok. rewrite Hf.
    rewrite ApiMoreFacts.finish_http_failure by exact Hok.
    unfold useReports.on_rejection.
    rewrite (ApiMoreFacts.or_default_some_truthy _ _
               (ApiMoreFacts.http_error_truthy _ _ _)).
    unfold ApiMoreFacts.http_error.
    destruct (Api.resp_status r =? 0); split; reflexivity.
  - intros code txt response Hf Hok. rewrite Hf.
    cbn [Api.settle Api.finish Api.resp_ok Api.resp_json negb].
    unfold useReports.on_response. rewrite Hok.
    destruct (Types.reason response) as [[|c r]|]; split; reflexivity.
  - intros msg Hf Hinc. rewrite Hf.
    rewrite ApiMoreFacts.finish_fetch_rejected.
    unfold ApiMoreFacts.network_error. rewrite Hinc. cbn [andb].
    split; reflexivity.
Qed.

(** A 404 answer, and a refusal without a reason. *)
Lemma X14_list_failure_texts_witness :
  useReports.error
    (snd (useReports.list_reports None "now"
            (fun _ => Api.FetchResolved
                        (Api.mkResponse false 404 "Not Found" (inr Examples.refused)))
            None useReports.initial))
  = Some "HTTP 404: Not Found"
  /\ useReports.error
       (snd (useReports.list_reports None "now"
               (fun _ => Api.FetchResolved
                           (Api.mkResponse true 200 "OK"
                              (inr (Types.mkReportListResponse false None 0
                                                               (Some "") "t"))))
               None useReports.initial))
     = Some "取得報告列表失敗".
Proof.
  split.
  - exact (proj1 (proj1 (X14_list_failure_texts None "now"
                           (fun _ => Api.FetchResolved
                                       (Api.mkResponse false 404 "Not Found"
                                                       (inr Examples.refused)))
                           None useReports.initial)
                        _ eq_refl eq_refl)).
  - exact (proj1 (proj1 (proj2 (X14_list_failure_texts None "now"
                           (fun _ => Api.FetchResolved
                                       (Api.mkResponse true 200 "OK"
                                          (inr (Types.mkReportListResponse false
                                                  None 0 (Some "") "t"))))
                           None useReports.initial))
                        200 "OK" _ eq_refl eq_refl)).
Defined.

(** X15: what the report list shows once [list] has completed.  After an
    unsuccessful list it shows the error state with the message of the
    hook, never the table of what was loaded before; after a successful one
    it shows the empty state when there is no report, and otherwise the
    table with one row per report, in order, each with the download link of
    its path, named after the report and opened in a new tab.  It never
    shows the skeleton then. *)
Theorem X15_report_list_view_after_list :
  forall (base : option string) (now : string)
         (fmtBytes : nat -> string) (fmtDate : string -> string)
         (fetch : Api.FetchRequest -> Api.FetchOutcome Types.ReportListResponse)
         (limit : option nat) (st : useReports.ReportsState),
    let outcome := useReports.list_reports base now fetch limit st in
    let st' := snd outcome in
    let shown := ReportListView.view base fmtBytes fmtDate st' in
    shown <> ReportListView.Skeleton
    /\ (ReportsFacts.unsuccessful (snd (fst outcome)) ->
        exists msg, useReports.error st' = Some msg
                    /\ shown = ReportListView.ErrorView msg)
    /\ (forall response,
           snd (fst outcome) = Api.Fulfilled response ->
           Types.list_ok response = true ->
           match Types.data response with
           | None | Some [] => shown = ReportListView.EmptyView
           | Some (first :: rest) =>
               exists watermark,
                 shown = ReportListView.TableView
                           (List.length (first :: rest))
                           (map (ReportListView.row_of base fmtBytes fmtDate)
                                (first :: rest))
                           watermark false
                 /\ map (fun row => option_map ReportListView.href
                                                 (ReportListView.row_link row))
                        (map (ReportListView.row_of base fmtBytes fmtDate)
                             (first :: rest))
                    = map (fun r => Api.buildReportDownloadUrl base (Types.path r))
                          (first :: rest)
           end).
Proof.
  intros base now fmtBytes fmtDate fetch limit st outcome st' shown.
  subst shown st' outcome.
  rewrite ReportsMoreFacts.list_reports_state.
  destruct (snd (fst (useReports.list_reports base now fetch limit st)))
    as [response|apiError] eqn:Hs.
  - unfold useReports.on_response.
    destruct (Types.list_ok response) eqn:Hok.
    + split; [|split].
      * unfold ReportListView.view. cbn. destruct (Types.data response) as [[|f r]|];
          cbn; discriminate.
      * cbn. congruence.
      * intros response' H Hok'. injection H as <-.
        unfold ReportListView.view. cbn.
        destruct (Types.data response) as [[|f r]|]; cbn; try reflexivity.
        eexists. split; [reflexivity|].
        exact (ReportsMoreFacts.row_links base fmtBytes fmtDate (f :: r)).
    + assert (Ht : Js.truthy (Js.or_default (Types.reason response) "取得報告列表失敗")
                   = true)
        by (now apply ApiMoreFacts.or_default_is_truthy).
      split; [|split].
      * unfold ReportListView.view. cbn. rewrite Ht. discriminate.
      * intros _. eexists. split; [reflexivity|].
        unfold ReportListView.view. cbn. now rewrite Ht.
      * intros response' H Hok'. injection H as <-. congruence.
  - unfold useReports.on_rejection.
    assert (Ht : Js.truthy (Js.or_default (Some (Types.message apiError))
                              "取得報告列表時發生錯誤") = true)
      by (now apply ApiMoreFacts.or_default_is_truthy).
    split; [|split].
    + unfold ReportListView.view. cbn [useReports.setLoading useReports.setReports
        useReports.setError useReports.loading useReports.reports useReports.error
        andb Js.truthy_opt]. rewrite Ht. discriminate.
    + intros _. eexists. split; [reflexivity|].
      unfold ReportListView.view. cbn [useReports.setLoading useReports.setReports
        useReports.setError useReports.loading useReports.reports useReports.error
        andb Js.truthy_opt]. now rewrite Ht.
    + intros response' H. discriminate H.
Qed.

(** A refused list after a report had been loaded: the error is shown. *)
Lemma X15_report_list_view_after_list_witness :
  exists msg,
    ReportListView.view None Js.nat_to_string (fun d => d)
      (snd (useReports.list_reports None "now"
              (fun _ => Api.FetchResolved
                          (Api.mkResponse true 200 "OK" (inr Examples.refused)))
              None
              (useReports.mkReportsState [Examples.one_report] false None 20)))
    = ReportListView.ErrorView msg.
Proof.
  destruct (proj1 (proj2
    (X15_report_list_view_after_list None "now" Js.nat_to_string (fun d => d)
       (fun _ => Api.FetchResolved
                   (Api.mkResponse true 200 "OK" (inr Examples.refused)))
       None
       (useReports.mkReportsState [Examples.one_report] false None 20)))
    eq_refl) as (msg & _ & Hv).
  exists msg. exact Hv.
Defined.

(* ================================================================== *)
(** * Properties of the formatters *)
(* ================================================================== *)

Module FormatterFacts.
Import Formatters.

Lemma digits_only_app (a b : string) :
  digits_only (a ++ b) = digits_only a ++ digits_only b.
Proof.
  induction a as [|c a IH]; [reflexivity|].
  cbn [append digits_only]. destruct (is_digit c); cbn [append]; now rewrite IH.
Qed.

Lemma digits_only_idempotent (s : string) :
  digits_only (digits_only s) = digits_only s.
Proof.
  induction s as [|c s IH]; [reflexivity|].
  cbn [digits_only]. destruct (is_digit c) eqn:Hc; [|exact IH].
  cbn [digits_only]. now rewrite Hc, IH.
Qed.

Lemma take_drop (n : nat) (s : string) : take n s ++ drop n s = s.
Proof.
  revert s. induction n as [|n IH]; intros [|c s]; cbn; try reflexivity.
  now rewrite IH.
Qed.

Lemma drop_drop (n m : nat) (s : string) : drop n (drop m s) = drop (m + n) s.
Proof.
  revert s. induction m as [|m IH]; intros s; [reflexivity|].
  destruct s as [|c s]; cbn [drop Nat.add]; [now destruct n|]. apply IH.
Qed.

(** Cutting a string in three and putting dashes in between changes
    nothing but the dashes. *)
Lemma digits_of_grouping (a b : nat) (d : string) :
  digits_only (substring 0 a d ++ "-" ++ substring a (a + b) d ++ "-"
               ++ drop (a + b) d)
  = digits_only d.
Proof.
  unfold substring. rewrite Nat.sub_0_r.
  replace (a + b - a) with b by lia.
  change (drop 0 d) with d.
  transitivity (digits_only (take a d ++ take b (drop a d) ++ drop (a + b) d)).
  - rewrite !digits_only_app.
    change (digits_only "-") with EmptyString. reflexivity.
  - now rewrite <- (drop_drop b a d), take_drop, take_drop.
Qed.

Lemma fmtPhone_digits (phone : string) :
  digits_only (fmtPhone phone) = digits_only phone.
Proof.
  unfold fmtPhone.
  destruct ((String.length (digits_only phone) =? 10)
            && Js.startsWith (digits_only phone) "09").
  - rewrite (digits_of_grouping 4 3). apply digits_only_idempotent.
  - destruct ((String.length (digits_only phone) =? 9)
              || (String.length (digits_only phone) =? 10)).
    + rewrite (digits_of_grouping 2 4). apply digits_only_idempotent.
    + reflexivity.
Qed.

End FormatterFacts.

(** X16: [fmtPhone] never changes the digits of a number, only what is
    between them, and formatting twice is formatting once: a number that is
    already formatted stays as it is. *)
Theorem X16_fmtPhone_keeps_digits :
  forall phone : string,
    Formatters.digits_only (Formatters.fmtPhone phone)
    = Formatters.digits_only phone
    /\ Formatters.fmtPhone (Formatters.fmtPhone phone) = Formatters.fmtPhone phone
    /\ (String.length (Formatters.digits_only phone) <> 9 ->
        String.length (Formatters.digits_only phone) <> 10 ->
        Formatters.fmtPhone phone = phone).
Proof.
  intros phone. split; [apply FormatterFacts.fmtPhone_digits|]. split.
  - unfold Formatters.fmtPhone at 1.
    rewrite FormatterFacts.fmtPhone_digits.
    unfold Formatters.fmtPhone.
    destruct ((String.length (Formatters.digits_only phone) =? 10)
              && Js.startsWith (Formatters.digits_only phone) "09");
      [reflexivity|].
    destruct ((String.length (Formatters.digits_only phone) =? 9)
              || (String.length (Formatters.digits_only phone) =? 10));
      reflexivity.
  - intros H9 H10. unfold Formatters.fmtPhone.
    apply Nat.eqb_neq in H9, H10. rewrite H9, H10. reflexivity.
Qed.

(** A mobile number typed with spaces, a land line, and a number that is
    too long to be recognised. *)
Lemma X16_fmtPhone_keeps_digits_witness :
  Formatters.fmtPhone "0912 345 678" = "0912-345-678"
  /\ Formatters.fmtPhone "(02)12345678" = "02-1234-5678"
  /\ Formatters.fmtPhone "+886 912 345 678" = "+886 912 345 678".
Proof.
  split; [reflexivity|]. split; [reflexivity|].
  apply (proj2 (proj2 (X16_fmtPhone_keeps_digits "+886 912 345 678")));
    discriminate.
Defined.

(** X17: [truncateText] returns a text that fits as it is.  A longer text is
    cut to [maxLength - 3] code units followed by three dots, which has
    exactly [maxLength] code units when [maxLength] is at least 3; for a
    smaller [maxLength] (also a negative one) the result is the three dots
    alone, longer than asked for. *)
Theorem X17_truncateText_length :
  forall (text : Formatters.jsstring) (maxLength : Z),
    ((Z.of_nat (List.length text) <= maxLength)%Z ->
     Formatters.truncateText text maxLength = text)
    /\ ((3 <= maxLength < Z.of_nat (List.length text))%Z ->
        Formatters.truncateText text maxLength
        = (firstn (Z.to_nat (maxLength - 3)) text ++ Formatters.dots)%list
        /\ Z.of_nat (List.length (Formatters.truncateText text maxLength))
           = maxLength)
    /\ ((maxLength < 3)%Z -> (maxLength < Z.of_nat (List.length text))%Z ->
        Formatters.truncateText text maxLength = Formatters.dots)
    /\ (Z.of_nat (List.length (Formatters.truncateText text maxLength))
        <= Z.max maxLength 3)%Z.
Proof.
  intros text maxLength.
  assert (Hfit : (Z.of_nat (List.length text) <= maxLength)%Z ->
                 Formatters.truncateText text maxLength = text).
  { intros H. unfold Formatters.truncateText.
    now rewrite (proj2 (Z.leb_le _ _) H). }
  assert (Hcut : (3 <= maxLength < Z.of_nat (List.length text))%Z ->
                 Formatters.truncateText text maxLength
                 = (firstn (Z.to_nat (maxLength - 3)) text ++ Formatters.dots)%list).
  { intros [H3 Hlt]. unfold Formatters.truncateText.
    rewrite (proj2 (Z.leb_gt _ _) Hlt). f_equal.
    unfold Formatters.js_substring.
    replace (Z.to_nat (Z.max 0 (Z.min 0 (Z.of_nat (List.length text))))) with 0
      by lia.
    replace (Z.to_nat (Z.max 0 (Z.min (maxLength - 3) (Z.of_nat (List.length text)))))
      with (Z.to_nat (maxLength - 3)) by lia.
    rewrite Nat.min_0_l, Nat.max_0_l, Nat.sub_0_r. reflexivity. }
  assert (Hdots : (maxLength < 3)%Z -> (maxLength < Z.of_nat (List.length text))%Z ->
                  Formatters.truncateText text maxLength = Formatters.dots).
  { intros H3 Hlt. unfold Formatters.truncateText.
    rewrite (proj2 (Z.leb_gt _ _) Hlt).
    unfold Formatters.js_substring.
    replace (Z.to_nat (Z.max 0 (Z.min 0 (Z.of_nat (List.length text))))) with 0
      by lia.
    replace (Z.to_nat (Z.max 0 (Z.min (maxLength - 3) (Z.of_nat (List.length text)))))
      with 0 by lia.
    reflexivity. }
  split; [exact Hfit|]. split; [|split; [exact Hdots|]].
  - intros H. split; [now apply Hcut|].
    rewrite (Hcut H), length_app, length_firstn. cbn [Formatters.dots List.length].
    lia.
  - destruct (Z_le_gt_dec (Z.of_nat (List.length text)) maxLength) as [Hle|Hgt].
    + rewrite (Hfit Hle). lia.
    + destruct (Z_lt_le_dec maxLength 3) as [H3|H3].
      * rewrite (Hdots H3) by lia. cbn. lia.
      * rewrite Hcut by lia. rewrite length_app, length_firstn.
        cbn [Formatters.dots List.length]. lia.
Qed.

(** Ten code units cut to eight, and to two. *)
Lemma X17_truncateText_length_witness :
  Formatters.truncateText [65; 66; 67; 68; 69; 70; 71; 72; 73; 74] 8
  = [65; 66; 67; 68; 69; 46; 46; 46]
  /\ Formatters.truncateText [65; 66; 67; 68; 69; 70; 71; 72; 73; 74] 2
     = [46; 46; 46].
Proof.
  split.
  - exact (proj1 (proj1 (proj2
      (X17_truncateText_length [65; 66; 67; 68; 69; 70; 71; 72; 73; 74] 8))
      ltac:(cbn; lia))).
  - exact (proj1 (proj2 (proj2
      (X17_truncateText_length [65; 66; 67; 68; 69; 70; 71; 72; 73; 74] 2)))
      ltac:(lia) ltac:(cbn; lia)).
Defined.

(** X18: [fmtLineId] shows an id of at most six code units in full.  A
    longer id is shown as its first three code units, three stars and its
    last three: nine code units whatever the length, so that ids that agree
    on their first three and last three code units are shown alike. *)
Theorem X18_fmtLineId_masks_middle :
  forall lineId : Formatters.jsstring,
    (List.length lineId <= 6 -> Formatters.fmtLineId lineId = lineId)
    /\ (6 < List.length lineId ->
        Formatters.fmtLineId lineId
        = (firstn 3 lineId ++ Formatters.stars
           ++ skipn (List.length lineId - 3) lineId)%list
        /\ List.length (Formatters.fmtLineId lineId) = 9
        /\ forall other : Formatters.jsstring,
             6 < List.length other ->
             firstn 3 other = firstn 3 lineId ->
             skipn (List.length other - 3) other
             = skipn (List.length lineId - 3) lineId ->
             Formatters.fmtLineId other = Formatters.fmtLineId lineId).
Proof.
  intros lineId.
  assert (Hlong : forall s : Formatters.jsstring,
             6 < List.length s ->
             Formatters.fmtLineId s
             = (firstn 3 s ++ Formatters.stars ++ skipn (List.length s - 3) s)%list).
  { intros s Hs. unfold Formatters.fmtLineId.
    rewrite (proj2 (Nat.leb_gt _ _) Hs).
    unfold Formatters.js_substring.
    replace (Z.to_nat (Z.max 0 (Z.min 0 (Z.of_nat (List.length s))))) with 0 by lia.
    replace (Z.to_nat (Z.max 0 (Z.min 3 (Z.of_nat (List.length s))))) with 3 by lia.
    replace (Z.to_nat (Z.max 0 (Z.min (Z.of_nat (List.length s) - 3)
                                      (Z.of_nat (List.length s)))))
      with (List.length s - 3) by lia.
    replace (Z.to_nat (Z.max 0 (Z.min (Z.of_nat (List.length s))
                                      (Z.of_nat (List.length s)))))
      with (List.length s) by lia.
    rewrite Nat.min_0_l, Nat.max_0_l.
    rewrite (Nat.min_l (List.length s - 3)), (Nat.max_r (List.length s - 3)) by lia.
    cbn [Nat.sub skipn].
    replace (List.length s - (List.length s - 3)) with 3 by lia.
    f_equal. f_equal.
    apply firstn_all2. rewrite length_skipn. lia. }
  split.
  - intros H. unfold Formatters.fmtLineId.
    now rewrite (proj2 (Nat.leb_le _ _) H).
  - intros H. split; [now apply Hlong|]. split.
    + rewrite (Hlong lineId H), !length_app, length_firstn, length_skipn.
      cbn [Formatters.stars List.length]. lia.
    + intros other Ho Hf Hl. rewrite (Hlong other Ho), (Hlong lineId H).
      now rewrite Hf, Hl.
Qed.

(** The id "U1234567890" and an id of six code units. *)
Lemma X18_fmtLineId_masks_middle_witness :
  Formatters.fmtLineId [85; 49; 50; 51; 52; 53; 54; 55; 56; 57; 48]
  = [85; 49; 50; 42; 42; 42; 56; 57; 48]
  /\ Formatters.fmtLineId [85; 49; 50; 51; 52; 53] = [85; 49; 50; 51; 52; 53].
Proof.
  split.
  - exact (proj1 (proj2 (X18_fmtLineId_masks_middle
                           [85; 49; 50; 51; 52; 53; 54; 55; 56; 57; 48])
                        ltac:(cbn; lia))).
  - exact (proj1 (X18_fmtLineId_masks_middle [85; 49; 50; 51; 52; 53])
                 ltac:(cbn; lia)).
Defined.

(* ================================================================== *)
(** * Properties of the customer hook *)
(* ================================================================== *)

Module CustomersFacts.
Import Json useCustomers.

Lemma find_app_none (f : Customer -> bool) (l1 l2 : list Customer) :
  find f l1 = None -> find f (l1 ++ l2) = find f l2.
Proof.
  induction l1 as [|c l1 IH]; cbn; [reflexivity|].
  destruct (f c); [discriminate | exact IH].
Qed.

Lemma find_app_some (f : Customer -> bool) (l1 l2 : list Customer) (c : Customer) :
  find f l1 = Some c -> find f (l1 ++ l2) = Some c.
Proof.
  induction l1 as [|x l1 IH]; cbn; [discriminate|].
  destruct (f x); [auto | exact IH].
Qed.

Lemma find_none_iff (wanted : string) (l : list Customer) :
  find (has_id wanted) l = None <-> ~ In wanted (map id l).
Proof.
  unfold has_id. induction l as [|c l IH]; cbn; [tauto|].
  destruct (String.eqb_spec (id c) wanted) as [He|Hne].
  - split; [discriminate | intros H; exfalso; apply H; now left].
  - rewrite IH. tauto.
Qed.

Lemma replace_first_ids (wanted : string) (patch : CustomerPatch) (now : string)
      (l : list Customer) :
  map id (replace_first wanted patch now l) = map id l
  /\ map createdAt (replace_first wanted patch now l) = map createdAt l
  /\ List.length (replace_first wanted patch now l) = List.length l.
Proof.
  induction l as [|c l (IH1 & IH2 & IH3)]; cbn; [repeat split|].
  destruct (has_id wanted c); cbn; [repeat split|].
  now rewrite IH1, IH2, IH3.
Qed.

Lemma replace_first_find (wanted : string) (patch : CustomerPatch) (now : string)
      (l : list Customer) (old : Customer) :
  find (has_id wanted) l = Some old ->
  find (has_id wanted) (replace_first wanted patch now l)
  = Some (merge old patch now).
Proof.
  induction l as [|c l IH]; cbn; [discriminate|].
  destruct (has_id wanted c) eqn:Hc.
  - intros H. injection H as <-. cbn.
    unfold has_id in *. cbn. now rewrite Hc.
  - intros H. cbn. rewrite Hc. now apply IH.
Qed.

Lemma replace_first_others (wanted other : string) (patch : CustomerPatch)
      (now : string) (l : list Customer) :
  other <> wanted ->
  filter (has_id other) (replace_first wanted patch now l)
  = filter (has_id other) l.
Proof.
  intros Hne. induction l as [|c l IH]; cbn; [reflexivity|].
  destruct (has_id wanted c) eqn:Hc.
  - cbn. unfold has_id in *. cbn.
    apply String.eqb_eq in Hc. rewrite Hc.
    destruct (String.eqb_spec wanted other) as [He|_]; [congruence|reflexivity].
  - cbn. now rewrite IH.
Qed.

Lemma existsb_false_filter (wanted : string) (l : list Customer) :
  existsb (has_id wanted) l = false ->
  filter (fun c => negb (has_id wanted c)) l = l.
Proof.
  induction l as [|c l IH]; cbn; [reflexivity|].
  intros H. apply orb_false_iff in H. destruct H as [Hc Hl].
  rewrite Hc. cbn. now rewrite IH.
Qed.

Lemma find_filter_out (wanted : string) (l : list Customer) :
  find (has_id wanted) (filter (fun c => negb (has_id wanted c)) l) = None.
Proof.
  induction l as [|c l IH]; cbn; [reflexivity|].
  destruct (has_id wanted c) eqn:Hc; cbn; [exact IH|].
  now rewrite Hc.
Qed.

Lemma existsb_find (wanted : string) (l : list Customer) :
  existsb (has_id wanted) l = true <-> exists c, find (has_id wanted) l = Some c.
Proof.
  induction l as [|c l IH]; cbn.
  - split; [discriminate | intros [c H]; discriminate H].
  - destruct (has_id wanted c); cbn; [|exact IH].
    split; [intros _; now exists c | reflexivity].
Qed.

(** An array with a null in it makes the filter throw. *)
Lemma filter_valid_null (items : list json) :
  In JNull items -> filter_valid items = None.
Proof.
  induction items as [|item items IH]; cbn; [contradiction|].
  intros [->|Hin]; [reflexivity|].
  destruct (valid_record item); [|reflexivity].
  now rewrite (IH Hin).
Qed.

(** Without a null the filter keeps the valid records, in order. *)
Definition is_valid (item : json) : bool :=
  match valid_record item with Some true => true | _ => false end.

Lemma filter_valid_no_null (items : list json) :
  ~ In JNull items -> filter_valid items = Some (filter is_valid items).
Proof.
  induction items as [|item items IH]; cbn; [reflexivity|].
  intros H. rewrite IH by tauto. unfold is_valid.
  destruct item; cbn; try reflexivity.
  - exfalso. apply H. now left.
  - destruct (_ && _); reflexivity.
Qed.

End CustomersFacts.

(** X19: [create] adds the new customer at the end, with the fresh id and
    with both dates set to the time of the call, and clears the error; the
    customers that were there are untouched.  When the id is not yet used,
    [findById] finds the new customer under it, and it finds every other
    customer as before. *)
Theorem X19_create_then_find :
  forall (new_id now : string) (data : useCustomers.CustomerData)
         (st : useCustomers.CustomersState),
    ~ In new_id (map useCustomers.id (useCustomers.customers st)) ->
    let created := fst (useCustomers.create new_id now data st) in
    let st' := snd (useCustomers.create new_id now data st) in
    useCustomers.customers st' = (useCustomers.customers st ++ [created])%list
    /\ useCustomers.id created = new_id
    /\ useCustomers.createdAt created = now
    /\ useCustomers.updatedAt created = now
    /\ useCustomers.lineId created = useCustomers.data_lineId data
    /\ useCustomers.name created = useCustomers.data_name data
    /\ useCustomers.error st' = None
    /\ useCustomers.findById new_id st' = Some created
    /\ (forall other, other <> new_id ->
                      useCustomers.findById other st'
                      = useCustomers.findById other st).
Proof.
  intros new_id now data st Hfresh created st'. subst created st'.
  cbn [fst snd useCustomers.create]. do 7 (split; [reflexivity|]).
  unfold useCustomers.findById. cbn [useCustomers.customers]. split.
  - rewrite CustomersFacts.find_app_none
      by (now apply CustomersFacts.find_none_iff).
    cbn. unfold useCustomers.has_id. cbn. now rewrite String.eqb_refl.
  - intros other Hne.
    destruct (find (useCustomers.has_id other) (useCustomers.customers st))
      as [c|] eqn:Hf.
    + now apply CustomersFacts.find_app_some.
    + rewrite CustomersFacts.find_app_none by exact Hf.
      cbn. unfold useCustomers.has_id. cbn.
      destruct (String.eqb_spec new_id other) as [He|_]; [congruence|reflexivity].
Qed.

(** The first customer of an empty list. *)
Lemma X19_create_then_find_witness :
  useCustomers.findById "c-1"
    (snd (useCustomers.create "c-1" "2025-09-04T09:51:45Z"
            (useCustomers.mkCustomerData "U123" "Lin" None None None None)
            (useCustomers.mkCustomersState [] false (Some "old"))))
  = Some (useCustomers.mkCustomer "c-1" "U123" "Lin" None None None None
            "2025-09-04T09:51:45Z" "2025-09-04T09:51:45Z").
Proof.
  refine (proj1 (proj2 (proj2 (proj2 (proj2 (proj2 (proj2 (proj2
    (X19_create_then_find "c-1" "2025-09-04T09:51:45Z"
       (useCustomers.mkCustomerData "U123" "Lin" None None None None)
       (useCustomers.mkCustomersState [] false (Some "old")) _))))))))).
  cbn. tauto.
Defined.

(** X20: [update] with an id that no customer has changes no customer and
    sets the error "找不到 ID 為 <id> 的客戶".  With an id that some customer
    has it clears the error, keeps the number of customers, their ids and
    their creation dates, replaces the first customer with that id by the
    merge of the old one and the changes, with the time of the call as the
    date of the update, and leaves the customers with other ids as they
    are. *)
Theorem X20_update_keeps_identity :
  forall (wanted now : string) (patch : useCustomers.CustomerPatch)
         (st : useCustomers.CustomersState),
    let st' := useCustomers.update wanted now patch st in
    (useCustomers.findById wanted st = None ->
     useCustomers.customers st' = useCustomers.customers st
     /\ useCustomers.error st' = Some (useCustomers.not_found wanted))
    /\ (forall old, useCustomers.findById wanted st = Some old ->
          useCustomers.error st' = None
          /\ useCustomers.findById wanted st'
             = Some (useCustomers.merge old patch now)
          /\ useCustomers.id (useCustomers.merge old patch now) = wanted
          /\ useCustomers.createdAt (useCustomers.merge old patch now)
             = useCustomers.createdAt old
          /\ useCustomers.updatedAt (useCustomers.merge old patch now) = now)
    /\ map useCustomers.id (useCustomers.customers st')
       = map useCustomers.id (useCustomers.customers st)
    /\ map useCustomers.createdAt (useCustomers.customers st')
       = map useCustomers.createdAt (useCustomers.customers st)
    /\ (forall other, other <> wanted ->
          filter (useCustomers.has_id other) (useCustomers.customers st')
          = filter (useCustomers.has_id other) (useCustomers.customers st)).
Proof.
  intros wanted now patch st st'. subst st'.
  unfold useCustomers.update, useCustomers.findById.
  destruct (existsb (useCustomers.has_id wanted) (useCustomers.customers st))
    eqn:Hex.
  - destruct (proj1 (CustomersFacts.existsb_find _ _) Hex) as [c Hc].
    cbn [useCustomers.customers useCustomers.error].
    destruct (CustomersFacts.replace_first_ids wanted patch now
                (useCustomers.customers st)) as (Hi & Hd & _).
    split; [rewrite Hc; discriminate|].
    split; [|split; [exact Hi | split; [exact Hd|]]].
    + intros old Hold. split; [reflexivity|].
      split; [now apply CustomersFacts.replace_first_find|].
      split; [|split; reflexivity].
      cbn. apply find_some in Hold. destruct Hold as [_ Hid].
      now apply String.eqb_eq in Hid.
    + intros other Hne. now apply CustomersFacts.replace_first_others.
  - cbn [useCustomers.customers useCustomers.error].
    split; [intros _; split; reflexivity|].
    split; [|repeat split].
    intros old Hold.
    assert (H : existsb (useCustomers.has_id wanted) (useCustomers.customers st)
                = true)
      by (apply CustomersFacts.existsb_find; now exists old).
    congruence.
Qed.

Module CustomerExamples.
Import useCustomers.

Definition lin : Customer :=
  mkCustomer "c-1" "U123" "Lin" (Some "0912345678") None None None "t0" "t0".

Definition chen : Customer :=
  mkCustomer "c-2" "U456" "Chen" None None (Some balanced) None "t1" "t1".

Definition two : CustomersState := mkCustomersState [lin; chen] false None.

Definition new_phone : CustomerPatch :=
  mkCustomerPatch None None (Some None) None None None.

End CustomerExamples.

(** A phone number is removed from the second of two customers, and an
    unknown id is reported. *)
Lemma X20_update_keeps_identity_witness :
  useCustomers.error
    (useCustomers.update "c-9" "t2" CustomerExamples.new_phone CustomerExamples.two)
  = Some "找不到 ID 為 c-9 的客戶"
  /\ useCustomers.findById "c-1"
       (useCustomers.update "c-1" "t2" CustomerExamples.new_phone
                            CustomerExamples.two)
     = Some (useCustomers.mkCustomer "c-1" "U123" "Lin" None None None None
                                     "t0" "t2").
Proof.
  split.
  - exact (proj2 (proj1 (X20_update_keeps_identity "c-9" "t2"
                           CustomerExamples.new_phone CustomerExamples.two)
                        eq_refl)).
  - exact (proj1 (proj2 (proj1 (proj2
      (X20_update_keeps_identity "c-1" "t2" CustomerExamples.new_phone
                                 CustomerExamples.two))
      CustomerExamples.lin eq_refl))).
Defined.

(** X21: after [remove], [findById] finds nothing under the id: every
    customer with that id is gone (while [update] changes only the first),
    and the others are kept, in their order.  The error is cleared when
    some customer had the id and is "找不到 ID 為 <id> 的客戶" otherwise,
    in which case no customer is touched. *)
Theorem X21_remove_removes_every_match :
  forall (wanted : string) (st : useCustomers.CustomersState),
    let st' := useCustomers.remove wanted st in
    useCustomers.customers st'
    = filter (fun c => negb (useCustomers.has_id wanted c))
             (useCustomers.customers st)
    /\ useCustomers.findById wanted st' = None
    /\ (useCustomers.findById wanted st = None ->
        useCustomers.customers st' = useCustomers.customers st
        /\ useCustomers.error st' = Some (useCustomers.not_found wanted))
    /\ (useCustomers.findById wanted st <> None ->
        useCustomers.error st' = None
        /\ List.length (useCustomers.customers st')
           < List.length (useCustomers.customers st)).
Proof.
  intros wanted st st'. subst st'.
  unfold useCustomers.remove, useCustomers.findById.
  destruct (existsb (useCustomers.has_id wanted) (useCustomers.customers st))
    eqn:Hex; cbn [useCustomers.customers useCustomers.error].
  - destruct (proj1 (CustomersFacts.existsb_find _ _) Hex) as [c Hc].
    split; [reflexivity|].
    split; [apply CustomersFacts.find_filter_out|].
    split; [rewrite Hc; discriminate|].
    intros _. split; [reflexivity|].
    apply find_some in Hc. destruct Hc as [Hin Hid].
    clear Hex. induction (useCustomers.customers st) as [|x l IH];
      [contradiction|].
    cbn. destruct Hin as [->|Hin].
    + rewrite Hid. cbn.
      pose proof (filter_length_le
                    (fun c0 => negb (useCustomers.has_id wanted c0)) l). lia.
    + specialize (IH Hin).
      destruct (useCustomers.has_id wanted x); cbn; lia.
  - rewrite (CustomersFacts.existsb_false_filter _ _ Hex).
    split; [reflexivity|].
    assert (Hnone : find (useCustomers.has_id wanted) (useCustomers.customers st)
                    = None).
    { destruct (find (useCustomers.has_id wanted) (useCustomers.customers st))
        as [c|] eqn:Hf; [|reflexivity].
      assert (H : existsb (useCustomers.has_id wanted) (useCustomers.customers st)
                  = true)
        by (apply CustomersFacts.existsb_find; now exists c).
      congruence. }
    split; [exact Hnone|].
    split; [intros _; split; reflexivity|].
    intros H. contradiction.
Qed.

(** Removing one of two customers. *)
Lemma X21_remove_removes_every_match_witness :
  useCustomers.customers (useCustomers.remove "c-1" CustomerExamples.two)
  = [CustomerExamples.chen]
  /\ useCustomers.error (useCustomers.remove "c-1" CustomerExamples.two) = None.
Proof.
  split.
  - exact (proj1 (X21_remove_removes_every_match "c-1" CustomerExamples.two)).
  - exact (proj1 (proj2 (proj2 (proj2
      (X21_remove_removes_every_match "c-1" CustomerExamples.two)))
      ltac:(discriminate))).
Defined.

(** X22: [importData] on a text that parses to an array with a [null] in
    it, anywhere, fails as a whole: it returns false with the error
    "匯入資料解析失敗", although the text did parse, and no customer is
    replaced. *)
Theorem X22_import_null_record_fails :
  forall (items : list Json.json),
    In Json.JNull items ->
    useCustomers.importData (Some (Json.JArr items))
    = useCustomers.mkImportEffect false [Some "匯入資料解析失敗"] None
    /\ useCustomers.importData (Some (Json.JArr items))
       = useCustomers.importData None.
Proof.
  intros items Hin. unfold useCustomers.importData.
  rewrite (CustomersFacts.filter_valid_null items Hin). split; reflexivity.
Qed.

Module ImportExamples.
Import Json.

Definition good : json :=
  JObj [("id", JStr "c-1"); ("lineId", JStr "U123"); ("name", JStr "Lin");
        ("createdAt", JStr "t0"); ("updatedAt", JStr "t0")].

(** A record whose name is a number. *)
Definition bad : json :=
  JObj [("id", JStr "c-2"); ("lineId", JStr "U456"); ("name", JNum 7);
        ("createdAt", JStr "t1"); ("updatedAt", JStr "t1")].

End ImportExamples.

(** A good record followed by a null. *)
Lemma X22_import_null_record_fails_witness :
  useCustomers.returned
    (useCustomers.importData
       (Some (Json.JArr [ImportExamples.good; Json.JNull])))
  = false.
Proof.
  rewrite (proj1 (X22_import_null_record_fails
                    [ImportExamples.good; Json.JNull]
                    (or_intror (or_introl eq_refl)))).
  reflexivity.
Defined.

(** X23: [importData] on an array without [null] returns true and replaces
    the customers by the records of the array that are objects with string
    members id, lineId, name, createdAt and updatedAt, in their order.  The
    error it sets for the records it drops is overwritten at once: the
    error state ends empty however many records were dropped. *)
Theorem X23_import_drops_silently :
  forall (items : list Json.json) (before : option string),
    ~ In Json.JNull items ->
    let effect := useCustomers.importData (Some (Json.JArr items)) in
    useCustomers.returned effect = true
    /\ useCustomers.setCustomers_call effect
       = Some (filter CustomersFacts.is_valid items)
    /\ useCustomers.error_after (useCustomers.setError_calls effect) before = None
    /\ (List.length (filter CustomersFacts.is_valid items) < List.length items ->
        exists msg, useCustomers.setError_calls effect = [Some msg; None]).
Proof.
  intros items before Hnn effect. subst effect.
  unfold useCustomers.importData.
  rewrite (CustomersFacts.filter_valid_no_null items Hnn).
  cbn [useCustomers.returned useCustomers.setCustomers_call
       useCustomers.setError_calls].
  split; [reflexivity|]. split; [reflexivity|].
  destruct (List.length (filter CustomersFacts.is_valid items) =? List.length items)
    eqn:Hlen; cbn [negb app].
  - split; [reflexivity|]. intros H. apply Nat.eqb_eq in Hlen. lia.
  - split; [reflexivity|]. intros _. eexists. reflexivity.
Qed.

(** One good record and one whose name is a number: the bad one is dropped
    and no error is left. *)
Lemma X23_import_drops_silently_witness :
  useCustomers.setCustomers_call
    (useCustomers.importData
       (Some (Json.JArr [ImportExamples.good; ImportExamples.bad])))
  = Some [ImportExamples.good]
  /\ useCustomers.error_after
       (useCustomers.setError_calls
          (useCustomers.importData
             (Some (Json.JArr [ImportExamples.good; ImportExamples.bad]))))
       (Some "old")
     = None.
Proof.
  assert (Hnn : ~ In Json.JNull [ImportExamples.good; ImportExamples.bad]).
  { intros [H|[H|[]]]; discriminate H. }
  split.
  - exact (proj1 (proj2 (X23_import_drops_silently
                           [ImportExamples.good; ImportExamples.bad]
                           (Some "old") Hnn))).
  - exact (proj1 (proj2 (proj2 (X23_import_drops_silently
                                  [ImportExamples.good; ImportExamples.bad]
                                  (Some "old") Hnn)))).
Defined.

(* ================================================================== *)
(** * More properties of the setup scripts *)
(* ================================================================== *)

Module EnvMoreFacts.
Import EnvScripts.

Lemma prefix_nil (s : string) : String.prefix "" s = true.
Proof. now destruct s. Qed.

Lemma prefix_append (a b : string) : String.prefix a (a ++ b) = true.
Proof.
  induction a as [|x a IH]; cbn [append prefix]; [apply prefix_nil|].
  destruct (ascii_dec x x) as [_|Hne]; [exact IH | contradiction].
Qed.

(** The line the scripts write for a key is a line of that key. *)
Lemma own_line (k d : string) : String.prefix (k ++ "=") (k ++ "=" ++ d) = true.
Proof. rewrite <- EnvFacts.append_assoc. apply prefix_append. Qed.

(** ** Line by line *)

Lemma ensure_sets (k d : string) (ls : EnvLines.Lines) :
  EnvLines.grep_q (k ++ "=") (EnvLines.ensure k d ls) = true.
Proof.
  unfold EnvLines.ensure.
  destruct (EnvLines.grep_q (k ++ "=") ls) eqn:Hq; [exact Hq|].
  rewrite EnvLines.grep_q_app. unfold EnvLines.grep_q at 2. cbn [existsb].
  rewrite own_line. now rewrite orb_true_r.
Qed.

Lemma ensure_keeps_set (p k d : string) (ls : EnvLines.Lines) :
  EnvLines.grep_q p ls = true -> EnvLines.grep_q p (EnvLines.ensure k d ls) = true.
Proof.
  intros H. unfold EnvLines.ensure.
  destruct (EnvLines.grep_q (k ++ "=") ls); [exact H|].
  now rewrite EnvLines.grep_q_app, H.
Qed.

Lemma ensure_all_keeps_set (p : string) (l : list (string * string)) :
  forall ls, EnvLines.grep_q p ls = true ->
             EnvLines.grep_q p (EnvLines.ensure_all l ls) = true.
Proof.
  induction l as [|kd l IH]; intros ls H; [exact H|].
  apply IH. now apply ensure_keeps_set.
Qed.

(** After the checks every key of the table has a line. *)
Lemma ensure_all_sets (l : list (string * string)) :
  forall ls,
    Forall (fun kd => EnvLines.grep_q (fst kd ++ "=") (EnvLines.ensure_all l ls) = true) l.
Proof.
  induction l as [|kd l IH]; intros ls; constructor.
  - apply (ensure_all_keeps_set _ l). apply ensure_sets.
  - apply IH.
Qed.

(** The checks only append, and only lines of the table. *)
Lemma ensure_all_adds (l : list (string * string)) :
  forall ls,
    exists added,
      EnvLines.ensure_all l ls = (ls ++ added)%list
      /\ incl added (map (fun kd => fst kd ++ "=" ++ snd kd) l).
Proof.
  induction l as [|kd l IH]; intros ls.
  - exists []. split; [now rewrite app_nil_r | intros x []].
  - change (EnvLines.ensure_all (kd :: l) ls)
      with (EnvLines.ensure_all l (EnvLines.ensure (fst kd) (snd kd) ls)).
    destruct (IH (EnvLines.ensure (fst kd) (snd kd) ls)) as (added & Ha & Hi).
    unfold EnvLines.ensure in *.
    destruct (EnvLines.grep_q (fst kd ++ "=") ls).
    + exists added. split; [exact Ha|]. intros x Hx. right. now apply Hi.
    + exists ((fst kd ++ "=" ++ snd kd) :: added). split.
      * rewrite Ha, <- app_assoc. reflexivity.
      * intros x [<-|Hx]; [now left | right; now apply Hi].
Qed.

(** A key that has a line keeps its values when every line of the table is
    its own or about another key. *)
Lemma ensure_all_keeps_value (k : string) (l : list (string * string)) :
  Forall (fun kd => fst kd = k \/ EnvLines.unrelated k kd) l ->
  forall ls,
    EnvLines.grep_q (k ++ "=") ls = true ->
    EnvLines.read_value k (EnvLines.ensure_all l ls) = EnvLines.read_value k ls.
Proof.
  induction 1 as [|kd l Hkd _ IH]; intros ls Hset; [reflexivity|].
  change (EnvLines.ensure_all (kd :: l) ls)
    with (EnvLines.ensure_all l (EnvLines.ensure (fst kd) (snd kd) ls)).
  rewrite IH by (now apply ensure_keeps_set).
  destruct Hkd as [Hown|Hother].
  - unfold EnvLines.ensure. now rewrite Hown, Hset.
  - now apply EnvLines.ensure_other.
Qed.

Ltac own_or_unrelated :=
  repeat (constructor; [first [left; reflexivity | right; reflexivity]|]);
  constructor.

Lemma fix_agent_keeps_value (k : string) (run : Run) (ls : EnvLines.Lines) :
  In k (map fst fix_agent_defaults) ->
  EnvLines.grep_q (k ++ "=") ls = true ->
  EnvLines.read_value k (EnvLines.ensure_all (EnvFacts.checked_by run) ls)
  = EnvLines.read_value k ls.
Proof.
  intros Hin. apply ensure_all_keeps_value.
  unfold EnvFacts.checked_by. cbn in Hin.
  destruct (completed run);
    repeat (destruct Hin as [<-|Hin]; [own_or_unrelated|]); contradiction.
Qed.

Lemma fix_supervisor_keeps_value (k : string) (ls : EnvLines.Lines) :
  In k (map fst fix_supervisor_defaults) ->
  EnvLines.grep_q (k ++ "=") ls = true ->
  EnvLines.read_value k (EnvLines.ensure_all fix_supervisor_defaults ls)
  = EnvLines.read_value k ls.
Proof.
  intros Hin. apply ensure_all_keeps_value.
  cbn in Hin.
  repeat (destruct Hin as [<-|Hin]; [own_or_unrelated|]). contradiction.
Qed.

(** ** On the file *)

(** When every key has a line, the checks write nothing, whatever the
    file. *)
Lemma ensure_all_nothing_to_do (l : list (string * string)) (env : EnvFile) :
  Forall (fun kd => grep_q (fst kd ++ "=") env = true) l ->
  ensure_all l env = env.
Proof.
  induction 1 as [|kd l Hkd _ IH]; [reflexivity|].
  change (ensure_all (kd :: l) env)
    with (ensure_all l (ensure (fst kd) (snd kd) env)).
  unfold ensure at 1. now rewrite Hkd.
Qed.

(** After the checks on a file that is empty or ends with a newline every
    key of the table has a line. *)
Lemma ensure_all_sets_file (l : list (string * string)) (env : EnvFile) :
  EnvFacts.plain l -> EnvFacts.terminated env = true ->
  Forall (fun kd => grep_q (fst kd ++ "=") (ensure_all l env) = true) l.
Proof.
  intros Hp Ht. destruct (EnvFacts.ensure_all_lines l Hp env Ht) as [Hl _].
  unfold grep_q. rewrite Hl. apply ensure_all_sets.
Qed.

Lemma incl_first_defaults : incl fix_agent_first fix_agent_defaults.
Proof. intros x Hx. unfold fix_agent_defaults. apply in_or_app. now left. Qed.

Lemma Forall_incl {A} (P : A -> Prop) (l l' : list A) :
  incl l l' -> Forall P l' -> Forall P l.
Proof.
  intros Hi Hf. apply Forall_forall. intros x Hx.
  exact (proj1 (Forall_forall P l') Hf x (Hi x Hx)).
Qed.

(** ** Characters of a file *)

Fixpoint has (c : ascii) (s : string) : bool :=
  match s with
  | EmptyString => false
  | String x r => Ascii.eqb x c || has c r
  end.

Lemma includes_has (c : ascii) (s : string) :
  Js.includes s (String c EmptyString) = has c s.
Proof.
  induction s as [|x s IH]; [reflexivity|].
  cbn [Js.includes has prefix]. rewrite IH.
  destruct (ascii_dec c x) as [<-|Hne].
  - rewrite prefix_nil, Ascii.eqb_refl. reflexivity.
  - apply not_eq_sym in Hne. apply Ascii.eqb_neq in Hne. now rewrite Hne.
Qed.

Lemma has_app (c : ascii) (a b : string) :
  has c (a ++ b) = has c a || has c b.
Proof.
  induction a as [|x a IH]; [reflexivity|].
  cbn [append has]. now rewrite IH, orb_assoc.
Qed.

(** A character that is not the newline is in the file when it is in one
    of its lines. *)
Lemma has_lines (c : ascii) (f : string) :
  Ascii.eqb newline_char c = false ->
  has c f = existsb (has c) (lines f).
Proof.
  intros Hc. induction f as [|x f IH]; [reflexivity|].
  rewrite EnvFacts.lines_cons. cbn [has].
  destruct (Ascii.eqb x newline_char) eqn:Hx.
  - apply Ascii.eqb_eq in Hx. subst x. rewrite Hc. cbn [existsb has orb].
    exact IH.
  - rewrite IH. destruct (lines f) as [|h t]; cbn [existsb has].
    + now rewrite !orb_false_r.
    + now rewrite orb_assoc.
Qed.

(** What the checks write has no character that the lines of the table do
    not have. *)
Lemma ensure_all_writes (c : ascii) (l : list (string * string)) :
  Ascii.eqb newline_char c = false ->
  Forall (fun kd => has c (fst kd ++ "=" ++ snd kd) = false) l ->
  forall env, has c env = false -> has c (ensure_all l env) = false.
Proof.
  intros Hc. induction 1 as [|kd l Hkd _ IH]; intros env He; [exact He|].
  change (ensure_all (kd :: l) env)
    with (ensure_all l (ensure (fst kd) (snd kd) env)).
  apply IH. unfold ensure, append_line.
  destruct (grep_q (fst kd ++ "=") env); [exact He|].
  rewrite (has_app c env), He.
  rewrite (has_app c (fst kd ++ "=" ++ snd kd) newline), Hkd.
  cbn [has orb newline]. now rewrite Hc.
Qed.

(** On a file whose last line has no newline after it the first line that
    is written continues that line, and a second run writes again the key
    that the first run wrote there. *)
Lemma second_run_after_glue :
  env_after (fix_agent EnvExamples.obliging (Some "FOO=bar"))
  = "FOO=barEXECUTE_TOOLS=1" ++ newline ++ "COLLOQUIAL_ENABLED=1" ++ newline
    ++ "MAX_TOOL_LOOPS=3" ++ newline ++ "LLM_REPORT_ENHANCEMENT=1" ++ newline
    ++ "OPENAI_API_KEY=" ++ newline ++ "FMP_API_KEY=" ++ newline
    ++ "OUTPUT_DIR=./outputs" ++ newline ++ "PDF_ENGINE=weasyprint" ++ newline
    ++ "VECTORSTORE_DIR=./vector_store" ++ newline
  /\ env_after
       (fix_agent EnvExamples.obliging
          (Some (env_after (fix_agent EnvExamples.obliging (Some "FOO=bar")))))
     = env_after (fix_agent EnvExamples.obliging (Some "FOO=bar"))
       ++ "EXECUTE_TOOLS=1" ++ newline.
Proof. split; reflexivity. Qed.

End EnvMoreFacts.





(** X26: the summary at the end of [fix_agent.sh] tests the API keys with
    [grep -q "^KEY=.+"], a basic regular expression in which the plus sign
    is an ordinary character.  So the summary says that a key is set exactly
    when a line gives it a value whose second character is a plus sign.  When
    no line of the file the script starts from contains a plus sign, the
    summary of the run reports every key as not set or empty, also a key
    that the check at the start of the script found set. *)
Theorem X26_summary_wants_a_plus_sign :
  forall (key : string) (env : EnvScripts.EnvFile)
         (w : EnvScripts.World) (start : option EnvScripts.EnvFile),
    (EnvReport.summary_says_set key env = true <->
     exists (c : ascii) (rest : string),
       In (key ++ "=" ++ String c (String "+" rest)) (EnvScripts.lines env))
    /\ ((forall line, In line (EnvScripts.lines (EnvScripts.agent_start start)) ->
                      Js.includes line "+" = false) ->
        EnvReport.summary_says_set key
          (EnvScripts.env_after (EnvScripts.fix_agent w start)) = false).
Proof.
  intros key env w start.
  assert (Hchar : forall line,
             EnvReport.matches_dot_plus key line = true <->
             exists c rest, line = key ++ "=" ++ String c (String "+" rest)).
  { intros line. unfold EnvReport.matches_dot_plus. split.
    - intros H. apply andb_true_iff in H. destruct H as [Hp Hd].
      revert line Hp Hd. induction key as [|x k IH]; intros line Hp Hd.
      + destruct line as [|e line]; [discriminate Hp|].
        cbn [append prefix] in Hp.
        destruct (ascii_dec "=" e) as [<-|]; [|discriminate Hp].
        cbn in Hd. destruct line as [|c [|p rest]]; try discriminate Hd.
        apply Ascii.eqb_eq in Hd. subst p. now exists c, rest.
      + destruct line as [|e line]; [discriminate Hp|].
        cbn [append prefix] in Hp.
        destruct (ascii_dec x e) as [<-|]; [|discriminate Hp].
        destruct (IH line Hp Hd) as (c & rest & ->). now exists c, rest.
    - intros (c & rest & ->). rewrite EnvMoreFacts.own_line. cbn [andb].
      clear. induction key as [|x k IH]; [reflexivity|]. exact IH. }
  split.
  - unfold EnvReport.summary_says_set. rewrite existsb_exists. split.
    + intros (line & Hin & Hm). apply Hchar in Hm.
      destruct Hm as (c & rest & ->). now exists c, rest.
    + intros (c & rest & Hin). eexists. split; [exact Hin|].
      apply Hchar. now exists c, rest.
  - intros Hno. unfold EnvReport.summary_says_set.
    destruct (existsb (EnvReport.matches_dot_plus key)
                (EnvScripts.lines
                   (EnvScripts.env_after (EnvScripts.fix_agent w start))))
      eqn:He; [|reflexivity].
    apply existsb_exists in He. destruct He as (line & Hin & Hm).
    assert (Hplus : EnvMoreFacts.has "+" line = true).
    { apply Hchar in Hm. destruct Hm as (c & rest & ->).
      rewrite !EnvMoreFacts.has_app. cbn. now rewrite !orb_true_r. }
    assert (Hstart : EnvMoreFacts.has "+" (EnvScripts.agent_start start) = false).
    { rewrite EnvMoreFacts.has_lines by reflexivity.
      destruct (existsb _ _) eqn:E; [|reflexivity].
      apply existsb_exists in E. destruct E as (l0 & Hl0 & Hh).
      rewrite <- EnvMoreFacts.includes_has in Hh.
      now rewrite (Hno l0 Hl0) in Hh. }
    assert (Hafter : EnvMoreFacts.has "+"
                       (EnvScripts.env_after (EnvScripts.fix_agent w start))
                     = false).
    { rewrite EnvFacts.fix_agent_unfold.
      apply EnvMoreFacts.ensure_all_writes; [reflexivity | | exact Hstart].
      unfold EnvFacts.checked_by.
      destruct (EnvScripts.completed _);
        repeat (constructor; [reflexivity|]); constructor. }
    rewrite EnvMoreFacts.has_lines in Hafter by reflexivity.
    assert (Hex : existsb (EnvMoreFacts.has "+")
                    (EnvScripts.lines
                       (EnvScripts.env_after (EnvScripts.fix_agent w start)))
                  = true).
    { apply existsb_exists. now exists line. }
    rewrite Hex in Hafter. discriminate Hafter.
Qed.

(** A key that the first check finds set and the summary of the same run
    reports as not set. *)
Lemma X26_summary_wants_a_plus_sign_witness :
  EnvReport.key_is_set "OPENAI_API_KEY"
    (EnvScripts.agent_start (Some "OPENAI_API_KEY=sk-abc123")) = true
  /\ EnvReport.summary_says_set "OPENAI_API_KEY"
       (EnvScripts.env_after
          (EnvScripts.fix_agent EnvExamples.obliging
             (Some "OPENAI_API_KEY=sk-abc123"))) = false.
Proof.
  split; [reflexivity|].
  apply (proj2 (X26_summary_wants_a_plus_sign "OPENAI_API_KEY" EmptyString
                  EnvExamples.obliging (Some "OPENAI_API_KEY=sk-abc123"))).
  intros line [<-|[]]. reflexivity.
Defined.

(* ================================================================== *)
(** * [trim] on texts that are sent *)
(* ================================================================== *)

Module TrimFacts.

Lemma by_length (P : string -> Prop) :
  (forall s, (forall t, String.length t < String.length s -> P t) -> P s) ->
  forall s, P s.
Proof.
  intros H s. remember (String.length s) as n eqn:Hn.
  revert s Hn. induction n as [n IH] using lt_wf_ind. intros s ->.
  apply H. intros t Ht. now apply (IH (String.length t)).
Qed.

Lemma all_space_cons (c1 : ascii) (r1 : string) :
  Js.all_space (String c1 r1)
  = if Js.is_ascii_space c1 then Js.all_space r1
    else match r1 with
         | String c2 r2 =>
             if Js.is_space2 c1 c2 then Js.all_space r2
             else match r2 with
                  | String c3 r3 =>
                      if Js.is_space3 c1 c2 c3 then Js.all_space r3 else false
                  | EmptyString => false
                  end
         | EmptyString => false
         end.
Proof. reflexivity. Qed.

Lemma trimEnd_cons (c : ascii) (r : string) :
  Js.trimEnd (String c r)
  = if Js.all_space (String c r) then EmptyString else String c (Js.trimEnd r).
Proof. reflexivity. Qed.

Lemma trimStart_cons (c1 : ascii) (r1 : string) :
  Js.trimStart (String c1 r1)
  = if Js.is_ascii_space c1 then Js.trimStart r1
    else match r1 with
         | String c2 r2 =>
             if Js.is_space2 c1 c2 then Js.trimStart r2
             else match r2 with
                  | String c3 r3 =>
                      if Js.is_space3 c1 c2 c3 then Js.trimStart r3
                      else String c1 r1
                  | EmptyString => String c1 r1
                  end
         | EmptyString => String c1 r1
         end.
Proof. reflexivity. Qed.

(** A text that ends with a character of three bytes that is not white
    space is not white space from any place on. *)
Lemma all_space_framed (a b c : ascii) :
  Js.all_space (String a (String b (String c EmptyString))) = false ->
  Js.all_space (String b (String c EmptyString)) = false ->
  Js.all_space (String c EmptyString) = false ->
  forall x, Js.all_space (x ++ String a (String b (String c EmptyString))) = false.
Proof.
  intros H3 H2 H1 x. induction x as [x IH] using by_length.
  destruct x as [|c1 [|c2 [|c3 r3]]]; cbn [append].
  - exact H3.
  - rewrite all_space_cons.
    destruct (Js.is_ascii_space c1); [exact H3|].
    destruct (Js.is_space2 c1 a); [exact H2|].
    destruct (Js.is_space3 c1 a b); [exact H1 | reflexivity].
  - rewrite all_space_cons.
    destruct (Js.is_ascii_space c1);
      [apply (IH (String c2 EmptyString)); cbn; lia|].
    destruct (Js.is_space2 c1 c2); [exact H3|].
    destruct (Js.is_space3 c1 c2 a); [exact H2 | reflexivity].
  - rewrite all_space_cons.
    destruct (Js.is_ascii_space c1);
      [apply (IH (String c2 (String c3 r3))); cbn; lia|].
    destruct (Js.is_space2 c1 c2); [apply (IH (String c3 r3)); cbn; lia|].
    destruct (Js.is_space3 c1 c2 c3); [apply (IH r3); cbn; lia | reflexivity].
Qed.

Lemma trimEnd_framed (a b c : ascii) :
  Js.all_space (String a (String b (String c EmptyString))) = false ->
  Js.all_space (String b (String c EmptyString)) = false ->
  Js.all_space (String c EmptyString) = false ->
  forall x,
    Js.trimEnd (x ++ String a (String b (String c EmptyString)))
    = x ++ String a (String b (String c EmptyString)).
Proof.
  intros H3 H2 H1 x. induction x as [|c1 x IH].
  - cbn [append]. rewrite !trimEnd_cons, H3, H2, H1. reflexivity.
  - cbn [append]. rewrite trimEnd_cons.
    change (String c1 (x ++ String a (String b (String c EmptyString))))
      with (String c1 x ++ String a (String b (String c EmptyString))).
    rewrite (all_space_framed a b c H3 H2 H1). cbn [append]. now rewrite IH.
Qed.

(** What [trimEnd] leaves does not end with white space. *)
Lemma all_space_trimEnd (x : string) :
  Js.all_space x = false -> Js.all_space (Js.trimEnd x) = false.
Proof.
  induction x as [x IH] using by_length. intros H.
  destruct x as [|c1 r1]; [discriminate H|].
  rewrite trimEnd_cons, H. rewrite all_space_cons in H |- *.
  destruct (Js.is_ascii_space c1).
  { apply IH; [cbn; lia | exact H]. }
  destruct r1 as [|c2 r2]; [reflexivity|].
  rewrite trimEnd_cons.
  destruct (Js.all_space (String c2 r2)); [reflexivity|].
  destruct (Js.is_space2 c1 c2).
  { apply IH; [cbn; lia | exact H]. }
  destruct r2 as [|c3 r3]; [reflexivity|].
  rewrite trimEnd_cons.
  destruct (Js.all_space (String c3 r3)); [reflexivity|].
  destruct (Js.is_space3 c1 c2 c3); [|reflexivity].
  apply IH; [cbn; lia | exact H].
Qed.

Lemma trimEnd_idempotent (x : string) :
  Js.trimEnd (Js.trimEnd x) = Js.trimEnd x.
Proof.
  induction x as [|c r IH]; [reflexivity|].
  rewrite trimEnd_cons.
  destruct (Js.all_space (String c r)) eqn:Hs; [reflexivity|].
  rewrite trimEnd_cons, IH.
  assert (H : Js.all_space (Js.trimEnd (String c r)) = false)
    by (now apply all_space_trimEnd).
  rewrite trimEnd_cons, Hs in H. now rewrite H.
Qed.

(** The text does not start with white space. *)
Definition starts_clean (t : string) : Prop :=
  match t with
  | EmptyString => True
  | String c1 r1 =>
      Js.is_ascii_space c1 = false
      /\ match r1 with
         | EmptyString => True
         | String c2 r2 =>
             Js.is_space2 c1 c2 = false
             /\ match r2 with
                | EmptyString => True
                | String c3 _ => Js.is_space3 c1 c2 c3 = false
                end
         end
  end.

Lemma trimStart_clean (s : string) : starts_clean (Js.trimStart s).
Proof.
  induction s as [s IH] using by_length.
  destruct s as [|c1 r1]; [exact I|].
  rewrite trimStart_cons.
  destruct (Js.is_ascii_space c1) eqn:H1; [apply IH; cbn; lia|].
  destruct r1 as [|c2 r2]; [cbn; now rewrite H1|].
  destruct (Js.is_space2 c1 c2) eqn:H2; [apply IH; cbn; lia|].
  destruct r2 as [|c3 r3]; [cbn; now rewrite H1, H2|].
  destruct (Js.is_space3 c1 c2 c3) eqn:H3; [apply IH; cbn; lia|].
  cbn. now rewrite H1, H2, H3.
Qed.

Lemma clean_trimStart (t : string) : starts_clean t -> Js.trimStart t = t.
Proof.
  destruct t as [|c1 r1]; [reflexivity|].
  intros [H1 H]. rewrite trimStart_cons, H1.
  destruct r1 as [|c2 r2]; [reflexivity|].
  destruct H as [H2 H]. rewrite H2.
  destruct r2 as [|c3 r3]; [reflexivity|].
  now rewrite H.
Qed.

Lemma clean_trimEnd (t : string) : starts_clean t -> starts_clean (Js.trimEnd t).
Proof.
  destruct t as [|c1 r1]; [intros _; exact I|].
  intros [H1 H]. rewrite trimEnd_cons.
  destruct (Js.all_space (String c1 r1)); [exact I|].
  split; [exact H1|].
  destruct r1 as [|c2 r2]; [exact I|].
  destruct H as [H2 H]. rewrite trimEnd_cons.
  destruct (Js.all_space (String c2 r2)); [exact I|].
  split; [exact H2|].
  destruct r2 as [|c3 r3]; [exact I|].
  rewrite trimEnd_cons.
  destruct (Js.all_space (String c3 r3)); [exact I | exact H].
Qed.

(** [s.trim().trim()] is [s.trim()]. *)
Lemma trim_idempotent (s : string) : Js.trim (Js.trim s) = Js.trim s.
Proof.
  unfold Js.trim.
  rewrite (clean_trimStart (Js.trimEnd (Js.trimStart s))).
  - apply trimEnd_idempotent.
  - apply clean_trimEnd. apply trimStart_clean.
Qed.

(** A text between a first character that is not white space and a last
    character of three bytes that is not white space is left as it is. *)
Lemma trim_framed (a b c : ascii) (x : string) :
  Js.all_space (String a (String b (String c EmptyString))) = false ->
  Js.all_space (String b (String c EmptyString)) = false ->
  Js.all_space (String c EmptyString) = false ->
  starts_clean (x ++ String a (String b (String c EmptyString))) ->
  Js.trim (x ++ String a (String b (String c EmptyString)))
  = x ++ String a (String b (String c EmptyString)).
Proof.
  intros H3 H2 H1 Hc. unfold Js.trim.
  rewrite (clean_trimStart _ Hc). now apply trimEnd_framed.
Qed.

Lemma truthy_append (a b : string) :
  Js.truthy a = true -> Js.truthy (a ++ b) = true.
Proof. destruct a as [|c a]; [discriminate | reflexivity]. Qed.

End TrimFacts.

(* ================================================================== *)
(** * Properties of the tabs and of the chat box *)
(* ================================================================== *)

Module TabFacts.
Import Types Api useAgentChat.

Section WithRuntime.

Variable base : option string.
Variable now : string.
Variable uuidv4 toISOString : nat -> string.
Variable fetch : FetchRequest -> FetchOutcome AgentRunResponse.

(** The text [query] has gone to the agent as it is: one request whose
    query is [query], for the session of the hook, and the user's message
    with [query] after the messages that were there. *)
Definition sent_as_is (query : string) (chat : ChatState)
           (outcome : list FetchRequest * ChatState) : Prop :=
  exists (request : AgentRunRequest) (user_message : ChatMessage)
         (rest : list ChatMessage),
    fst outcome = [ApiFacts.agent_request base request]
    /\ Types.query request = query
    /\ req_input_type request = Types.text
    /\ session_id request = Some (sessionId chat)
    /\ messages (snd outcome) = (messages chat ++ user_message :: rest)%list
    /\ Types.type user_message = user
    /\ content user_message = query
    /\ loading (snd outcome) = false.

(** [send] on a text that [trim] leaves as it is. *)
Lemma send_as_is (query : string) (chat : ChatState) :
  Js.trim query = query ->
  Js.truthy query = true ->
  loading chat = false ->
  sent_as_is query chat (send base now uuidv4 toISOString fetch query chat).
Proof.
  intros Htrim Ht Hl.
  rewrite ChatFacts.send_unfold by (rewrite ?Htrim; assumption).
  set (w := ChatFacts.waiting uuidv4 toISOString query chat).
  assert (Hgrow : exists rest,
             messages
               (setLoading false
                  match snd (runAgent base now fetch (prepare query chat)) with
                  | Fulfilled response =>
                      on_response uuidv4 toISOString response w
                  | Rejected apiError =>
                      on_rejection uuidv4 toISOString apiError w
                  end)
             = (messages w ++ rest)%list).
  { destruct (snd (runAgent base now fetch (prepare query chat)))
      as [response|apiError].
    - destruct (ChatMoreFacts.grows_on_response uuidv4 toISOString response w)
        as (k & rest & Hm & _).
      exists rest. exact Hm.
    - destruct (ChatMoreFacts.grows_on_rejection uuidv4 toISOString apiError w)
        as (rest & Hm & _).
      exists rest. exact Hm. }
  destruct Hgrow as (rest & Hm).
  exists (prepare query chat).
  exists (mkChatMessage (uuidv4 (drawn chat)) user query
                        (toISOString (drawn chat)) None None).
  exists rest. cbn [fst snd].
  split; [reflexivity|]. split; [exact Htrim|].
  split; [reflexivity|]. split; [reflexivity|].
  split; [|repeat split].
  rewrite Hm. subst w.
  cbn [ChatFacts.waiting messages addMessage setError setLoading].
  rewrite Htrim, <- app_assoc. reflexivity.
Qed.

End WithRuntime.

(** A text with a first character and a last character of three bytes that
    are not white space. *)
Lemma trim_sandwich (head mid pre : string) (a b c : ascii) :
  Js.all_space (String a (String b (String c EmptyString))) = false ->
  Js.all_space (String b (String c EmptyString)) = false ->
  Js.all_space (String c EmptyString) = false ->
  (forall y, TrimFacts.starts_clean (head ++ y)) ->
  Js.trim (head ++ mid ++ pre ++ String a (String b (String c EmptyString)))
  = head ++ mid ++ pre ++ String a (String b (String c EmptyString)).
Proof.
  intros H3 H2 H1 Hc.
  rewrite <- (EnvFacts.append_assoc mid pre).
  rewrite <- (EnvFacts.append_assoc head (mid ++ pre)).
  apply TrimFacts.trim_framed; try assumption.
  rewrite EnvFacts.append_assoc. apply Hc.
Qed.

Lemma news_query_trimmed (keywords : string) :
  Js.trim (TopTabs.news_query keywords) = TopTabs.news_query keywords.
Proof.
  unfold TopTabs.news_query.
  change " 近 10 則"%string with (" 近 10 " ++ "則")%string.
  apply trim_sandwich; try reflexivity.
  intros y. cbn. repeat split.
Qed.

Lemma stock_query_trimmed (toUpperCase : string -> string) (symbols : string) :
  Js.trim (TopTabs.stock_query toUpperCase symbols)
  = TopTabs.stock_query toUpperCase symbols.
Proof.
  unfold TopTabs.stock_query.
  change " 報價"%string with (" 報" ++ "價")%string.
  apply trim_sandwich; try reflexivity.
  intros y. cbn. repeat split.
Qed.

Lemma economic_query_trimmed (country : TopTabs.Country)
      (indicator : TopTabs.EconomicIndicator) :
  Js.trim (TopTabs.economic_query country indicator)
  = TopTabs.economic_query country indicator.
Proof. destruct country, indicator; reflexivity. Qed.

Lemma submit_as_is base now uuidv4 toISOString fetch
      (query : string) (chat : ChatState) :
  Js.trim query = query ->
  Js.truthy query = true ->
  loading chat = false ->
  sent_as_is base query chat
    (fst (fst (TopTabs.submit base now uuidv4 toISOString fetch query chat)),
     snd (TopTabs.submit base now uuidv4 toISOString fetch query chat))
  /\ snd (fst (TopTabs.submit base now uuidv4 toISOString fetch query chat))
     = false.
Proof.
  intros Htrim Ht Hl. unfold TopTabs.submit.
  pose proof (send_as_is base now uuidv4 toISOString fetch query chat
                Htrim Ht Hl) as H.
  destruct (send base now uuidv4 toISOString fetch query chat) as [sent chat'].
  split; [exact H | reflexivity].
Qed.

(** The pieces of a text between commas. *)
Lemma join_nil_of_blank (toUpperCase : string -> string) (symbols : string) :
  toUpperCase EmptyString = EmptyString ->
  (forall piece, In piece (EnvScripts.split_on "," symbols) ->
                 Js.trim piece = EmptyString) ->
  TopTabs.fmtStockSymbols toUpperCase symbols = [].
Proof.
  intros Hup Hall. unfold TopTabs.fmtStockSymbols.
  induction (EnvScripts.split_on "," symbols) as [|piece l IH]; [reflexivity|].
  cbn [map filter]. unfold TopTabs.fmtStockSymbol at 1.
  rewrite (Hall piece) by now left. rewrite Hup. cbn [Js.truthy].
  apply IH. intros p Hp. apply Hall. now right.
Qed.

End TabFacts.

(** X27: the news tab sends nothing for keywords that are blank.  For other
    keywords, while the chat hook is not loading, it sends one request whose
    query is "查詢新聞 <keywords, trimmed> 近 10 則" to the letter, the [trim] of
    [send] changing nothing, and the chat hook gets the user's message with
    that text; the tab is not loading afterwards. *)
Theorem X27_news_tab_query :
  forall (base : option string) (now : string)
         (uuidv4 toISOString : nat -> string)
         (fetch : Api.FetchRequest -> Api.FetchOutcome Types.AgentRunResponse)
         (keywords : string) (loading : bool) (chat : useAgentChat.ChatState),
    let outcome :=
      TopTabs.NewsTab_handleSubmit base now uuidv4 toISOString fetch
                                   keywords loading chat in
    (Js.truthy (Js.trim keywords) = false -> outcome = ([], loading, chat))
    /\ (Js.truthy (Js.trim keywords) = true ->
        useAgentChat.loading chat = false ->
        TabFacts.sent_as_is base
          ("查詢新聞 " ++ Js.trim keywords ++ " 近 10 則") chat
          (fst (fst outcome), snd outcome)
        /\ snd (fst outcome) = false).
Proof.
  intros base now uuidv4 toISOString fetch keywords loading chat outcome.
  subst outcome. unfold TopTabs.NewsTab_handleSubmit. split.
  - intros ->. reflexivity.
  - intros -> Hl. cbn [negb].
    apply TabFacts.submit_as_is;
      [apply TabFacts.news_query_trimmed | reflexivity | exact Hl].
Qed.

(** Keywords with spaces around them. *)
Lemma X27_news_tab_query_witness :
  TabFacts.sent_as_is None "查詢新聞 Fed 近 10 則"
    (useAgentChat.initial Examples.uuid)
    (fst (fst (TopTabs.NewsTab_handleSubmit None "now" Examples.uuid
                 Examples.date (Examples.answers Examples.warned)
                 " Fed  " false (useAgentChat.initial Examples.uuid))),
     snd (TopTabs.NewsTab_handleSubmit None "now" Examples.uuid
            Examples.date (Examples.answers Examples.warned)
            " Fed  " false (useAgentChat.initial Examples.uuid))).
Proof.
  exact (proj1 (proj2
    (X27_news_tab_query None "now" Examples.uuid Examples.date
       (Examples.answers Examples.warned) " Fed  " false
       (useAgentChat.initial Examples.uuid)) eq_refl eq_refl)).
Defined.

(** X28: the stock tab sends nothing for symbols that are blank.  For other
    symbols, while the chat hook is not loading, it sends one request whose
    query is "查詢個股 <symbols> 報價" to the letter, the symbols being the
    formatted pieces that are not empty, joined with ", ".  The test of the
    tab is on the whole text, so a text that is not blank whose pieces are
    all blank, commas only for one, is sent as a query that names no
    symbol. *)
Theorem X28_stock_tab_query :
  forall (base : option string) (now : string)
         (uuidv4 toISOString : nat -> string)
         (fetch : Api.FetchRequest -> Api.FetchOutcome Types.AgentRunResponse)
         (toUpperCase : string -> string)
         (symbols : string) (loading : bool) (chat : useAgentChat.ChatState),
    let outcome :=
      TopTabs.StockTab_handleSubmit base now uuidv4 toISOString fetch
                                    toUpperCase symbols loading chat in
    (Js.truthy (Js.trim symbols) = false -> outcome = ([], loading, chat))
    /\ (Js.truthy (Js.trim symbols) = true ->
        useAgentChat.loading chat = false ->
        TabFacts.sent_as_is base
          ("查詢個股 "
           ++ Js.join ", " (TopTabs.fmtStockSymbols toUpperCase symbols)
           ++ " 報價") chat
          (fst (fst outcome), snd outcome)
        /\ snd (fst outcome) = false)
    /\ Forall (fun s => s <> EmptyString)
              (TopTabs.fmtStockSymbols toUpperCase symbols)
    /\ (toUpperCase EmptyString = EmptyString ->
        (forall piece, In piece (EnvScripts.split_on "," symbols) ->
                       Js.trim piece = EmptyString) ->
        TopTabs.stock_query toUpperCase symbols = "查詢個股  報價").
Proof.
  intros base now uuidv4 toISOString fetch toUpperCase symbols loading chat
         outcome.
  subst outcome. unfold TopTabs.StockTab_handleSubmit.
  split; [|split; [|split]].
  - intros ->. reflexivity.
  - intros -> Hl. cbn [negb].
    apply TabFacts.submit_as_is;
      [apply TabFacts.stock_query_trimmed | reflexivity | exact Hl].
  - unfold TopTabs.fmtStockSymbols. apply Forall_forall. intros s Hs.
    apply filter_In in Hs. destruct Hs as [_ Hs]. now destruct s.
  - intros Hup Hall. unfold TopTabs.stock_query.
    now rewrite (TabFacts.join_nil_of_blank toUpperCase symbols Hup Hall).
Qed.

(** A comma alone is sent. *)
Lemma X28_stock_tab_query_witness :
  TabFacts.sent_as_is None "查詢個股  報價"
    (useAgentChat.initial Examples.uuid)
    (fst (fst (TopTabs.StockTab_handleSubmit None "now" Examples.uuid
                 Examples.date (Examples.answers Examples.warned)
                 (fun s => s) "," false (useAgentChat.initial Examples.uuid))),
     snd (TopTabs.StockTab_handleSubmit None "now" Examples.uuid
            Examples.date (Examples.answers Examples.warned)
            (fun s => s) "," false (useAgentChat.initial Examples.uuid))).
Proof.
  exact (proj1 (proj1 (proj2
    (X28_stock_tab_query None "now" Examples.uuid Examples.date
       (Examples.answers Examples.warned) (fun s => s) "," false
       (useAgentChat.initial Examples.uuid))) eq_refl eq_refl)).
Defined.

(** X29: the economic tab has a label for every country and indicator of
    the types, so that the value itself is never put into the query, and,
    while the chat hook is not loading, every selection sends one request
    whose query is "<country label> <indicator label> 最近 6 期" to the
    letter. *)
Theorem X29_economic_tab_query :
  forall (base : option string) (now : string)
         (uuidv4 toISOString : nat -> string)
         (fetch : Api.FetchRequest -> Api.FetchOutcome Types.AgentRunResponse)
         (country : TopTabs.Country) (indicator : TopTabs.EconomicIndicator)
         (chat : useAgentChat.ChatState),
    useAgentChat.loading chat = false ->
    let outcome :=
      TopTabs.EconomicTab_handleSubmit base now uuidv4 toISOString fetch
                                       country indicator chat in
    exists country_label indicator_label : string,
      In (TopTabs.Country_value country, country_label) TopTabs.countries
      /\ In (TopTabs.EconomicIndicator_value indicator, indicator_label)
            TopTabs.indicators
      /\ TabFacts.sent_as_is base
           (country_label ++ " " ++ indicator_label ++ " 最近 6 期") chat
           (fst (fst outcome), snd outcome)
      /\ snd (fst outcome) = false.
Proof.
  intros base now uuidv4 toISOString fetch country indicator chat Hl outcome.
  subst outcome. unfold TopTabs.EconomicTab_handleSubmit.
  assert (Hq : exists lc li,
             In (TopTabs.Country_value country, lc) TopTabs.countries
             /\ In (TopTabs.EconomicIndicator_value indicator, li)
                   TopTabs.indicators
             /\ TopTabs.economic_query country indicator
                = lc ++ " " ++ li ++ " 最近 6 期").
  { destruct country, indicator; do 2 eexists;
      (split; [|split; [|reflexivity]]); cbn; tauto. }
  destruct Hq as (lc & li & Hc & Hi & Hq).
  exists lc, li. split; [exact Hc|]. split; [exact Hi|].
  rewrite <- Hq.
  apply TabFacts.submit_as_is;
    [apply TabFacts.economic_query_trimmed | | exact Hl].
  destruct country, indicator; reflexivity.
Qed.

(** The selection the tab starts with. *)
Lemma X29_economic_tab_query_witness :
  exists country_label indicator_label : string,
    In ("US", country_label) TopTabs.countries
    /\ In ("CPI", indicator_label) TopTabs.indicators
    /\ TabFacts.sent_as_is None
         (country_label ++ " " ++ indicator_label ++ " 最近 6 期")
         (useAgentChat.initial Examples.uuid)
         (fst (fst (TopTabs.EconomicTab_handleSubmit None "now" Examples.uuid
                      Examples.date (Examples.answers Examples.warned)
                      TopTabs.US TopTabs.CPI
                      (useAgentChat.initial Examples.uuid))),
          snd (TopTabs.EconomicTab_handleSubmit None "now" Examples.uuid
                 Examples.date (Examples.answers Examples.warned)
                 TopTabs.US TopTabs.CPI (useAgentChat.initial Examples.uuid)))
    /\ snd (fst (TopTabs.EconomicTab_handleSubmit None "now" Examples.uuid
                   Examples.date (Examples.answers Examples.warned)
                   TopTabs.US TopTabs.CPI
                   (useAgentChat.initial Examples.uuid))) = false.
Proof.
  exact (X29_economic_tab_query None "now" Examples.uuid Examples.date
           (Examples.answers Examples.warned) TopTabs.US TopTabs.CPI
           (useAgentChat.initial Examples.uuid) eq_refl).
Defined.

(** X30: the chat box sends nothing for an input that is blank or while the
    hook is loading, and leaves the input as it is.  Otherwise it sends one
    request whose query is the trimmed input, which the second [trim], in
    [send], leaves as it is, and empties the input field. *)
Theorem X30_chat_box_sends_trimmed_input :
  forall (base : option string) (now : string)
         (uuidv4 toISOString : nat -> string)
         (fetch : Api.FetchRequest -> Api.FetchOutcome Types.AgentRunResponse)
         (input : string) (chat : useAgentChat.ChatState),
    let outcome :=
      TopTabs.handleSend base now uuidv4 toISOString fetch input chat in
    (Js.truthy (Js.trim input) = false \/ useAgentChat.loading chat = true ->
     outcome = ([], input, chat))
    /\ (Js.truthy (Js.trim input) = true ->
        useAgentChat.loading chat = false ->
        TabFacts.sent_as_is base (Js.trim input) chat
                            (fst (fst outcome), snd outcome)
        /\ snd (fst outcome) = EmptyString).
Proof.
  intros base now uuidv4 toISOString fetch input chat outcome.
  subst outcome. unfold TopTabs.handleSend. split.
  - intros [->| ->]; [reflexivity|]. now rewrite orb_true_r.
  - intros Ht Hl. rewrite Ht, Hl. cbn [negb orb].
    pose proof (TabFacts.send_as_is base now uuidv4 toISOString fetch
                  (Js.trim input) chat (TrimFacts.trim_idempotent input) Ht Hl)
      as H.
    destruct (useAgentChat.send base now uuidv4 toISOString fetch
                (Js.trim input) chat) as [sent chat'].
    split; [exact H | reflexivity].
Qed.

(** An input with spaces around it. *)
Lemma X30_chat_box_sends_trimmed_input_witness :
  TabFacts.sent_as_is None "AAPL"
    (useAgentChat.initial Examples.uuid)
    (fst (fst (TopTabs.handleSend None "now" Examples.uuid Examples.date
                 (Examples.answers Examples.warned) "  AAPL "
                 (useAgentChat.initial Examples.uuid))),
     snd (TopTabs.handleSend None "now" Examples.uuid Examples.date
            (Examples.answers Examples.warned) "  AAPL "
            (useAgentChat.initial Examples.uuid)))
  /\ snd (fst (TopTabs.handleSend None "now" Examples.uuid Examples.date
                 (Examples.answers Examples.warned) "  AAPL "
                 (useAgentChat.initial Examples.uuid))) = EmptyString.
Proof.
  exact (proj2
    (X30_chat_box_sends_trimmed_input None "now" Examples.uuid Examples.date
       (Examples.answers Examples.warned) "  AAPL "
       (useAgentChat.initial Examples.uuid)) eq_refl eq_refl).
Defined.
